(** * SlideDeck generator: a shallow embedding of [core/slide_generator.py]

    The development models the response extractor, the structure and
    content generators, the visual asset resolver, the batch orchestrator
    and the deck assembler (which payloads become slides, and the text
    assignments that can end the assembling), with the image branch, the
    structure screen, the download name and the document processor, and
    proves the properties stated for them.

    Modelling conventions.
    - Python text is [string]; a character is a code point below 256.
    - A value produced by [json.loads] (or [None]) is a [pyval].  Python
      floats are outside the data model.
    - A Python [dict] is an association list in insertion order.
    - The presentation library is python-pptx with its default template.
      It stores every text it is given; what it does with a value that is
      not a text is a parameter of the assembler ([text_setter]).
    - Code that can raise runs in the [exc] monad; [try]/[except] is
      [try_catch].
    - Calls to the logging functions of the UI toolkit ([st.write],
      [st.error], ...) have no effect on the modelled state and are
      omitted. *)

From Stdlib Require Import String Ascii List ZArith Bool Arith Lia.
From Stdlib Require Import Numbers.DecimalString.
Import ListNotations.

Set Warnings "-register-all".
Local Open Scope list_scope.
Local Open Scope string_scope.

(* ===================================================================== *)
(** * Python values *)
(* ===================================================================== *)

Inductive pyval : Type :=
| PNone
| PBool (b : bool)
| PInt (z : Z)
| PStr (s : string)
| PList (l : list pyval)
| PDict (d : list (string * pyval)).

(** A Python dict with string keys (every dict of this program comes from
    JSON or from a literal with string keys). *)
Definition pydict := list (string * pyval).

(** [d.get(k)] as an option; [d.get(k, default)] is [dict_get_default]. *)
Fixpoint dict_get (d : pydict) (k : string) : option pyval :=
  match d with
  | [] => None
  | (k', v) :: d' => if String.eqb k' k then Some v else dict_get d' k
  end.

Definition dict_get_default (d : pydict) (k : string) (dflt : pyval) : pyval :=
  match dict_get d k with
  | Some v => v
  | None => dflt
  end.

(** [k in d] *)
Definition dict_has (d : pydict) (k : string) : bool :=
  match dict_get d k with Some _ => true | None => false end.

(** [d[k] = v]: an existing key keeps its place, a new key goes last. *)
Fixpoint dict_set (d : pydict) (k : string) (v : pyval) : pydict :=
  match d with
  | [] => [(k, v)]
  | (k', v') :: d' =>
      if String.eqb k' k then (k', v) :: d' else (k', v') :: dict_set d' k v
  end.

(** [dict(pairs)] and the [{**a, **b}] merge: later bindings win. *)
Definition dict_update (d : pydict) (pairs : pydict) : pydict :=
  fold_left (fun acc kv => dict_set acc (fst kv) (snd kv)) pairs d.

(** Truthiness: [bool(v)]. *)
Definition truthy (v : pyval) : bool :=
  match v with
  | PNone => false
  | PBool b => b
  | PInt z => negb (Z.eqb z 0)
  | PStr s => negb (String.eqb s "")
  | PList l => match l with [] => false | _ => true end
  | PDict d => match d with [] => false | _ => true end
  end.

(** [isinstance(v, dict)], [isinstance(v, list)]. *)
Definition is_dict (v : pyval) : bool :=
  match v with PDict _ => true | _ => false end.

Definition is_list (v : pyval) : bool :=
  match v with PList _ => true | _ => false end.

(** Lists and dicts are unhashable: they cannot be looked up in a [set]
    or used as a [dict] key. *)
Definition hashable (v : pyval) : bool :=
  match v with PList _ | PDict _ => false | _ => true end.

(** Python's [==].  [bool] is a subclass of [int], so [True == 1]; lists
    compare element-wise; dicts compare as finite maps. *)
Fixpoint py_eq (a b : pyval) {struct a} : bool :=
  match a, b with
  | PNone, PNone => true
  | PBool x, PBool y => Bool.eqb x y
  | PBool x, PInt y => Z.eqb (if x then 1 else 0) y
  | PInt x, PBool y => Z.eqb x (if y then 1 else 0)
  | PInt x, PInt y => Z.eqb x y
  | PStr x, PStr y => String.eqb x y
  | PList x, PList y =>
      (fix list_eq (x y : list pyval) {struct x} : bool :=
         match x, y with
         | [], [] => true
         | u :: x', w :: y' => py_eq u w && list_eq x' y'
         | _, _ => false
         end) x y
  | PDict x, PDict y =>
      Nat.eqb (List.length x) (List.length y) &&
      (fix dict_sub (x : pydict) {struct x} : bool :=
         match x with
         | [] => true
         | (k, u) :: x' =>
             match dict_get y k with
             | Some w => py_eq u w
             | None => false
             end && dict_sub x'
         end) x
  | _, _ => false
  end.

(** [v == "literal"] *)
Definition eq_str (v : pyval) (s : string) : bool := py_eq v (PStr s).

(* ===================================================================== *)
(** * Exceptions *)
(* ===================================================================== *)

Inductive exn_kind : Type :=
| TypeError | ValueError | AttributeError | UnboundLocalError
| IndexError | OtherError.

Record exn : Type := mkExn { exn_kind_of : exn_kind; exn_msg : string }.

Inductive exc (A : Type) : Type :=
| Ok (a : A)
| Raise (e : exn).
Arguments Ok {A} a.
Arguments Raise {A} e.

Definition bind {A B : Type} (m : exc A) (f : A -> exc B) : exc B :=
  match m with
  | Ok a => f a
  | Raise e => Raise e
  end.

Notation "x <- m ;; k" := (bind m (fun x => k))
  (at level 61, m at next level, right associativity).

(** [try: body except Exception as e: handler(e)] *)
Definition try_catch {A : Type} (body : exc A) (handler : exn -> exc A) : exc A :=
  match body with
  | Ok a => Ok a
  | Raise e => handler e
  end.

(* ===================================================================== *)
(** * Text primitives of the Python runtime *)
(* ===================================================================== *)

Definition chr (n : nat) : ascii := ascii_of_nat n.
Definition str1 (c : ascii) : string := String c EmptyString.

(** The double-quote character and the line feed. *)
Definition dq : string := str1 (chr 34).
Definition nl : string := str1 (chr 10).

(** [str.isspace] / the regular-expression class [\s] on code points
    below 256. *)
Definition is_space (c : ascii) : bool :=
  let n := nat_of_ascii c in
  (((9 <=? n) && (n <=? 13)) || ((28 <=? n) && (n <=? 32))
   || (n =? 133) || (n =? 160))%nat.

Fixpoint lstrip (s : string) : string :=
  match s with
  | String c s' => if is_space c then lstrip s' else s
  | EmptyString => EmptyString
  end.

Fixpoint rstrip (s : string) : string :=
  match s with
  | EmptyString => EmptyString
  | String c s' =>
      match rstrip s' with
      | EmptyString => if is_space c then EmptyString else str1 c
      | r => String c r
      end
  end.

(** [s.strip()] *)
Definition strip (s : string) : string := rstrip (lstrip s).

(** [s.startswith(t)] *)
Fixpoint startswith (t s : string) : bool :=
  match t, s with
  | EmptyString, _ => true
  | String a t', String b s' => Ascii.eqb a b && startswith t' s'
  | String _ _, EmptyString => false
  end.

(** The rest of [s] after the prefix [t], when [s] starts with [t]. *)
Fixpoint strip_prefix (t s : string) : option string :=
  match t, s with
  | EmptyString, _ => Some s
  | String a t', String b s' =>
      if Ascii.eqb a b then strip_prefix t' s' else None
  | String _ _, EmptyString => None
  end.

(** [s.find(t)]: the index of the first occurrence. *)
Fixpoint str_find (t s : string) : option nat :=
  if startswith t s then Some 0
  else match s with
       | EmptyString => None
       | String _ s' => option_map S (str_find t s')
       end.

(** [t in s] *)
Definition contains (t s : string) : bool :=
  match str_find t s with Some _ => true | None => false end.

(** [s[:n]] for [n >= 0]. *)
Fixpoint take (n : nat) (s : string) : string :=
  match n, s with
  | S n', String c s' => String c (take n' s')
  | _, _ => EmptyString
  end.

(** [sep.join(parts)] *)
Fixpoint join (sep : string) (parts : list string) : string :=
  match parts with
  | [] => ""
  | [p] => p
  | p :: rest => p ++ sep ++ join sep rest
  end.

(** [s.lower()] on code points below 256. *)
Definition lower_char (c : ascii) : ascii :=
  let n := nat_of_ascii c in
  if (((65 <=? n) && (n <=? 90))
      || ((192 <=? n) && (n <=? 222) && negb (n =? 215)))%nat
  then chr (n + 32) else c.

Fixpoint lower (s : string) : string :=
  match s with
  | EmptyString => EmptyString
  | String c s' => String (lower_char c) (lower s')
  end.

(** [str(z)] for an integer. *)
Definition str_of_Z (z : Z) : string := NilZero.string_of_int (Z.to_int z).

(** Two hexadecimal digits, lowercase as in the escape [\xNN] of [repr]
    or uppercase as in the escape [%XX] of [quote]. *)
Definition hex_digit (upper : bool) (n : nat) : ascii :=
  if (n <? 10)%nat then chr (48 + n)
  else chr ((if upper then 55 else 87) + n).

Definition hex2 (upper : bool) (n : nat) : string :=
  String (hex_digit upper (n / 16)) (str1 (hex_digit upper (n mod 16))).

(** [str.isprintable] on code points below 256. *)
Definition is_printable (c : ascii) : bool :=
  let n := nat_of_ascii c in
  (((32 <=? n) && (n <=? 126)) || ((161 <=? n) && negb (n =? 173)))%nat.

Definition has_char (c : ascii) (s : string) : bool :=
  existsb (Ascii.eqb c) (list_ascii_of_string s).

(** [repr(s)] for a string: single quotes unless the text holds a single
    quote and no double quote. *)
Definition repr_char (quote c : ascii) : string :=
  let n := nat_of_ascii c in
  if Ascii.eqb c quote || (n =? 92)%nat then String (chr 92) (str1 c)
  else if (n =? 9)%nat then String (chr 92) "t"
  else if (n =? 10)%nat then String (chr 92) "n"
  else if (n =? 13)%nat then String (chr 92) "r"
  else if is_printable c then str1 c
  else String (chr 92) (String "x" (hex2 false n)).

Definition repr_str (s : string) : string :=
  let quote :=
    if has_char (chr 39) s && negb (has_char (chr 34) s) then chr 34 else chr 39 in
  str1 quote
  ++ String.concat "" (map (repr_char quote) (list_ascii_of_string s))
  ++ str1 quote.

(** [repr(v)] *)
Fixpoint py_repr (v : pyval) : string :=
  match v with
  | PNone => "None"
  | PBool true => "True"
  | PBool false => "False"
  | PInt z => str_of_Z z
  | PStr s => repr_str s
  | PList l => "[" ++ join ", " (map py_repr l) ++ "]"
  | PDict d =>
      "{" ++ join ", " (map (fun kv => repr_str (fst kv) ++ ": " ++ py_repr (snd kv)) d)
      ++ "}"
  end.

(** [str(v)], which is what an f-string placeholder [{v}] inserts. *)
Definition py_str (v : pyval) : string :=
  match v with
  | PStr s => s
  | _ => py_repr v
  end.

(* ===================================================================== *)
(** * Regular-expression search ([re.search]) *)
(* ===================================================================== *)

(** The three patterns of the extractor are built from literals, the
    classes [\s] and "any character" ([.] under DOTALL, [[\s\S]]), the
    greedy star, the lazy star and one capture group.  Each piece is a
    backtracking matcher in continuation-passing style: it consumes a
    prefix of the text and hands the rest to the continuation; when the
    continuation fails it tries its next alternative. *)
Section Regex.
Context {R : Type}.

(** A literal. *)
Definition lit (t : string) (k : string -> option R) (s : string) : option R :=
  match strip_prefix t s with
  | Some rest => k rest
  | None => None
  end.

(** [p*]: longest run first; [acc] collects the characters consumed. *)
Fixpoint star_greedy (p : ascii -> bool) (k : string -> string -> option R)
         (acc s : string) : option R :=
  match s with
  | String c s' =>
      if p c then
        match star_greedy p k (acc ++ str1 c) s' with
        | Some r => Some r
        | None => k acc s
        end
      else k acc s
  | EmptyString => k acc s
  end.

(** [p*?]: shortest run first. *)
Fixpoint star_lazy (p : ascii -> bool) (k : string -> string -> option R)
         (acc s : string) : option R :=
  match k acc s with
  | Some r => Some r
  | None =>
      match s with
      | String c s' => if p c then star_lazy p k (acc ++ str1 c) s' else None
      | EmptyString => None
      end
  end.

(** [re.search]: the leftmost position at which the pattern matches. *)
Fixpoint search (m : string -> option R) (s : string) : option R :=
  match m s with
  | Some r => Some r
  | None =>
      match s with
      | String _ s' => search m s'
      | EmptyString => None
      end
  end.
End Regex.

Definition any_char (c : ascii) : bool := true.

Definition START_MARK : string := "START OF JSON".
Definition END_MARK : string := "END OF JSON".

(** [re.search(r'START OF JSON\s*([\s\S]*?)\s*END OF JSON', text)],
    returning [group(1)]. *)
Definition re_markers (text : string) : option string :=
  search
    (lit START_MARK
       (star_greedy is_space (fun _ =>
          star_lazy any_char (fun group1 =>
            star_greedy is_space (fun _ =>
              lit END_MARK (fun _ => Some group1)) "") "") ""))
    text.

(** [re.search(r'({.*})', text, re.DOTALL)], returning [group(1)]. *)
Definition re_object (text : string) : option string :=
  search
    (lit "{"
       (star_greedy any_char (fun inner =>
          lit "}" (fun _ => Some ("{" ++ inner ++ "}"))) ""))
    text.

(** [re.search(r'(\[[\s\S]*\])', text, re.DOTALL)], returning [group(1)]. *)
Definition re_array (text : string) : option string :=
  search
    (lit "["
       (star_greedy any_char (fun inner =>
          lit "]" (fun _ => Some ("[" ++ inner ++ "]"))) ""))
    text.

(** The shape the last two patterns share: an opening character, any
    text, a closing character. *)
Definition span_search (o c : ascii) (text : string) : option string :=
  search
    (lit (str1 o)
       (star_greedy any_char (fun inner =>
          lit (str1 c) (fun _ => Some (str1 o ++ inner ++ str1 c))) ""))
    text.

(* ===================================================================== *)
(** * The JSON decoder ([json.loads]) *)
(* ===================================================================== *)

(** What a call of [json.loads] can do. *)
Inductive loads_result : Type :=
| LoadsOk (v : pyval)
| LoadsDecodeError
| LoadsOther (e : exn).

(** The decoder of the standard library, on the data model of this
    development.  It follows the scanner of the [json] package: JSON
    whitespace is space, tab, line feed and carriage return; [strict]
    rejects control characters inside string literals; duplicate keys keep
    the last value.  Number literals with a fraction or an exponent, the
    constants [NaN] and [Infinity], and [\u] escapes of code points above
    255 denote values outside the data model and are reported as
    [ScanOutside].  The recursion limit of the interpreter and its limit
    on the digits of an integer literal are not modelled: the decoder is
    run on short replies only. *)
Inductive scan (A : Type) : Type :=
| Scanned (a : A) (rest : string)
| ScanError
| ScanOutside.
Arguments Scanned {A} a rest.
Arguments ScanError {A}.
Arguments ScanOutside {A}.

Definition is_ch (t : string) (c : ascii) : bool :=
  match t with
  | String a EmptyString => Ascii.eqb a c
  | _ => false
  end.

Definition is_json_ws (c : ascii) : bool :=
  is_ch " " c || is_ch (str1 (chr 9)) c || is_ch nl c || is_ch (str1 (chr 13)) c.

Fixpoint skip_ws (s : string) : string :=
  match s with
  | String c s' => if is_json_ws c then skip_ws s' else s
  | EmptyString => EmptyString
  end.

Definition is_digit (c : ascii) : bool :=
  let n := nat_of_ascii c in ((48 <=? n) && (n <=? 57))%nat.

Definition hex_value (c : ascii) : option nat :=
  let n := nat_of_ascii c in
  if ((48 <=? n) && (n <=? 57))%nat then Some (n - 48)
  else if ((65 <=? n) && (n <=? 70))%nat then Some (n - 55)
  else if ((97 <=? n) && (n <=? 102))%nat then Some (n - 87)
  else None.

(** The digits at the head of [s], as a number, and the rest. *)
Fixpoint scan_digits (acc : Z) (s : string) : Z * string :=
  match s with
  | String c s' =>
      if is_digit c
      then scan_digits (10 * acc + Z.of_nat (nat_of_ascii c - 48)) s'
      else (acc, s)
  | EmptyString => (acc, s)
  end.

Definition head_is (p : ascii -> bool) (s : string) : bool :=
  match s with
  | String c _ => p c
  | EmptyString => false
  end.

(** Does a fraction [\.[0-9]+] or an exponent [[eE][-+]?[0-9]+] follow? *)
Definition float_tail (s : string) : bool :=
  match s with
  | String c s' =>
      if is_ch "." c then head_is is_digit s'
      else if is_ch "e" c || is_ch "E" c then
        match s' with
        | String d s'' =>
            if is_ch "+" d || is_ch "-" d then head_is is_digit s''
            else is_digit d
        | EmptyString => false
        end
      else false
  | EmptyString => false
  end.

(** An integer literal: an optional minus sign, then [0] or a non-zero
    digit followed by digits. *)
Definition scan_number (s : string) : scan pyval :=
  let '(sign, s1) :=
    match s with
    | String c s' => if is_ch "-" c then ((-1)%Z, s') else (1%Z, s)
    | EmptyString => (1%Z, s)
    end in
  match s1 with
  | String c s' =>
      if is_ch "0" c then
        if float_tail s' then ScanOutside else Scanned (PInt 0) s'
      else if is_digit c then
        let '(n, rest) := scan_digits 0 s1 in
        if float_tail rest then ScanOutside else Scanned (PInt (sign * n)) rest
      else ScanError
  | EmptyString => ScanError
  end.

(** The body of a string literal, after its opening quote. *)
Fixpoint scan_string (strict : bool) (acc s : string) : scan string :=
  match s with
  | EmptyString => ScanError
  | String c r =>
      if is_ch dq c then Scanned acc r
      else if is_ch (str1 (chr 92)) c then
        match r with
        | EmptyString => ScanError
        | String e r' =>
            if is_ch dq e || is_ch (str1 (chr 92)) e || is_ch "/" e
            then scan_string strict (acc ++ str1 e) r'
            else if is_ch "b" e then scan_string strict (acc ++ str1 (chr 8)) r'
            else if is_ch "f" e then scan_string strict (acc ++ str1 (chr 12)) r'
            else if is_ch "n" e then scan_string strict (acc ++ str1 (chr 10)) r'
            else if is_ch "r" e then scan_string strict (acc ++ str1 (chr 13)) r'
            else if is_ch "t" e then scan_string strict (acc ++ str1 (chr 9)) r'
            else if is_ch "u" e then
              match r' with
              | String h1 (String h2 (String h3 (String h4 r''))) =>
                  match hex_value h1, hex_value h2, hex_value h3, hex_value h4 with
                  | Some a, Some b, Some c', Some d =>
                      let code := (((a * 16 + b) * 16 + c') * 16 + d)%nat in
                      if (code <? 256)%nat
                      then scan_string strict (acc ++ str1 (chr code)) r''
                      else ScanOutside
                  | _, _, _, _ => ScanError
                  end
              | _ => ScanError
              end
            else ScanError
        end
      else if (nat_of_ascii c <? 32)%nat then
        if strict then ScanError else scan_string strict (acc ++ str1 c) r
      else scan_string strict (acc ++ str1 c) r
  end.

Definition scan_literal (s : string) : scan pyval :=
  match strip_prefix "null" s with
  | Some r => Scanned PNone r
  | None =>
  match strip_prefix "true" s with
  | Some r => Scanned (PBool true) r
  | None =>
  match strip_prefix "false" s with
  | Some r => Scanned (PBool false) r
  | None =>
      if startswith "NaN" s || startswith "Infinity" s || startswith "-Infinity" s
      then ScanOutside
      else scan_number s
  end end end.

(** [scan_value] reads one value; [scan_elements] the elements of an array
    after its opening bracket, from the start of an element;
    [scan_members] the members of an object, from just after the opening
    quote of a key.  The fuel bounds the depth of calls and is never
    exhausted when it starts at twice the length of the text plus two. *)
Fixpoint scan_value (fuel : nat) (strict : bool) (s : string) {struct fuel} : scan pyval :=
  match fuel with
  | O => ScanOutside
  | S fuel' =>
      match s with
      | EmptyString => ScanError
      | String c r =>
          if is_ch dq c then
            match scan_string strict "" r with
            | Scanned str rest => Scanned (PStr str) rest
            | ScanError => ScanError
            | ScanOutside => ScanOutside
            end
          else if is_ch "{" c then
            match skip_ws r with
            | String c1 r1 =>
                if is_ch "}" c1 then Scanned (PDict []) r1
                else if is_ch dq c1 then scan_members fuel' strict [] r1
                else ScanError
            | EmptyString => ScanError
            end
          else if is_ch "[" c then
            match skip_ws r with
            | String c1 r1 =>
                if is_ch "]" c1 then Scanned (PList []) r1
                else scan_elements fuel' strict [] (String c1 r1)
            | EmptyString => ScanError
            end
          else scan_literal s
      end
  end

with scan_elements (fuel : nat) (strict : bool) (acc : list pyval) (s : string)
       {struct fuel} : scan pyval :=
  match fuel with
  | O => ScanOutside
  | S fuel' =>
      match scan_value fuel' strict s with
      | Scanned v r =>
          match skip_ws r with
          | String c1 r1 =>
              if is_ch "]" c1 then Scanned (PList (rev (v :: acc))) r1
              else if is_ch "," c1
              then scan_elements fuel' strict (v :: acc) (skip_ws r1)
              else ScanError
          | EmptyString => ScanError
          end
      | ScanError => ScanError
      | ScanOutside => ScanOutside
      end
  end

with scan_members (fuel : nat) (strict : bool) (acc : pydict) (s : string)
       {struct fuel} : scan pyval :=
  match fuel with
  | O => ScanOutside
  | S fuel' =>
      match scan_string strict "" s with
      | Scanned key r =>
          match skip_ws r with
          | String c1 r1 =>
              if is_ch ":" c1 then
                match scan_value fuel' strict (skip_ws r1) with
                | Scanned v r2 =>
                    match skip_ws r2 with
                    | String c2 r3 =>
                        if is_ch "}" c2
                        then Scanned (PDict (dict_update [] (rev ((key, v) :: acc)))) r3
                        else if is_ch "," c2 then
                          match skip_ws r3 with
                          | String c3 r4 =>
                              if is_ch dq c3
                              then scan_members fuel' strict ((key, v) :: acc) r4
                              else ScanError
                          | EmptyString => ScanError
                          end
                        else ScanError
                    | EmptyString => ScanError
                    end
                | ScanError => ScanError
                | ScanOutside => ScanOutside
                end
              else ScanError
          | EmptyString => ScanError
          end
      | ScanError => ScanError
      | ScanOutside => ScanOutside
      end
  end.

Definition outside_model : exn :=
  mkExn OtherError "value outside the data model".

(** [json.loads(s, strict=strict)]: one value, surrounded by whitespace
    only. *)
Definition json_loads (strict : bool) (s : string) : loads_result :=
  match scan_value (2 * String.length s + 2) strict (skip_ws s) with
  | Scanned v rest =>
      match skip_ws rest with
      | EmptyString => LoadsOk v
      | String _ _ => LoadsDecodeError
      end
  | ScanError => LoadsDecodeError
  | ScanOutside => LoadsOther outside_model
  end.

(* ===================================================================== *)
(** * Response extractor: [SlideGenerator.parse_json_from_response] *)
(* ===================================================================== *)

Definition empty_dict : pyval := PDict [].

(** [isinstance(v, (dict, list))] *)
Definition is_container (v : pyval) : bool := is_dict v || is_list v.

(** Every character of the text is in the class [p]. *)
Fixpoint all_chars (p : ascii -> bool) (s : string) : bool :=
  match s with
  | String c s' => p c && all_chars p s'
  | EmptyString => true
  end.

(** A text made of whitespace only. *)
Abbreviation all_space := (all_chars is_space).

(** No non-empty tail of the text is whitespace only. *)
Definition tail_tight (x : string) : Prop :=
  forall u w, x = u ++ w -> w <> "" -> all_space w = false.

(** The text has no span that opens with [o] and closes, later, with [c]. *)
Definition no_span (o c text : string) : Prop :=
  forall x y z, text <> x ++ o ++ y ++ c ++ z.

Section Extractor.
(** The decoder is a parameter: the extractor is correct for whatever
    [json.loads] returns or raises.  [json_loads] above is the instance
    used to run the extractor. *)
Variable loads : bool -> string -> loads_result.

(** Steps 1 to 3: the candidate text [json_text], [None] when no step
    finds one. *)
Definition find_json_text (response_text : string) : option string :=
  match re_markers response_text with
  | Some group1 => Some (strip group1)
  | None =>
      let stripped_response := strip response_text in
      if startswith "{" stripped_response || startswith "[" stripped_response
      then Some stripped_response
      else
        match re_object response_text with
        | Some group1 => Some (strip group1)
        | None =>
            match re_array response_text with
            | Some group1 => Some (strip group1)
            | None => None
            end
        end
  end.

(** Step 4: the strict parser, then the lenient one; a second
    [JSONDecodeError] is logged and gives the empty dict, any other
    exception propagates to the enclosing handler. *)
Definition parse_json_text (json_text : string) : exc pyval :=
  match loads true json_text with
  | LoadsOk v => Ok v
  | LoadsOther e => Raise e
  | LoadsDecodeError =>
      match loads false json_text with
      | LoadsOk v => Ok v
      | LoadsDecodeError => Ok empty_dict
      | LoadsOther e => Raise e
      end
  end.

(** [response_text] is the text of the model's reply, or [None]. *)
Definition parse_json_from_response (response_text : option string) : exc pyval :=
  parsed_json <-
    try_catch
      (match response_text with
       | None =>
           Raise (mkExn TypeError "expected string or bytes-like object, got 'NoneType'")
       | Some text =>
           match find_json_text text with
           | Some json_text =>
               if truthy (PStr json_text)
               then parse_json_text json_text
               else Ok empty_dict
           | None => Ok empty_dict
           end
       end)
      (fun e =>
         (* the handler logs [response_text[:500]] *)
         match response_text with
         | None => Raise (mkExn TypeError "'NoneType' object is not subscriptable")
         | Some _ => Ok empty_dict
         end) ;;
  if is_dict parsed_json || is_list parsed_json
  then Ok parsed_json
  else Ok empty_dict.

(** What the two parsers make of a candidate: the value of the strict
    parser, else of the lenient one. *)
Definition decoded (json_text : string) : option pyval :=
  match loads true json_text with
  | LoadsOk v => Some v
  | LoadsDecodeError =>
      match loads false json_text with
      | LoadsOk v => Some v
      | _ => None
      end
  | LoadsOther _ => None
  end.
End Extractor.

(* ===================================================================== *)
(** * Environment, state and effects of the generator *)
(* ===================================================================== *)

(** One call of the chat-completion API: the text of the reply, a reply
    whose [message.content] is [None], or an exception of the client. *)
Inductive llm_outcome : Type :=
| LlmText (s : string)
| LlmNoText
| LlmRaise (e : exn).

(** What the generator reads from outside: the environment variable
    [GROQ_API_KEY], the constructor of the API client (which may raise),
    the language model (its answer to the [n]-th call, given the prompt),
    the date [time.strftime('%B %d, %Y')], the clock [int(time.time())]
    (as a function of the number of API calls made so far) and the base
    address of the image service. *)
Record world : Type := mkWorld {
  env_api_key : option string;
  env_new_client : string -> option exn;
  env_llm : nat -> string -> llm_outcome;
  env_today : string;
  env_time : nat -> Z;
  env_base_url : string
}.

(** What the generator changes: whether [self.groq_client] is set, the two
    debug entries of [st.session_state], and the prompts sent to the
    model, oldest first. *)
Record state : Type := mkState {
  groq_client : bool;
  debug_slide_structure : option (list pydict);
  debug_slide_contents : option (list pydict);
  llm_log : list string
}.

(** A computation that reads and writes the state and may raise; the state
    reached when an exception is raised is kept. *)
Definition M (A : Type) : Type := state -> exc A * state.

Definition retM {A : Type} (a : A) : M A := fun st => (Ok a, st).

Definition bindM {A B : Type} (m : M A) (f : A -> M B) : M B :=
  fun st =>
    match m st with
    | (Ok a, st') => f a st'
    | (Raise e, st') => (Raise e, st')
    end.

Definition catchM {A : Type} (body : M A) (handler : exn -> M A) : M A :=
  fun st =>
    match body st with
    | (Ok a, st') => (Ok a, st')
    | (Raise e, st') => handler e st'
    end.

Definition liftM {A : Type} (m : exc A) : M A := fun st => (m, st).

Notation "x <~ m ;; k" := (bindM m (fun x => k))
  (at level 61, m at next level, right associativity).

(** [mapM f l]: run [f] on the elements of [l], in order. *)
Fixpoint mapM {A B : Type} (f : A -> M B) (l : list A) : M (list B) :=
  match l with
  | [] => retM []
  | a :: l' => b <~ f a ;; bs <~ mapM f l' ;; retM (b :: bs)
  end.

(** [type(v).__name__] *)
Definition type_name (v : pyval) : string :=
  match v with
  | PNone => "NoneType"
  | PBool _ => "bool"
  | PInt _ => "int"
  | PStr _ => "str"
  | PList _ => "list"
  | PDict _ => "dict"
  end.

(** The integer behind an [int] or a [bool]. *)
Definition int_value (v : pyval) : option Z :=
  match v with
  | PInt z => Some z
  | PBool b => Some (if b then 1 else 0)%Z
  | _ => None
  end.

(** [len(v)] *)
Definition py_len (v : pyval) : exc nat :=
  match v with
  | PStr s => Ok (String.length s)
  | PList l => Ok (List.length l)
  | PDict d => Ok (List.length d)
  | _ => Raise (mkExn TypeError
                  ("object of type '" ++ type_name v ++ "' has no len()"))
  end.

(** [v < n] for an integer [n] *)
Definition py_lt_nat (v : pyval) (n : nat) : exc bool :=
  match int_value v with
  | Some z => Ok (z <? Z.of_nat n)%Z
  | None => Raise (mkExn TypeError
                     ("'<' not supported between instances of '" ++ type_name v
                      ++ "' and 'int'"))
  end.

(** [l[v]]: a negative index counts from the end. *)
Definition list_item {A : Type} (l : list A) (v : pyval) : exc A :=
  match int_value v with
  | Some z =>
      let i := (if z <? 0 then z + Z.of_nat (List.length l) else z)%Z in
      if (i <? 0)%Z then Raise (mkExn IndexError "list index out of range")
      else match nth_error l (Z.to_nat i) with
           | Some a => Ok a
           | None => Raise (mkExn IndexError "list index out of range")
           end
  | None => Raise (mkExn TypeError
                     ("list indices must be integers or slices, not " ++ type_name v))
  end.

(** [l[i] = a] for [0 <= i] *)
Fixpoint list_assign {A : Type} (l : list A) (i : nat) (a : A) : exc (list A) :=
  match l, i with
  | [], _ => Raise (mkExn IndexError "list assignment index out of range")
  | _ :: l', O => Ok (a :: l')
  | x :: l', S i' =>
      match list_assign l' i' a with
      | Ok r => Ok (x :: r)
      | Raise e => Raise e
      end
  end.

(* ===================================================================== *)
(** * Visual asset resolver: [generate_pollinations_image] *)
(* ===================================================================== *)

Definition placeholder_image_url : string :=
  "https://placehold.co/1024x576/eee/ccc?text=Image+Gen+Error".

(** [urllib.parse.quote]: letters, digits and [_.-~/] are kept, every
    other character becomes the [%XX] escapes of its UTF-8 bytes. *)
Definition url_safe (c : ascii) : bool :=
  let n := nat_of_ascii c in
  (((65 <=? n) && (n <=? 90)) || ((97 <=? n) && (n <=? 122))
   || ((48 <=? n) && (n <=? 57))
   || (n =? 95) || (n =? 46) || (n =? 45) || (n =? 126) || (n =? 47))%nat.

Definition quote_char (c : ascii) : string :=
  let n := nat_of_ascii c in
  if url_safe c then str1 c
  else if (n <? 128)%nat then "%" ++ hex2 true n
  else "%" ++ hex2 true (192 + n / 64) ++ "%" ++ hex2 true (128 + n mod 64).

Definition quote (s : string) : string :=
  String.concat "" (map quote_char (list_ascii_of_string s)).

Definition max_desc_len : nat := 300.

(** [if len(description) > max_desc_len:
       description = description[:max_desc_len] + "..."] *)
Definition truncate_description (description : pyval) : exc pyval :=
  n <- py_len description ;;
  if (max_desc_len <? n)%nat then
    match description with
    | PStr s => Ok (PStr (take max_desc_len s ++ "..."))
    | PList _ =>
        Raise (mkExn TypeError
                 ("can only concatenate list (not " ++ dq ++ "str" ++ dq ++ ") to list"))
    | _ =>
        (* a dict cannot be sliced *)
        Raise (mkExn TypeError "unhashable type: 'slice'")
    end
  else Ok description.

(** The body of the [try] block; [now] is [int(time.time())]. *)
Definition pollinations_url (base_url : string) (now : Z)
           (description : pyval) (context : string) : exc string :=
  description <- truncate_description description ;;
  let image_prompt :=
    "Educational illustration: " ++ py_str description ++ ". Context: " ++ context
    ++ ". Style: clean, professional, clear, high resolution." in
  let encoded_prompt := quote image_prompt in
  let image_url := base_url ++ encoded_prompt in
  let cache_buster := now in
  let width := 1024%Z in
  let height := 576%Z in
  Ok (image_url ++ "?width=" ++ str_of_Z width ++ "&height=" ++ str_of_Z height
      ++ "&seed=" ++ str_of_Z cache_buster ++ "&nologo=true").

Definition generate_pollinations_image (base_url : string) (now : Z)
           (description : pyval) (context : string) : exc string :=
  try_catch (pollinations_url base_url now description context)
            (fun _ => Ok placeholder_image_url).

(* ===================================================================== *)
(** * Prompt templates *)
(* ===================================================================== *)

(** The prompt of [generate_slide_structure]. *)
Definition structure_prompt (topic delivery_medium complexity_level : string) : string :=
  nl
  ++ "            Create a well-structured lecture slide deck outline on: " ++ dq ++ topic ++ dq ++ nl
  ++ "            The lecture is for " ++ (lower complexity_level) ++ " level students, delivered " ++ delivery_medium ++ "." ++ nl
  ++ nl
  ++ "            Your response MUST follow these rules STRICTLY:" ++ nl
  ++ "            1. Provide ONLY JSON output strictly between START OF JSON and END OF JSON markers. Do NOT include any text before START OF JSON or after END OF JSON." ++ nl
  ++ "            2. The JSON MUST be a valid list of JSON objects." ++ nl
  ++ "            3. Each object MUST represent a slide and contain 'slide_number' (int), 'slide_title' (string), and 'slide_type' (string)." ++ nl
  ++ "            4. Use ONLY these exact slide types: " ++ dq ++ "title_slide" ++ dq ++ ", " ++ dq ++ "content_slide" ++ dq ++ ", " ++ dq ++ "bullet_point_slide" ++ dq ++ ", " ++ dq ++ "image_slide" ++ dq ++ ", " ++ dq ++ "conclusion_slide" ++ dq ++ "." ++ nl
  ++ "            5. Use " ++ dq ++ "image_slide" ++ dq ++ " for general illustrative images (generated by Pollinations) that help visualize a concept. Consider topics that can be easily represented by a single, clear image." ++ nl
  ++ "            6. Ensure all strings in the JSON use double quotes (" ++ dq ++ dq ++ ") and any special characters within strings are correctly escaped (e.g., \n, \" ++ dq ++ ")." ++ nl
  ++ "            7. IMPORTANT: If an " ++ dq ++ "image_slide" ++ dq ++ " is required to explain a topic, consider if a preceding " ++ dq ++ "content_slide" ++ dq ++ " with the same " ++ dq ++ "slide_title" ++ dq ++ " is needed to explain the concept verbally first. Pair them logically." ++ nl
  ++ nl
  ++ "            START OF JSON" ++ nl
  ++ "            [" ++ nl
  ++ "                {" ++ nl
  ++ "                    " ++ dq ++ "slide_number" ++ dq ++ ": 1," ++ nl
  ++ "                    " ++ dq ++ "slide_title" ++ dq ++ ": " ++ dq ++ "Introduction to " ++ topic ++ dq ++ "," ++ nl
  ++ "                    " ++ dq ++ "slide_type" ++ dq ++ ": " ++ dq ++ "title_slide" ++ dq ++ nl
  ++ "                }," ++ nl
  ++ "                {" ++ nl
  ++ "                    " ++ dq ++ "slide_number" ++ dq ++ ": 2," ++ nl
  ++ "                    " ++ dq ++ "slide_title" ++ dq ++ ": " ++ dq ++ "[Specific Content-Driven Title]" ++ dq ++ "," ++ nl
  ++ "                    " ++ dq ++ "slide_type" ++ dq ++ ": " ++ dq ++ "content_slide" ++ dq ++ nl
  ++ "                }," ++ nl
  ++ "                 {" ++ nl
  ++ "                    " ++ dq ++ "slide_number" ++ dq ++ ": 3," ++ nl
  ++ "                    " ++ dq ++ "slide_title" ++ dq ++ ": " ++ dq ++ "[Concept Needing Visual Example]" ++ dq ++ "," ++ nl
  ++ "                    " ++ dq ++ "slide_type" ++ dq ++ ": " ++ dq ++ "content_slide" ++ dq ++ nl
  ++ "                }," ++ nl
  ++ "                {" ++ nl
  ++ "                    " ++ dq ++ "slide_number" ++ dq ++ ": 4," ++ nl
  ++ "                    " ++ dq ++ "slide_title" ++ dq ++ ": " ++ dq ++ "[Concept Needing Visual Example]" ++ dq ++ "," ++ nl
  ++ "                    " ++ dq ++ "slide_type" ++ dq ++ ": " ++ dq ++ "image_slide" ++ dq ++ nl
  ++ "                }," ++ nl
  ++ "                ... more slides based on topic and complexity ..." ++ nl
  ++ "                 {" ++ nl
  ++ "                    " ++ dq ++ "slide_number" ++ dq ++ ": N," ++ nl
  ++ "                    " ++ dq ++ "slide_title" ++ dq ++ ": " ++ dq ++ "Conclusion" ++ dq ++ "," ++ nl
  ++ "                    " ++ dq ++ "slide_type" ++ dq ++ ": " ++ dq ++ "conclusion_slide" ++ dq ++ nl
  ++ "                }" ++ nl
  ++ "            ]" ++ nl
  ++ "            END OF JSON" ++ nl
  ++ nl
  ++ "            Decide the total number of slides based on " ++ (lower complexity_level) ++ " complexity and the depth needed for " ++ dq ++ topic ++ dq ++ "." ++ nl
  ++ "            Make titles specific. Use " ++ dq ++ "image_slide" ++ dq ++ " for illustrations of concepts that Pollinations AI can generally depict (e.g., objects, scenes, abstract representations)." ++ nl
  ++ "            Create paired content/visual slides where appropriate. Generate valid JSON according to the rules above." ++ nl
  ++ "            ".

(** The rules shared by the content prompts. *)
Definition json_rules : string :=
  nl
  ++ "            Your response MUST follow these rules STRICTLY:" ++ nl
  ++ "            1. Provide ONLY JSON output strictly between START OF JSON and END OF JSON markers. Do NOT include any text before START OF JSON or after END OF JSON." ++ nl
  ++ "            2. The JSON MUST be a valid JSON object." ++ nl
  ++ "            3. Ensure all strings in the JSON use double quotes (" ++ dq ++ dq ++ ") and escape special characters if needed (e.g., \n, \" ++ dq ++ ")." ++ nl
  ++ "            ".

(** The prompt for a [title_slide]. *)
Definition title_slide_prompt (slide_title : pyval) (topic complexity_level today : string) : string :=
  nl
  ++ "                Create content for the title slide of a " ++ (lower complexity_level) ++ " lecture on " ++ dq ++ topic ++ dq ++ "." ++ nl
  ++ "                Slide title: " ++ dq ++ (py_str slide_title) ++ dq ++ nl
  ++ "                " ++ json_rules ++ nl
  ++ "                START OF JSON" ++ nl
  ++ "                {" ++ nl
  ++ "                    " ++ dq ++ "title" ++ dq ++ ": " ++ dq ++ (py_str slide_title) ++ dq ++ "," ++ nl
  ++ "                    " ++ dq ++ "subtitle" ++ dq ++ ": " ++ dq ++ "An Engaging Subtitle Relevant to " ++ topic ++ dq ++ "," ++ nl
  ++ "                    " ++ dq ++ "presenter" ++ dq ++ ": " ++ dq ++ "Your Name / Affiliation" ++ dq ++ "," ++ nl
  ++ "                    " ++ dq ++ "date" ++ dq ++ ": " ++ dq ++ today ++ dq ++ nl
  ++ "                }" ++ nl
  ++ "                END OF JSON" ++ nl
  ++ "                ".

(** The prompt for a [content_slide]. *)
Definition content_slide_prompt (slide_number slide_title slide_type : pyval) (topic complexity_level explanation_guidance : string) : string :=
  nl
  ++ "                Create concise text content for slide " ++ (py_str slide_number) ++ ", titled " ++ dq ++ (py_str slide_title) ++ dq ++ " (type: " ++ (py_str slide_type) ++ "), for a " ++ (lower complexity_level) ++ " lecture on " ++ dq ++ topic ++ dq ++ "." ++ nl
  ++ "                " ++ explanation_guidance ++ " Aim for 2-3 short paragraphs or key points." ++ nl
  ++ "                " ++ json_rules ++ nl
  ++ "                START OF JSON" ++ nl
  ++ "                {" ++ nl
  ++ "                    " ++ dq ++ "main_content" ++ dq ++ ": [" ++ nl
  ++ "                        " ++ dq ++ "Paragraph 1: Introduce the core idea of '" ++ (py_str slide_title) ++ "'." ++ dq ++ "," ++ nl
  ++ "                        " ++ dq ++ "Paragraph 2: Elaborate with key details or context relevant to " ++ topic ++ "." ++ dq ++ "," ++ nl
  ++ "                        " ++ dq ++ "Paragraph 3 (Optional): Add significance or a brief example." ++ dq ++ nl
  ++ "                    ]," ++ nl
  ++ "                    " ++ dq ++ "needs_image" ++ dq ++ ": false" ++ nl
  ++ "                }" ++ nl
  ++ "                END OF JSON" ++ nl
  ++ "                ".

(** The prompt for a [bullet_point_slide]. *)
Definition bullet_point_slide_prompt (slide_number slide_title slide_type : pyval) (topic complexity_level : string) : string :=
  nl
  ++ "                Create 3-6 concise bullet points for slide " ++ (py_str slide_number) ++ ", titled " ++ dq ++ (py_str slide_title) ++ dq ++ " (type: " ++ (py_str slide_type) ++ "), for a " ++ (lower complexity_level) ++ " lecture on " ++ dq ++ topic ++ dq ++ "." ++ nl
  ++ "                Each point should be short and impactful (under ~150 characters)." ++ nl
  ++ "                " ++ json_rules ++ nl
  ++ "                START OF JSON" ++ nl
  ++ "                {" ++ nl
  ++ "                    " ++ dq ++ "main_content" ++ dq ++ ": [" ++ nl
  ++ "                        " ++ dq ++ "Key point 1 about '" ++ (py_str slide_title) ++ "'." ++ dq ++ "," ++ nl
  ++ "                        " ++ dq ++ "Key point 2, distinct and clear." ++ dq ++ "," ++ nl
  ++ "                        " ++ dq ++ "Key point 3, adding another facet." ++ dq ++ "," ++ nl
  ++ "                        " ++ dq ++ "Key point 4 (if necessary)." ++ dq ++ "," ++ nl
  ++ "                        " ++ dq ++ "Key point 5 (if necessary)." ++ dq ++ nl
  ++ "                    ]," ++ nl
  ++ "                    " ++ dq ++ "needs_image" ++ dq ++ ": false" ++ nl
  ++ "                }" ++ nl
  ++ "                END OF JSON" ++ nl
  ++ "                ".

(** The prompt for an [image_slide]. *)
Definition image_slide_prompt (slide_number slide_title slide_type : pyval) (topic complexity_level : string) : string :=
  nl
  ++ "                 Create content for slide " ++ (py_str slide_number) ++ ", titled " ++ dq ++ (py_str slide_title) ++ dq ++ " (type: " ++ (py_str slide_type) ++ "), for a " ++ (lower complexity_level) ++ " lecture on " ++ dq ++ topic ++ dq ++ "." ++ nl
  ++ "                 This slide needs a general illustrative image from Pollinations.ai." ++ nl
  ++ "                 Generate a descriptive prompt for Pollinations.ai to create a relevant and professional image." ++ nl
  ++ "                 Also include a short caption for the slide. If any text is included in image strictly make sure the spelling is correct." ++ nl
  ++ "                 " ++ json_rules ++ nl
  ++ "                 START OF JSON" ++ nl
  ++ "                 {" ++ nl
  ++ "                     " ++ dq ++ "main_content" ++ dq ++ ": [" ++ nl
  ++ "                         " ++ dq ++ "Caption: Visual illustration related to " ++ (py_str slide_title) ++ dq ++ nl
  ++ "                     ]," ++ nl
  ++ "                     " ++ dq ++ "needs_image" ++ dq ++ ": true," ++ nl
  ++ "                     " ++ dq ++ "image_description" ++ dq ++ ": " ++ dq ++ "A clear, professional illustration depicting [concept related to '" ++ (py_str slide_title) ++ "'] for a " ++ (lower complexity_level) ++ " lecture on '" ++ topic ++ "'. Style: educational, clean background, high resolution." ++ dq ++ nl
  ++ "                 }" ++ nl
  ++ "                 END OF JSON" ++ nl
  ++ "                 ".

(** The prompt for a [conclusion_slide]. *)
Definition conclusion_slide_prompt (slide_number slide_title slide_type : pyval) (topic complexity_level : string) : string :=
  nl
  ++ "                Create content for the final conclusion slide " ++ (py_str slide_number) ++ ", titled " ++ dq ++ (py_str slide_title) ++ dq ++ " (type: " ++ (py_str slide_type) ++ "), for a " ++ (lower complexity_level) ++ " lecture on " ++ dq ++ topic ++ dq ++ "." ++ nl
  ++ "                Summarize 2-4 key takeaways concisely." ++ nl
  ++ "                " ++ json_rules ++ nl
  ++ "                START OF JSON" ++ nl
  ++ "                {" ++ nl
  ++ "                    " ++ dq ++ "main_content" ++ dq ++ ": [" ++ nl
  ++ "                        " ++ dq ++ "Key Takeaway 1: [Summarize main point from lecture]" ++ dq ++ "," ++ nl
  ++ "                        " ++ dq ++ "Key Takeaway 2: [Summarize another crucial concept]" ++ dq ++ "," ++ nl
  ++ "                        " ++ dq ++ "Key Takeaway 3: [Summarize application or implication]" ++ dq ++ "," ++ nl
  ++ "                        " ++ dq ++ "Next Steps / Questions?" ++ dq ++ nl
  ++ "                    ]," ++ nl
  ++ "                    " ++ dq ++ "needs_image" ++ dq ++ ": false" ++ nl
  ++ "                }" ++ nl
  ++ "                END OF JSON" ++ nl
  ++ "                ".

(** The prompt for any other slide type. *)
Definition generic_slide_prompt (slide_number slide_title slide_type : pyval) (topic complexity_level : string) : string :=
  nl
  ++ "                Create generic content for slide " ++ (py_str slide_number) ++ ", titled " ++ dq ++ (py_str slide_title) ++ dq ++ " (type: " ++ (py_str slide_type) ++ "), for a " ++ (lower complexity_level) ++ " lecture on " ++ dq ++ topic ++ dq ++ "." ++ nl
  ++ "                " ++ json_rules ++ nl
  ++ "                START OF JSON" ++ nl
  ++ "                {" ++ nl
  ++ "                    " ++ dq ++ "main_content" ++ dq ++ ": [" ++ nl
  ++ "                        " ++ dq ++ "Placeholder content for '" ++ (py_str slide_title) ++ "'." ++ dq ++ "," ++ nl
  ++ "                        " ++ dq ++ "This slide type ('" ++ (py_str slide_type) ++ "') needs specific handling." ++ dq ++ nl
  ++ "                    ]," ++ nl
  ++ "                    " ++ dq ++ "needs_image" ++ dq ++ ": False # Assuming unknown type doesn't need image by default" ++ nl
  ++ "                }" ++ nl
  ++ "                END OF JSON" ++ nl
  ++ "                ".

(* ===================================================================== *)
(** * The generator *)
(* ===================================================================== *)

Definition valid_slide_types : list string :=
  ["title_slide"; "content_slide"; "bullet_point_slide"; "image_slide";
   "conclusion_slide"].

(** [v in s] for a set [s] of strings: the value is hashed first. *)
Definition set_contains (s : list string) (v : pyval) : exc bool :=
  if hashable v then Ok (existsb (eq_str v) s)
  else Raise (mkExn TypeError ("unhashable type: '" ++ type_name v ++ "'")).

(** The validation loop of [generate_slide_structure]:
    [for i, slide in enumerate(slide_structure)], started at index [i]. *)
Fixpoint process_structure (i : nat) (slide_structure : list pyval)
  : exc (list pydict) :=
  match slide_structure with
  | [] => Ok []
  | slide :: rest =>
      match slide with
      | PDict d =>
          if dict_has d "slide_title" && dict_has d "slide_type" then
            let slide_type := dict_get_default d "slide_type" PNone in
            known <- set_contains valid_slide_types slide_type ;;
            let d1 :=
              if negb known then dict_set d "slide_type" (PStr "content_slide")
              else d in
            let d2 := dict_set d1 "slide_number" (PInt (Z.of_nat i + 1)) in
            processed <- process_structure (S i) rest ;;
            Ok (d2 :: processed)
          else process_structure (S i) rest
      | _ => process_structure (S i) rest
      end
  end.

Definition lead_in_guidance : string :=
  "This slide explains the concept that will be visualized in the *next* image slide. Focus on setting up the visual explanation. Keep text concise.".

Definition default_guidance : string :=
  "Explain the core concept clearly and concisely.".

(** The lookahead of the [content_slide] branch, on the structure kept in
    [st.session_state['debug_slide_structure']]. *)
Definition is_explanation_for_image (session : option (list pydict))
           (slide_number slide_title : pyval) : exc bool :=
  match session with
  | None => Ok false
  | Some structure =>
      outer <- py_lt_nat slide_number (List.length structure) ;;
      if outer then
        inner <- py_lt_nat slide_number (List.length structure) ;;
        if inner then
          next_slide_info <- list_item structure slide_number ;;
          Ok (py_eq (dict_get_default next_slide_info "slide_title" PNone) slide_title
              && eq_str (dict_get_default next_slide_info "slide_type" PNone)
                        "image_slide")
        else Ok false
      else Ok false
  end.

(** The prompt of [generate_slide_content] for one descriptor. *)
Definition slide_prompt (session : option (list pydict)) (slide_info : pydict)
           (topic complexity_level today : string) : exc string :=
  let slide_title := dict_get_default slide_info "slide_title" (PStr "Untitled Slide") in
  let slide_type := dict_get_default slide_info "slide_type" (PStr "content_slide") in
  let slide_number := dict_get_default slide_info "slide_number" (PInt 0) in
  if eq_str slide_type "title_slide" then
    Ok (title_slide_prompt slide_title topic complexity_level today)
  else if eq_str slide_type "content_slide" then
    is_explanation <- is_explanation_for_image session slide_number slide_title ;;
    let explanation_guidance :=
      if is_explanation then lead_in_guidance else default_guidance in
    Ok (content_slide_prompt slide_number slide_title slide_type topic
          complexity_level explanation_guidance)
  else if eq_str slide_type "bullet_point_slide" then
    Ok (bullet_point_slide_prompt slide_number slide_title slide_type topic
          complexity_level)
  else if eq_str slide_type "image_slide" then
    Ok (image_slide_prompt slide_number slide_title slide_type topic complexity_level)
  else if eq_str slide_type "conclusion_slide" then
    Ok (conclusion_slide_prompt slide_number slide_title slide_type topic
          complexity_level)
  else
    Ok (generic_slide_prompt slide_number slide_title slide_type topic complexity_level).

(** The standard error sentinel. *)
Definition sentinel_payload : pydict :=
  [("main_content", PList [PStr "Error: Could not generate content."]);
   ("needs_image", PBool false);
   ("error", PStr "Failed to generate or parse content")].

(** The payload returned by the [except] branch of
    [generate_slide_content]; [exn_msg e] is [str(e)]. *)
Definition exception_payload (e : exn) : pydict :=
  [("main_content", PList [PStr ("Error generating content: " ++ exn_msg e)]);
   ("needs_image", PBool false);
   ("error", PStr (exn_msg e))].

Definition unbound_slide_title : exn :=
  mkExn UnboundLocalError
    "cannot access local variable 'slide_title' where it is not associated with a value".

Section Generator.
Variable loads : bool -> string -> loads_result.
Variable w : world.

Definition init_groq_client_if_needed : M unit :=
  fun st =>
    if groq_client st then (Ok tt, st)
    else
      match env_api_key w with
      | Some api_key =>
          if truthy (PStr api_key) then
            match env_new_client w api_key with
            | None =>
                (Ok tt, mkState true (debug_slide_structure st)
                                (debug_slide_contents st) (llm_log st))
            | Some e =>
                (Raise (mkExn ValueError
                          ("Failed to initialize Groq client: " ++ exn_msg e)), st)
            end
          else
            (Raise (mkExn ValueError "Missing GROQ_API_KEY environment variable"), st)
      | None =>
          (Raise (mkExn ValueError "Missing GROQ_API_KEY environment variable"), st)
      end.

(** [self.groq_client.chat.completions.create(...)] followed by
    [response.choices[0].message.content]. *)
Definition call_llm (prompt : string) : M (option string) :=
  fun st =>
    let st' := mkState (groq_client st) (debug_slide_structure st)
                       (debug_slide_contents st) (llm_log st ++ [prompt])%list in
    match env_llm w (List.length (llm_log st)) prompt with
    | LlmText s => (Ok (Some s), st')
    | LlmNoText => (Ok None, st')
    | LlmRaise e => (Raise e, st')
    end.

Definition set_debug_structure (processed : list pydict) : M unit :=
  fun st =>
    (Ok tt, mkState (groq_client st) (Some processed)
                    (debug_slide_contents st) (llm_log st)).

(** [generate_slide_structure]; its [reference_text] argument is not
    used by the source. *)
Definition generate_slide_structure (topic delivery_medium complexity_level : string)
  : M (list pydict) :=
  catchM
    (_ <~ init_groq_client_if_needed ;;
     let prompt := structure_prompt topic delivery_medium complexity_level in
     result_text <~ call_llm prompt ;;
     slide_structure <~ liftM (parse_json_from_response loads result_text) ;;
     match slide_structure with
     | PList ((_ :: _) as items) =>
         processed_structure <~ liftM (process_structure 0 items) ;;
         _ <~ set_debug_structure processed_structure ;;
         retM processed_structure
     | _ => retM []
     end)
    (fun _ => retM []).

(** [st.session_state['debug_slide_contents'].append(entry)], creating
    the list first when the key is absent. *)
Definition append_debug_contents (entry : pydict) : M unit :=
  fun st =>
    let old := match debug_slide_contents st with
               | Some l => l
               | None => []
               end in
    (Ok tt, mkState (groq_client st) (debug_slide_structure st)
                    (Some (old ++ [entry])%list) (llm_log st)).

(** [generate_slide_content].  The [except] branch names [slide_title],
    which is bound only after the client check: when that check raises,
    the handler itself raises. *)
Definition generate_slide_content (slide_info : pydict)
           (topic complexity_level : string) : M pydict :=
  fun st0 =>
    match init_groq_client_if_needed st0 with
    | (Raise _, st1) => (Raise unbound_slide_title, st1)
    | (Ok _, st1) =>
        let slide_title :=
          dict_get_default slide_info "slide_title" (PStr "Untitled Slide") in
        let slide_type :=
          dict_get_default slide_info "slide_type" (PStr "content_slide") in
        let slide_number := dict_get_default slide_info "slide_number" (PInt 0) in
        catchM
          (prompt <~ (fun st =>
                        (slide_prompt (debug_slide_structure st) slide_info topic
                           complexity_level (env_today w), st)) ;;
           result_text <~ call_llm prompt ;;
           parsed <~ liftM (parse_json_from_response loads result_text) ;;
           let content :=
             match parsed with
             | PDict ((_ :: _) as d) => d
             | _ => sentinel_payload
             end in
           content <~
             (if truthy (dict_get_default content "needs_image" PNone)
                 && eq_str slide_type "image_slide"
              then
                let image_description :=
                  dict_get_default content "image_description"
                    (PStr ("Illustration for " ++ py_str slide_title)) in
                fun st =>
                  match generate_pollinations_image (env_base_url w)
                          (env_time w (List.length (llm_log st)))
                          image_description topic with
                  | Ok image_url =>
                      (Ok (dict_set content "image_url" (PStr image_url)), st)
                  | Raise e => (Raise e, st)
                  end
              else retM content) ;;
           _ <~ append_debug_contents
                  (dict_update [("slide_number", slide_number)] content) ;;
           retM content)
          (fun e => retM (exception_payload e))
          st1
    end.

(** [1 <= slide_num <= total_slides] *)
Definition in_range (slide_num : pyval) (total_slides : nat) : exc bool :=
  match int_value slide_num with
  | Some z => Ok ((1 <=? z) && (z <=? Z.of_nat total_slides))%Z
  | None => Raise (mkExn TypeError
                     ("'<=' not supported between instances of 'int' and '"
                      ++ type_name slide_num ++ "'"))
  end.

(** One turn of the loop of [create_slides_with_content]: where the
    payload of the descriptor at loop index [i] goes. *)
Definition store_content (total_slides i : nat) (slide_num : pyval)
           (content : pydict) (slide_contents : list (option pydict))
  : exc (list (option pydict)) :=
  ok <- in_range slide_num total_slides ;;
  if ok then
    match int_value slide_num with
    | Some z => list_assign slide_contents (Z.to_nat (z - 1)) (Some content)
    | None => Ok slide_contents
    end
  else if (i <? List.length slide_contents)%nat
       then list_assign slide_contents i (Some content)
       else Ok (slide_contents ++ [Some content])%list.

(** [for i, slide_info in enumerate(slide_structure)], from index [i]. *)
Fixpoint fill_contents (topic complexity_level : string) (total_slides i : nat)
         (slide_structure : list pydict) (slide_contents : list (option pydict))
  : M (list (option pydict)) :=
  match slide_structure with
  | [] => retM slide_contents
  | slide_info :: rest =>
      let slide_num :=
        dict_get_default slide_info "slide_number" (PInt (Z.of_nat i + 1)) in
      content <~ generate_slide_content slide_info topic complexity_level ;;
      slide_contents' <~
        liftM (store_content total_slides i slide_num content slide_contents) ;;
      fill_contents topic complexity_level total_slides (S i) rest slide_contents'
  end.

(** [[c for c in slide_contents if c is not None]] *)
Fixpoint not_none {A : Type} (l : list (option A)) : list A :=
  match l with
  | [] => []
  | Some a :: l' => a :: not_none l'
  | None :: l' => not_none l'
  end.

Definition clear_debug : M unit :=
  fun st => (Ok tt, mkState (groq_client st) None None (llm_log st)).

Definition create_slides_with_content
           (topic delivery_medium complexity_level : string)
  : M (list pydict * list pydict) :=
  _ <~ clear_debug ;;
  slide_structure <~ generate_slide_structure topic delivery_medium complexity_level ;;
  match slide_structure with
  | [] => retM ([], [])
  | _ :: _ =>
      let total_slides := List.length slide_structure in
      slide_contents <~
        fill_contents topic complexity_level total_slides 0 slide_structure
          (repeat None total_slides) ;;
      let final_contents := not_none slide_contents in
      retM (slide_structure, final_contents)
  end.
End Generator.

(* ===================================================================== *)
(** * Deck assembler: [create_powerpoint] *)
(* ===================================================================== *)

(** A slide added to the presentation: the layout chosen for it and what
    it is filled from.  The presentation is python-pptx's default
    template: its layouts 0, 1 and 5 have a title placeholder, layout 0 a
    subtitle and layout 1 a body placeholder, layout 6 is blank. *)
Record section : Type := mkSection {
  sec_layout : nat;
  sec_type : pyval;
  sec_title : pyval;
  sec_content : pydict
}.

Definition layout_indices : list (string * nat) :=
  [("title_slide", 0); ("content_slide", 1); ("bullet_point_slide", 1);
   ("image_slide", 6); ("conclusion_slide", 1); ("title_only", 5)].

Definition default_layout_index : nat := 1.

(** [layout_indices.get(slide_type, default_layout_index)] *)
Definition layout_for (slide_type : pyval) : exc nat :=
  if hashable slide_type then
    match slide_type with
    | PStr s =>
        match find (fun kv => String.eqb (fst kv) s) layout_indices with
        | Some kv => Ok (snd kv)
        | None => Ok default_layout_index
        end
    | _ => Ok default_layout_index
    end
  else Raise (mkExn TypeError ("unhashable type: '" ++ type_name slide_type ++ "'")).

(** [v.get(k, dflt)] on an arbitrary value: only a dict has [get]. *)
Definition py_get (v : pyval) (k : string) (dflt : pyval) : exc pyval :=
  match v with
  | PDict d => Ok (dict_get_default d k dflt)
  | _ => Raise (mkExn AttributeError
                  ("'" ++ type_name v ++ "' object has no attribute 'get'"))
  end.

(** [not content or content.get("error")] *)
Definition skip_slide (content : pyval) : exc bool :=
  if negb (truthy content) then Ok true
  else error <- py_get content "error" PNone ;; Ok (truthy error).

(** Where a text is set: on a shape ([shape.text = v]) or on a paragraph
    ([p.text = v]). *)
Inductive text_target : Type := OfShape | OfParagraph.

(** What python-pptx does with a value that is not a text is the library's
    matter and is left open: [text_outcome t v] is the exception it raises,
    if it raises one. *)
Definition text_setter : Type := text_target -> pyval -> option exn.

(** [shape.text = v] and [p.text = v]: a text is stored. *)
Definition set_text (text_outcome : text_setter) (t : text_target) (v : pyval)
  : exc unit :=
  match v with
  | PStr _ => Ok tt
  | _ => match text_outcome t v with
         | Some e => Raise e
         | None => Ok tt
         end
  end.

Definition is_attribute_error (e : exn) : bool :=
  match exn_kind_of e with
  | AttributeError => true
  | _ => false
  end.

(** The text assignments of the slide creation logic that can let an
    exception through.  An image slide gets its title
    ([title_shape.text = slide_title]); what follows for the picture
    catches every exception, and its notes are texts.  Every other slide
    gets its title inside [try ... except AttributeError]; a title slide
    then gets [subtitle], [presenter] and [date] from the payload, each in
    a paragraph; the points of a body are texts. *)
Definition fill_slide (text_outcome : text_setter) (slide_type slide_title : pyval)
           (content : pydict) : exc unit :=
  if eq_str slide_type "image_slide" then set_text text_outcome OfShape slide_title
  else
    let title_text :=
      if eq_str slide_type "title_slide"
      then dict_get_default content "title" slide_title else slide_title in
    _ <- try_catch (set_text text_outcome OfShape title_text)
                   (fun e => if is_attribute_error e then Ok tt else Raise e) ;;
    if eq_str slide_type "title_slide" then
      let subtitle_text := dict_get_default content "subtitle" (PStr "") in
      let presenter_text := dict_get_default content "presenter" (PStr "") in
      let date_text := dict_get_default content "date" (PStr "") in
      _ <- set_text text_outcome OfParagraph subtitle_text ;;
      _ <- set_text text_outcome OfParagraph presenter_text ;;
      set_text text_outcome OfParagraph date_text
    else Ok tt.

(** [for i in range(num_slides_to_create)], from index [i], where
    [num_slides_to_create] is the length of the shorter sequence. *)
Fixpoint add_slides (text_outcome : text_setter) (i : nat)
         (slide_structure slide_contents : list pyval) : exc (list section) :=
  match slide_structure, slide_contents with
  | slide_info :: structure', content :: contents' =>
      skip <- skip_slide content ;;
      if skip then
        (* the warning shows [slide_info.get('slide_title', 'N/A')] *)
        _ <- py_get slide_info "slide_title" (PStr "N/A") ;;
        add_slides text_outcome (S i) structure' contents'
      else
        slide_type <- py_get slide_info "slide_type" (PStr "content_slide") ;;
        slide_title <- py_get slide_info "slide_title"
                         (PStr ("Slide " ++ str_of_Z (Z.of_nat i + 1))) ;;
        layout_index <- layout_for slide_type ;;
        let payload := match content with PDict d => d | _ => [] end in
        _ <- fill_slide text_outcome slide_type slide_title payload ;;
        later <- add_slides text_outcome (S i) structure' contents' ;;
        Ok (mkSection layout_index slide_type slide_title payload :: later)
  | _, _ => Ok []
  end.

(** The slides of the presentation that [create_powerpoint] saves. *)
Definition create_powerpoint (text_outcome : text_setter)
           (slide_structure slide_contents : list pyval)
           (topic : string) : exc (list section) :=
  add_slides text_outcome 0 slide_structure slide_contents.

(* ===================================================================== *)
(** * Descriptions used in the statements *)
(* ===================================================================== *)

(** The payloads paired with a descriptor: those at the indices below the
    length of the shorter sequence. *)
Definition paired_contents (slide_structure slide_contents : list pyval) : list pyval :=
  firstn (Nat.min (List.length slide_structure) (List.length slide_contents))
         slide_contents.

(** A payload that is rendered: truthy, and without a truthy [error]. *)
Definition rendered (content : pyval) : bool :=
  match content with
  | PDict ((_ :: _) as d) => negb (truthy (dict_get_default d "error" PNone))
  | _ => false
  end.

(** A payload that is present and has no [error] key. *)
Definition present_without_error_key (content : pyval) : bool :=
  match content with
  | PDict d => negb (dict_has d "error")
  | _ => false
  end.

Definition count (p : pyval -> bool) (l : list pyval) : nat :=
  List.length (filter p l).

(** A descriptor the assembler can handle: a dict whose [slide_type], when
    present, can be hashed. *)
Definition descriptor_ok (slide_info : pyval) : bool :=
  match slide_info with
  | PDict d => hashable (dict_get_default d "slide_type" (PStr "content_slide"))
  | _ => false
  end.

(** A payload the assembler can handle: a dict or [None]. *)
Definition payload_ok (content : pyval) : bool :=
  match content with
  | PDict _ | PNone => true
  | _ => false
  end.

(** A value that can be set as a text. *)
Definition is_text (v : pyval) : bool :=
  match v with
  | PStr _ => true
  | _ => false
  end.

(** The values that the slide creation logic sets as texts where an
    exception gets through: the title, and on a title slide the title of
    the payload in its place, then [subtitle], [presenter] and [date]. *)
Definition texts_to_set (slide_type slide_title : pyval) (content : pydict)
  : list pyval :=
  if eq_str slide_type "title_slide"
  then [dict_get_default content "title" slide_title;
        dict_get_default content "subtitle" (PStr "");
        dict_get_default content "presenter" (PStr "");
        dict_get_default content "date" (PStr "")]
  else [slide_title].

(** A pair of a descriptor and a payload in which every value to set as a
    text is a text (a missing [slide_title] is replaced by one). *)
Definition fillable (slide_info content : pyval) : bool :=
  match slide_info, content with
  | PDict d, PDict c =>
      forallb is_text
        (texts_to_set (dict_get_default d "slide_type" (PStr "content_slide"))
                      (dict_get_default d "slide_title" (PStr "")) c)
  | _, _ => true
  end.

(** A deck in which every rendered payload can be filled in. *)
Fixpoint fillable_deck (slide_structure slide_contents : list pyval) : bool :=
  match slide_structure, slide_contents with
  | slide_info :: structure', content :: contents' =>
      (negb (rendered content) || fillable slide_info content)
      && fillable_deck structure' contents'
  | _, _ => true
  end.

(** The pairs of a descriptor and a rendered payload, each with its loop
    index, from index [i]. *)
Fixpoint rendered_pairs (i : nat) (slide_structure slide_contents : list pyval)
  : list (nat * (pyval * pyval)) :=
  match slide_structure, slide_contents with
  | slide_info :: structure', content :: contents' =>
      if rendered content
      then (i, (slide_info, content)) :: rendered_pairs (S i) structure' contents'
      else rendered_pairs (S i) structure' contents'
  | _, _ => []
  end.

(** The slide made for a pair: it has the type of the descriptor, the
    layout of that type, the title of the descriptor ([Slide <i+1>] when
    there is none) and the payload. *)
Definition slide_of (pair : nat * (pyval * pyval)) (s : section) : Prop :=
  exists (d c : pydict),
    fst (snd pair) = PDict d /\ snd (snd pair) = PDict c
    /\ sec_type s = dict_get_default d "slide_type" (PStr "content_slide")
    /\ sec_title s
       = dict_get_default d "slide_title"
           (PStr ("Slide " ++ str_of_Z (Z.of_nat (fst pair) + 1)))
    /\ layout_for (dict_get_default d "slide_type" (PStr "content_slide"))
       = Ok (sec_layout s)
    /\ sec_content s = c.

(** Where the orchestrator puts the payload of the descriptor at loop
    index [i]: at [slide_number - 1] when [1 <= slide_number <= n], else
    at [i]. *)
Definition target_index (n i : nat) (slide_info : pydict) : nat :=
  match int_value (dict_get_default slide_info "slide_number" (PInt (Z.of_nat i + 1))) with
  | Some z => if ((1 <=? z) && (z <=? Z.of_nat n))%Z then Z.to_nat (z - 1) else i
  | None => i
  end.

(** [l] with its [i]-th element replaced, unchanged when [i] is out of
    range. *)
Fixpoint replace_nth {A : Type} (l : list A) (i : nat) (a : A) : list A :=
  match l, i with
  | [], _ => []
  | _ :: l', O => a :: l'
  | x :: l', S i' => x :: replace_nth l' i' a
  end.

(** The result array after the payloads of the descriptors from loop index
    [i] on have been placed, each at its target index. *)
Fixpoint placed (n i : nat) (slide_structure : list pydict) (payloads : list pydict)
         (slide_contents : list (option pydict)) : list (option pydict) :=
  match slide_structure, payloads with
  | slide_info :: structure', content :: payloads' =>
      placed n (S i) structure' payloads'
             (replace_nth slide_contents (target_index n i slide_info) (Some content))
  | _, _ => slide_contents
  end.

(** The placement as the specification words it: at [slide_number - 1]
    when [1 <= slide_number <= n], appended otherwise. *)
Fixpoint placed_as_specified (n i : nat) (slide_structure : list pydict)
         (payloads : list pydict) (slide_contents : list (option pydict))
  : list (option pydict) :=
  match slide_structure, payloads with
  | slide_info :: structure', content :: payloads' =>
      placed_as_specified n (S i) structure' payloads'
        (match int_value (dict_get_default slide_info "slide_number"
                            (PInt (Z.of_nat i + 1))) with
         | Some z =>
             if ((1 <=? z) && (z <=? Z.of_nat n))%Z
             then replace_nth slide_contents (Z.to_nat (z - 1)) (Some content)
             else (slide_contents ++ [Some content])%list
         | None => (slide_contents ++ [Some content])%list
         end)
  | _, _ => slide_contents
  end.

(** The prompt sent for a descriptor of a generated structure, which is
    also the structure kept in the session state. *)
Definition prompt_of (structure : list pydict) (topic complexity_level today : string)
           (slide_info : pydict) : string :=
  match slide_prompt (Some structure) slide_info topic complexity_level today with
  | Ok prompt => prompt
  | Raise _ => ""
  end.

(** What the validation loop guarantees about every descriptor it keeps,
    when it starts at index [i]: a recognised slide type, and a number
    above [i]. *)
Definition kept_descriptor (i : nat) (d : pydict) : Prop :=
  (exists s, dict_get d "slide_type" = Some (PStr s) /\ In s valid_slide_types)
  /\ (exists k, dict_get d "slide_number" = Some (PInt k) /\ (Z.of_nat i < k)%Z).


(* ===================================================================== *)
(** * Sample runs *)
(* ===================================================================== *)

(** A key or a text between double quotes, as it stands in JSON. *)
Definition q (s : string) : string := dq ++ s ++ dq.

(** A world with an API key, a client that starts, and a model that gives
    the listed replies in turn. *)
Definition sample_world (replies : list llm_outcome) : world :=
  mkWorld (Some "gsk_sample") (fun _ => None)
          (fun n _ => nth n replies LlmNoText)
          "January 01, 2025" (fun _ => 1700000000%Z)
          "https://image.pollinations.ai/prompt/".

Definition initial_state : state := mkState false None None [].

(** The structure of the end-to-end scenario of the specification. *)
Definition photosynthesis_structure : list pydict :=
  [ [("slide_number", PInt 1); ("slide_title", PStr "Introduction to Photosynthesis");
     ("slide_type", PStr "title_slide")];
    [("slide_number", PInt 2); ("slide_title", PStr "Light Reactions");
     ("slide_type", PStr "content_slide")];
    [("slide_number", PInt 3); ("slide_title", PStr "Light Reactions");
     ("slide_type", PStr "image_slide")];
    [("slide_number", PInt 4); ("slide_title", PStr "Conclusion");
     ("slide_type", PStr "conclusion_slide")] ].

(** A structure reply whose first element has no [slide_type]. *)
Definition gap_reply : string :=
  "START OF JSON" ++ nl
  ++ "[{" ++ q "slide_number" ++ ": 1, " ++ q "slide_title" ++ ": " ++ q "Intro" ++ "}," ++ nl
  ++ " {" ++ q "slide_number" ++ ": 2, " ++ q "slide_title" ++ ": " ++ q "Chlorophyll"
  ++ ", " ++ q "slide_type" ++ ": " ++ q "content_slide" ++ "}," ++ nl
  ++ " {" ++ q "slide_number" ++ ": 3, " ++ q "slide_title" ++ ": " ++ q "Summary"
  ++ ", " ++ q "slide_type" ++ ": " ++ q "conclusion_slide" ++ "}]" ++ nl
  ++ "END OF JSON".

(** A content reply with one paragraph. *)
Definition content_reply (text : string) : string :=
  "START OF JSON {" ++ q "main_content" ++ ": [" ++ q text ++ "], "
  ++ q "needs_image" ++ ": false} END OF JSON".

Definition content_payload (text : string) : pydict :=
  [("main_content", PList [PStr text]); ("needs_image", PBool false)].

(** A description of 360 characters. *)
Definition long_description : string :=
  String.concat "" (repeat "chloroplast " 30).

(** One content slide, and a payload whose [error] key holds the empty
    text. *)
Definition chlorophyll_slide : pyval :=
  PDict [("slide_number", PInt 1); ("slide_title", PStr "Chlorophyll");
         ("slide_type", PStr "content_slide")].

Definition payload_with_empty_error : pydict :=
  [("main_content", PList [PStr "Chlorophyll absorbs light."]);
   ("needs_image", PBool false); ("error", PStr "")].

(** A library that refuses, with a [TypeError], every value that is not
    a text. *)
Definition strict_text_outcome : text_setter :=
  fun _ v => Some (mkExn TypeError ("expected a text, got '" ++ type_name v ++ "'")).



(** A structure reply whose first element has no [slide_type], followed by
    a content slide and an image slide with the same title. *)
Definition shifted_reply : string :=
  "START OF JSON" ++ nl
  ++ "[{" ++ q "slide_number" ++ ": 1, " ++ q "slide_title" ++ ": " ++ q "Intro" ++ "}," ++ nl
  ++ " {" ++ q "slide_number" ++ ": 2, " ++ q "slide_title" ++ ": " ++ q "Light Reactions"
  ++ ", " ++ q "slide_type" ++ ": " ++ q "content_slide" ++ "}," ++ nl
  ++ " {" ++ q "slide_number" ++ ": 3, " ++ q "slide_title" ++ ": " ++ q "Light Reactions"
  ++ ", " ++ q "slide_type" ++ ": " ++ q "image_slide" ++ "}]" ++ nl
  ++ "END OF JSON".

(** The two descriptors kept from [shifted_reply]: they stand at the
    positions 1 and 2 and carry the numbers 2 and 3. *)
Definition shifted_content_slide : pydict :=
  [("slide_number", PInt 2); ("slide_title", PStr "Light Reactions");
   ("slide_type", PStr "content_slide")].

Definition shifted_image_slide : pydict :=
  [("slide_number", PInt 3); ("slide_title", PStr "Light Reactions");
   ("slide_type", PStr "image_slide")].

Definition shifted_structure : list pydict :=
  [shifted_content_slide; shifted_image_slide].

(** A run whose structure reply has a gap: the model sends [gap_reply],
    then a paragraph for each of the two descriptors that are kept. *)
Definition gap_world : world :=
  sample_world [LlmText gap_reply;
                LlmText (content_reply "Chlorophyll absorbs light.");
                LlmText (content_reply "Plants turn light into sugar.")].

Definition gap_structure : list pydict :=
  [ [("slide_number", PInt 2); ("slide_title", PStr "Chlorophyll");
     ("slide_type", PStr "content_slide")];
    [("slide_number", PInt 3); ("slide_title", PStr "Summary");
     ("slide_type", PStr "conclusion_slide")] ].

(** A run without a gap: two descriptors, two paragraphs. *)
Definition plain_reply : string :=
  "START OF JSON" ++ nl
  ++ "[{" ++ q "slide_number" ++ ": 7, " ++ q "slide_title" ++ ": " ++ q "Chlorophyll"
  ++ ", " ++ q "slide_type" ++ ": " ++ q "content_slide" ++ "}," ++ nl
  ++ " {" ++ q "slide_number" ++ ": 9, " ++ q "slide_title" ++ ": " ++ q "Summary"
  ++ ", " ++ q "slide_type" ++ ": " ++ q "recap_slide" ++ "}]" ++ nl
  ++ "END OF JSON".

Definition plain_world : world :=
  sample_world [LlmText plain_reply;
                LlmText (content_reply "Chlorophyll absorbs light.");
                LlmRaise (mkExn OtherError "Connection error.")].

Definition plain_structure : list pydict :=
  [ [("slide_number", PInt 1); ("slide_title", PStr "Chlorophyll");
     ("slide_type", PStr "content_slide")];
    [("slide_number", PInt 2); ("slide_title", PStr "Summary");
     ("slide_type", PStr "content_slide")] ].

(** The state after the structure generation of a run from
    [initial_state], for the topic of the samples. *)
Definition state_after_structure (structure : list pydict) : state :=
  mkState true (Some structure) None
          [structure_prompt "Photosynthesis" "In-person Lecture" "Basic"].

(** The end-to-end scenario: four slides, the third an image slide with
    the title of the second. *)
Definition photosynthesis_reply : string :=
  "START OF JSON" ++ nl
  ++ "[{" ++ q "slide_number" ++ ": 1, " ++ q "slide_title" ++ ": "
  ++ q "Introduction to Photosynthesis" ++ ", " ++ q "slide_type" ++ ": "
  ++ q "title_slide" ++ "}," ++ nl
  ++ " {" ++ q "slide_number" ++ ": 2, " ++ q "slide_title" ++ ": " ++ q "Light Reactions"
  ++ ", " ++ q "slide_type" ++ ": " ++ q "content_slide" ++ "}," ++ nl
  ++ " {" ++ q "slide_number" ++ ": 3, " ++ q "slide_title" ++ ": " ++ q "Light Reactions"
  ++ ", " ++ q "slide_type" ++ ": " ++ q "image_slide" ++ "}," ++ nl
  ++ " {" ++ q "slide_number" ++ ": 4, " ++ q "slide_title" ++ ": " ++ q "Conclusion"
  ++ ", " ++ q "slide_type" ++ ": " ++ q "conclusion_slide" ++ "}]" ++ nl
  ++ "END OF JSON".

Definition title_reply : string :=
  "START OF JSON {" ++ q "title" ++ ": " ++ q "Introduction to Photosynthesis" ++ ", "
  ++ q "subtitle" ++ ": " ++ q "How plants eat light" ++ "} END OF JSON".

Definition image_reply : string :=
  "START OF JSON {" ++ q "main_content" ++ ": [" ++ q "Caption: a thylakoid" ++ "], "
  ++ q "needs_image" ++ ": true, " ++ q "image_description" ++ ": "
  ++ q "A thylakoid membrane" ++ "} END OF JSON".

Definition photosynthesis_world : world :=
  sample_world [LlmText photosynthesis_reply;
                LlmText title_reply;
                LlmText (content_reply "Light drives the first stage.");
                LlmText image_reply;
                LlmText (content_reply "Plants turn light into sugar.")].

(* ===================================================================== *)
(** * Further descriptions used in the statements *)
(* ===================================================================== *)

(** An element of a structure reply that the validation loop keeps: a
    dict with a [slide_title] and a [slide_type]. *)
Definition slide_object (item : pyval) : bool :=
  match item with
  | PDict d => dict_has d "slide_title" && dict_has d "slide_type"
  | _ => false
  end.

(** A kept element whose [slide_type] can be looked up in the set of
    valid types. *)
Definition slide_object_hashable (item : pyval) : bool :=
  match item with
  | PDict d => hashable (dict_get_default d "slide_type" PNone)
  | _ => true
  end.

(** The dicts of the elements the validation loop keeps, in order. *)
Fixpoint kept_objects (items : list pyval) : list pydict :=
  match items with
  | [] => []
  | PDict d :: rest =>
      if dict_has d "slide_title" && dict_has d "slide_type"
      then d :: kept_objects rest
      else kept_objects rest
  | _ :: rest => kept_objects rest
  end.

(** The slide type after validation. *)
Definition validated_type (slide_type : pyval) : pyval :=
  if existsb (eq_str slide_type) valid_slide_types then slide_type
  else PStr "content_slide".

(** A kept element whose [slide_type] cannot be hashed. *)
Definition unhashable_slide_object (item : pyval) : bool :=
  slide_object item && negb (slide_object_hashable item).

(** A reply of three slide objects, the second with a list for a type. *)
Definition list_type_items : list pyval :=
  [PDict [("slide_title", PStr "Intro"); ("slide_type", PStr "title_slide")];
   PDict [("slide_title", PStr "Chlorophyll");
          ("slide_type", PList [PStr "content_slide"])];
   PDict [("slide_title", PStr "Summary"); ("slide_type", PStr "conclusion_slide")]].

Definition list_type_reply : string :=
  "[{" ++ q "slide_title" ++ ": " ++ q "Intro" ++ ", " ++ q "slide_type" ++ ": "
  ++ q "title_slide" ++ "}, {" ++ q "slide_title" ++ ": " ++ q "Chlorophyll" ++ ", "
  ++ q "slide_type" ++ ": [" ++ q "content_slide" ++ "]}, {" ++ q "slide_title" ++ ": "
  ++ q "Summary" ++ ", " ++ q "slide_type" ++ ": " ++ q "conclusion_slide" ++ "}]".

(** A reply with an element that is dropped, an unknown type and an extra
    key. *)
Definition mixed_items : list pyval :=
  [PStr "outline";
   PDict [("slide_title", PStr "Chlorophyll"); ("slide_type", PStr "diagram_slide");
          ("notes", PStr "keep me")];
   PDict [("slide_number", PInt 9); ("slide_title", PStr "Summary");
          ("slide_type", PStr "conclusion_slide")]].

(** A world without an API key. *)
Definition keyless_world : world :=
  mkWorld None (fun _ => None) (fun _ _ => LlmText "unreachable")
          "January 01, 2025" (fun _ => 1700000000%Z)
          "https://image.pollinations.ai/prompt/".

(** The exception behind a reply that is not a text: the one the client
    raised, or the [TypeError] of the extractor on [None]. *)
Definition failure_of (outcome : llm_outcome) : exn :=
  match outcome with
  | LlmRaise e => e
  | _ => mkExn TypeError "'NoneType' object is not subscriptable"
  end.

(** The reference the resolver gives. *)
Definition resolved_url (base_url : string) (now : Z) (description : pyval)
           (context : string) : string :=
  match generate_pollinations_image base_url now description context with
  | Ok url => url
  | Raise _ => placeholder_image_url
  end.

(** A slide number that is [None], a text, a list or a dict: it cannot
    be compared with a length. *)
Definition not_a_number (slide_number : pyval) : bool :=
  match slide_number with
  | PNone | PStr _ | PList _ | PDict _ => true
  | PBool _ | PInt _ => false
  end.

(** The test the lookahead applies to the descriptor it reads. *)
Definition image_pair (next_slide_info : pydict) (slide_title : pyval) : bool :=
  py_eq (dict_get_default next_slide_info "slide_title" PNone) slide_title
  && eq_str (dict_get_default next_slide_info "slide_type" PNone) "image_slide".

(** Sample descriptors and replies. *)
Definition bullet_slide : pydict :=
  [("slide_number", PInt 1); ("slide_title", PStr "Chlorophyll");
   ("slide_type", PStr "bullet_point_slide")].

Definition bullet_prompt : string :=
  bullet_point_slide_prompt (PInt 1) (PStr "Chlorophyll") (PStr "bullet_point_slide")
    "Photosynthesis" "Basic".

Definition needs_image_reply : string :=
  "{" ++ q "main_content" ++ ": [], " ++ q "needs_image" ++ ": true}".

(** The characters [quote] can produce: the ones it keeps, and [%]. *)
Definition quoted_char (c : ascii) : bool :=
  url_safe c || Ascii.eqb c "%".

(** Descriptions for which the body of the resolver raises: [None], a
    bool and an int have no length, and a list or a dict of more than 300
    entries cannot be extended by a text. *)
Definition no_prompt (description : pyval) : bool :=
  match description with
  | PNone | PBool _ | PInt _ => true
  | PStr _ => false
  | PList l => (max_desc_len <? List.length l)%nat
  | PDict d => (max_desc_len <? List.length d)%nat
  end.

(* ===================================================================== *)
(** * Deck assembler: body text and auto-fit *)
(* ===================================================================== *)

(** A paragraph added to the body placeholder: its text, the font size of
    its runs in points, and the space after it in points, when set. *)
Record paragraph : Type := mkParagraph {
  par_text : string;
  par_size : Z;
  par_space_after : option Z
}.

(** [[str(point).strip() for point in main_content_list
      if str(point).strip()]] *)
Fixpoint clean_points (main_content_list : list pyval) : list string :=
  match main_content_list with
  | [] => []
  | point :: rest =>
      if truthy (PStr (strip (py_str point)))
      then strip (py_str point) :: clean_points rest
      else clean_points rest
  end.

(** [for point_idx, point in enumerate(main_content_list)], from index
    [point_idx]; [total] is [len(main_content_list)]. *)
Fixpoint point_paragraphs (font_size : Z) (total point_idx : nat)
         (points : list string) : list paragraph :=
  match points with
  | [] => []
  | point :: rest =>
      mkParagraph point font_size
                  (if (point_idx <? total - 1)%nat then Some 6%Z else None)
      :: point_paragraphs font_size total (S point_idx) rest
  end.

(** The paragraphs [create_powerpoint] adds to the body of a
    [content_slide], [bullet_point_slide] or [conclusion_slide] whose
    layout has a body placeholder with a text frame. *)
Definition body_paragraphs (slide_type : pyval) (content : pydict) : list paragraph :=
  let main_content_list := dict_get_default content "main_content" (PList []) in
  match main_content_list with
  | PList l =>
      let main_content_list := clean_points l in
      let font_size := if eq_str slide_type "bullet_point_slide" then 24%Z else 20%Z in
      point_paragraphs font_size (List.length main_content_list) 0 main_content_list
  | PStr s =>
      if truthy (PStr (strip s)) then [mkParagraph (strip s) 20 None] else []
  | _ => []
  end.

Definition min_font_size : Z := 12.

(** One run of [_auto_fit_text].  Font sizes are whole points throughout
    the program (they are set by [Pt(n)] with an integer [n]), and on
    whole points [int(size * 0.8)] is [size * 8 / 10], [int(size * 0.9)]
    is [size * 9 / 10]. *)
Definition auto_fit_size (text_length : nat) (size : Z) : Z :=
  if (1000 <? text_length)%nat then
    if (size =? 0)%Z then size else Z.max min_font_size (size * 8 / 10)
  else if (500 <? text_length)%nat then
    if (size =? 0)%Z then size else Z.max (min_font_size + 2) (size * 9 / 10)
  else size.

(** [_auto_fit_text(text_frame)]; [text_length] is [len(text_frame.text)]. *)
Definition auto_fit_text (text_length : nat) (paragraphs : list paragraph)
  : list paragraph :=
  map (fun p => mkParagraph (par_text p) (auto_fit_size text_length (par_size p))
                            (par_space_after p))
      paragraphs.

(* ===================================================================== *)
(** * Deck assembler: the image branch *)
(* ===================================================================== *)

(** What [requests.get(url, stream=True)], [raise_for_status] and the
    iteration over the body give: a timeout, another request failure with
    its message (a bad status included), or a content type and the chunks
    of the body, after which the stream may break with a request
    failure. *)
Inductive http_outcome : Type :=
| HttpTimeout
| HttpFailure (message : string)
| HttpBody (content_type : string) (chunks : list (list Byte.byte))
           (broken : option string).

(** The exceptions told apart by the handlers of [_add_image_to_slide]. *)
Inductive failure : Type :=
| Timeout
| RequestException (message : string)
| OtherException (e : exn).

(** The argument of [_add_image_to_slide]: the value found under
    [image_url], or a [BytesIO] stream. *)
Inductive image_source : Type :=
| UrlValue (v : pyval)
| Stream (data : list Byte.byte).

Definition max_size : Z := 20 * 1024 * 1024.

(** [for chunk in response.iter_content(chunk_size=8192)] *)
Fixpoint read_chunks (chunks : list (list Byte.byte)) (broken : option string)
         (size : Z) (image_stream : list Byte.byte) : list Byte.byte + failure :=
  match chunks with
  | [] =>
      match broken with
      | Some message => inr (RequestException message)
      | None => inl image_stream
      end
  | chunk :: rest =>
      let size := (size + Z.of_nat (List.length chunk))%Z in
      if (max_size <? size)%Z then
        inr (OtherException
               (mkExn ValueError "Image download exceeded max size limit (20.0 MB)"))
      else read_chunks rest broken size (image_stream ++ chunk)
  end.

Definition source_desc (image_source : image_source) : string :=
  match image_source with
  | UrlValue (PStr url) => url
  | UrlValue _ => "Unknown"
  | Stream _ => "BytesIO stream (local file or base64)"
  end.

(** The shapes [create_powerpoint] puts on an image slide. *)
Inductive shape : Type :=
| TitleText (text : pyval)
| Picture (data : list Byte.byte)
| NoteBox (text : string)
| CaptionBox (text : string).

(** The items of a list passed to [str.join]: all of them must be texts. *)
Fixpoint str_items (k : nat) (l : list pyval) : exc (list string) :=
  match l with
  | [] => Ok []
  | PStr s :: rest => r <- str_items (S k) rest ;; Ok (s :: r)
  | v :: _ =>
      Raise (mkExn TypeError
               ("sequence item " ++ str_of_Z (Z.of_nat k) ++ ": expected str instance, "
                ++ type_name v ++ " found"))
  end.

(** [sep.join(v)] on an arbitrary value: a list of texts, the characters
    of a text, or the keys of a dict. *)
Definition py_join (sep : string) (v : pyval) : exc string :=
  match v with
  | PList l => parts <- str_items 0 l ;; Ok (join sep parts)
  | PStr s => Ok (join sep (map str1 (list_ascii_of_string s)))
  | PDict d => Ok (join sep (map fst d))
  | _ => Raise (mkExn TypeError "can only join an iterable")
  end.

Definition emu_per_inch : Z := 914400.

(** [Inches(num / den)], a length in EMU: [int(inches * 914400)]. *)
Definition Inches (num den : Z) : Z := Z.quot (num * emu_per_inch) den.

(** [prs.slide_height], set to [Inches(7.5)]. *)
Definition slide_height : Z := Inches 75 10.

(** [img_top + Inches(img_height_in) + Inches(0.1)], with
    [img_top = Inches(1.2)] and [img_height_in = 8.0 / (16.0 / 9.0)],
    which is 4.5. *)
Definition cap_top : Z := Inches 12 10 + Inches 45 10 + Inches 1 10.

(** [cap_top + Inches(0.5) < prs.slide_height.inches]: a number of EMU on
    the left, a number of inches on the right, which is the height in EMU
    divided by 914400. *)
Definition caption_fits : bool :=
  ((cap_top + Inches 5 10) * emu_per_inch <? slide_height)%Z.

(** The [image_source] chosen from the payload. *)
Inductive picked_source : Type :=
| PickUrl (url : pyval)
| PickBase64 (data : pyval).

Definition pick_image_source (content : pydict) : option picked_source :=
  if dict_has content "image_url" && truthy (dict_get_default content "image_url" PNone)
  then Some (PickUrl (dict_get_default content "image_url" PNone))
  else if dict_has content "image_content_base64"
          && truthy (dict_get_default content "image_content_base64" PNone)
  then Some (PickBase64 (dict_get_default content "image_content_base64" PNone))
  else None.

Section Images.
(** The network, the picture reader of python-pptx and
    [base64.b64decode] are outside the program. *)
Variable http_get : string -> http_outcome.
Variable add_picture : list Byte.byte -> option exn.
Variable b64decode : pyval -> exc (list Byte.byte).
Variable text_outcome : text_setter.

(** The [try] block of [_add_image_to_slide] up to the picture. *)
Definition fetch_image (image_source : image_source) : list Byte.byte + failure :=
  match image_source with
  | UrlValue (PStr url) =>
      match http_get url with
      | HttpTimeout => inr Timeout
      | HttpFailure message => inr (RequestException message)
      | HttpBody _ chunks broken =>
          match read_chunks chunks broken 0 [] with
          | inl image_stream =>
              if (Z.of_nat (List.length image_stream) =? 0)%Z then
                inr (OtherException
                       (mkExn ValueError "Image download resulted in empty content."))
              else inl image_stream
          | inr f => inr f
          end
      end
  | UrlValue _ =>
      inr (OtherException
             (mkExn TypeError "image_source must be a URL string or BytesIO object"))
  | Stream data => inl data
  end.

(** [_add_image_to_slide]: the bytes of the picture added to the slide. *)
Definition add_image_to_slide (image_source : image_source) : exc (list Byte.byte) :=
  match
    match fetch_image image_source with
    | inl image_stream =>
        match add_picture image_stream with
        | None => inl image_stream
        | Some e => inr (OtherException e)
        end
    | inr f => inr f
    end
  with
  | inl image_stream => Ok image_stream
  | inr Timeout =>
      Raise (mkExn ValueError
               ("Timeout downloading image: " ++ source_desc image_source))
  | inr (RequestException message) =>
      Raise (mkExn ValueError ("Failed to download image: " ++ message))
  | inr (OtherException e) =>
      Raise (mkExn ValueError
               ("Failed to process or add image from source ("
                ++ source_desc image_source ++ "): " ++ exn_msg e))
  end.

(** The caption part of the [try] block of the image branch. *)
Definition caption_shapes (content : pydict) : exc (list shape) :=
  joined <- py_join nl (dict_get_default content "main_content" (PList [])) ;;
  let caption := strip joined in
  if truthy (PStr caption) && negb (startswith "Error" caption) then
    if caption_fits then Ok [CaptionBox caption] else Ok []
  else Ok [].

(** The image branch of [create_powerpoint]: the shapes of the slide.
    The title is set first, outside any [try]
    ([title_shape.text = slide_title]); the notes and the caption are
    texts. *)
Definition image_shapes (slide_title : pyval) (content : pydict)
  : exc (list shape) :=
  _ <- set_text text_outcome OfShape slide_title ;;
  Ok (TitleText slide_title ::
      match pick_image_source content with
      | Some image_source =>
          match
            match image_source with
            | PickUrl url => add_image_to_slide (UrlValue url)
            | PickBase64 data =>
                image_stream <- b64decode data ;;
                add_image_to_slide (Stream image_stream)
            end
          with
          | Ok picture =>
              Picture picture ::
              match caption_shapes content with
              | Ok shapes => shapes
              | Raise e => [NoteBox ("(Error adding visual: " ++ exn_msg e ++ ")")]
              end
          | Raise e => [NoteBox ("(Error adding visual: " ++ exn_msg e ++ ")")]
          end
      | None => [NoteBox "(Visual source missing for this slide)"]
      end).
End Images.

(* ===================================================================== *)
(** * Structure screen: one pass over the edited structure *)
(* ===================================================================== *)

(** What the widgets of one slide return in a run: the [Order] number
    input, the title input, the type select box and the [Remove] button. *)
Record slide_edit : Type := mkEdit {
  edit_order : Z;
  edit_title : string;
  edit_type : string;
  edit_remove : bool
}.

(** [del d[k]] *)
Fixpoint dict_remove (d : pydict) (k : string) : pydict :=
  match d with
  | [] => []
  | (k', v) :: d' => if String.eqb k' k then d' else (k', v) :: dict_remove d' k
  end.

(** [x["slide_number"]], the sort key. *)
Definition sort_key (x : pydict) : Z :=
  match dict_get x "slide_number" with
  | Some (PInt z) => z
  | _ => 0%Z
  end.

(** [list.sort(key=...)] is stable: an element goes before the first one
    with a key that is not smaller. *)
Fixpoint insert_by {A : Type} (key : A -> Z) (a : A) (l : list A) : list A :=
  match l with
  | [] => [a]
  | b :: l' => if (key a <=? key b)%Z then a :: l else b :: insert_by key a l'
  end.

Definition sort_by {A : Type} (key : A -> Z) (l : list A) : list A :=
  fold_right (insert_by key) [] l.

(** The dict appended to [current_edits] for the slide at index [i]. *)
Definition edit_entry (i : nat) (e : slide_edit) : pydict :=
  [("original_index", PInt (Z.of_nat i)); ("slide_number", PInt (edit_order e));
   ("slide_title", PStr (edit_title e)); ("slide_type", PStr (edit_type e))].

(** The first loop, from index [i]: [None] when a [Remove] button is
    pressed, which reruns the script at once; the collected edits
    otherwise. *)
Fixpoint collect_edits (widgets : nat -> slide_edit) (i : nat)
         (edited_structure : list pydict) : option (list pydict) :=
  match edited_structure with
  | [] => Some []
  | _ :: rest =>
      if edit_remove (widgets i) then None
      else option_map (cons (edit_entry i (widgets i)))
                      (collect_edits widgets (S i) rest)
  end.

(** [for idx, slide_data in enumerate(current_edits)], from index [idx]. *)
Fixpoint renumber (idx : nat) (current_edits : list pydict) : list pydict :=
  match current_edits with
  | [] => []
  | slide_data :: rest =>
      let slide_data := dict_set slide_data "slide_number" (PInt (Z.of_nat idx + 1)) in
      let slide_data :=
        if dict_has slide_data "original_index"
        then dict_remove slide_data "original_index" else slide_data in
      slide_data :: renumber (S idx) rest
  end.

Definition new_slide (new_slide_num : Z) : pydict :=
  [("slide_number", PInt new_slide_num); ("slide_title", PStr "New Slide Title");
   ("slide_type", PStr "content_slide")].

(** [current_edits.sort(...)] and the renumbering loop. *)
Definition final_structure (current_edits : list pydict) : list pydict :=
  renumber 0 (sort_by sort_key current_edits).

(** One run of the structure screen up to its navigation buttons:
    the new [st.session_state.edited_structure], and whether the run ended
    in [st.rerun()]. *)
Definition structure_pass (widgets : nat -> slide_edit) (add_new_slide : bool)
           (edited_structure : list pydict) : list pydict * bool :=
  match edited_structure with
  | [] => ([], false)
  | _ :: _ =>
      match collect_edits widgets 0 edited_structure with
      | None => (edited_structure, true)
      | Some current_edits =>
          let final_structure := final_structure current_edits in
          let edited_structure :=
            if negb (py_eq (PList (map PDict final_structure))
                           (PList (map PDict edited_structure)))
            then final_structure else edited_structure in
          if add_new_slide then
            let new_slide_num :=
              if truthy (PList (map PDict edited_structure))
              then (Z.of_nat (List.length edited_structure) + 1)%Z else 1%Z in
            ((edited_structure ++ [new_slide new_slide_num])%list, true)
          else (edited_structure, false)
      end
  end.

(** The descriptors of the slides of the screen taken in the order
    [shown], numbered from [idx + 1]. *)
Fixpoint screen_order (widgets : nat -> slide_edit) (idx : nat) (shown : list nat)
  : list pydict :=
  match shown with
  | [] => []
  | i :: rest =>
      [("slide_number", PInt (Z.of_nat idx + 1));
       ("slide_title", PStr (edit_title (widgets i)));
       ("slide_type", PStr (edit_type (widgets i)))]
      :: screen_order widgets (S idx) rest
  end.

(** Slide [i] of the screen comes before slide [j] in the sorted
    structure: a smaller [Order], or the same [Order] and an earlier place
    on the screen. *)
Definition sorts_before (widgets : nat -> slide_edit) (i j : nat) : Prop :=
  (edit_order (widgets i) < edit_order (widgets j))%Z
  \/ (edit_order (widgets i) = edit_order (widgets j) /\ i < j).

(* ===================================================================== *)
(** * Download screen: the file name *)
(* ===================================================================== *)



(* ===================================================================== *)
(** * Document processor *)
(* ===================================================================== *)

(** [name.split('.')[-1]]: the text after the last dot, the whole name
    when it has no dot. *)
Fixpoint last_component (acc s : string) : string :=
  match s with
  | EmptyString => acc
  | String c s' =>
      if Ascii.eqb c "." then last_component "" s'
      else last_component (acc ++ str1 c) s'
  end.

(** [for page in reader.pages: text += page.extract_text() + "\n"] *)
Fixpoint page_texts (text : string) (pages : list (exc string)) : exc string :=
  match pages with
  | [] => Ok text
  | page :: rest => t <- page ;; page_texts (text ++ t ++ nl) rest
  end.

(** [extract_text_from_pdf]; [reader] is what [PdfReader(pdf_path)] gives:
    an exception, or the pages, each with the outcome of
    [extract_text()]. *)
Definition extract_text_from_pdf (reader : exc (list (exc string))) : string :=
  match (pages <- reader ;; page_texts "" pages) with
  | Ok text => text
  | Raise _ => ""
  end.

(** [extract_text_from_docx]; [doc] is what [docx.Document(docx_path)]
    gives: an exception, or the texts of the paragraphs. *)
Definition extract_text_from_docx (doc : exc (list string)) : string :=
  match doc with
  | Ok paragraphs => fold_left (fun text para => text ++ para ++ nl) paragraphs ""
  | Raise _ => ""
  end.

(** The temporary file of [process_document]: the outcome of its creation
    (the path), of the write, of the close at the end of the [with] block
    (where buffered data is written out) and of the removal. *)
Record disk : Type := mkDisk {
  disk_create : exc string;
  disk_write : option exn;
  disk_close : option exn;
  disk_remove : option exn
}.

(** The [finally] block, entered with the path known and the copy in
    place: an exception of [os.remove] replaces what the [try] block
    gave. *)
Definition clean_up (d : disk) (tmp_file_path : string) (result : exc string)
  : exc string * list string :=
  if truthy (PStr tmp_file_path) then
    match disk_remove d with
    | Some e => (Raise e, [tmp_file_path])
    | None => (result, [])
    end
  else (result, [tmp_file_path]).

Section Documents.
(** The readers of the three formats are outside the program. *)
Variable read_pdf : list Byte.byte -> exc (list (exc string)).
Variable read_docx : list Byte.byte -> exc (list string).
Variable decode_utf8_ignore : list Byte.byte -> string.

(** The text for an upload whose temporary copy has been written. *)
Definition document_text (name : string) (data : list Byte.byte) : string :=
  let ext := lower (last_component "" name) in
  if String.eqb ext "pdf" then extract_text_from_pdf (read_pdf data)
  else if String.eqb ext "docx" || String.eqb ext "doc"
  then extract_text_from_docx (read_docx data)
  else if String.eqb ext "txt" then decode_utf8_ignore data
  else "".

(** [process_document] on an upload: the result, and the temporary
    files left on the disk when it ends.  When the write fails the
    [with] block closes the file and the path is never bound, so the
    clean-up removes nothing; an exception of the close replaces that of
    the write.  After the write the path is bound, then the file is
    closed; the extractors catch their own exceptions.  The copy is
    taken to exist when the clean-up tests [os.path.exists]. *)
Definition process_document (d : disk) (upload : option (string * list Byte.byte))
  : exc string * list string :=
  match upload with
  | None => (Ok "", [])
  | Some (name, data) =>
      match disk_create d with
      | Raise e => (Raise e, [])
      | Ok tmp_file_path =>
          match disk_write d with
          | Some e =>
              (Raise (match disk_close d with Some e' => e' | None => e end),
               [tmp_file_path])
          | None =>
              match disk_close d with
              | Some e => clean_up d tmp_file_path (Raise e)
              | None => clean_up d tmp_file_path (Ok (document_text name data))
              end
          end
      end
  end.
End Documents.

(* ===================================================================== *)
(** * Sample data for the added properties *)
(* ===================================================================== *)

Definition sample_bytes : list Byte.byte := [Byte.x89; Byte.x50; Byte.x4e; Byte.x47].

Definition sample_http (url : string) : http_outcome :=
  if String.eqb url "https://image.pollinations.ai/prompt/leaf"
  then HttpBody "text/html" [[Byte.x89; Byte.x50]; [Byte.x4e; Byte.x47]] None
  else HttpFailure "404 Client Error".

Definition sample_widgets (i : nat) : slide_edit :=
  match i with
  | 0 => mkEdit 2 "Summary" "conclusion_slide" false
  | 1 => mkEdit 1 "Intro" "title_slide" false
  | _ => mkEdit 2 "Leaves" "image_slide" false
  end.

Definition removing_widgets (i : nat) : slide_edit :=
  match i with
  | 1 => mkEdit 1 "Intro" "title_slide" true
  | _ => sample_widgets i
  end.


(* ===================================================================== *)
(** * Properties *)
(* ===================================================================== *)

Example py_str_samples :
  py_str (PList [PStr "a'b"; PInt (-3); PNone; PDict [("k", PBool true)]])
  = "[" ++ dq ++ "a'b" ++ dq ++ ", -3, None, {'k': True}]".
Proof. reflexivity. Qed.

Example re_markers_sample :
  re_markers ("noise START OF JSON" ++ nl ++ " [1, 2] " ++ nl ++ "END OF JSON tail")
  = Some "[1, 2]".
Proof. reflexivity. Qed.

Example re_markers_first_end :
  re_markers "START OF JSON a END OF JSON b END OF JSON" = Some "a".
Proof. reflexivity. Qed.

Example re_object_sample :
  re_object "x {a} y {b} z" = Some "{a} y {b}".
Proof. reflexivity. Qed.

Example re_array_sample :
  re_array "x [1] y ] z [" = Some "[1] y ]".
Proof. reflexivity. Qed.

Example json_loads_object :
  json_loads true ("{" ++ dq ++ "a" ++ dq ++ ": [1, -20, true, null, {}], "
                   ++ dq ++ "b" ++ dq ++ ": " ++ dq ++ "x\ny" ++ dq ++ "}")
  = LoadsOk (PDict [("a", PList [PInt 1; PInt (-20); PBool true; PNone; PDict []]);
                    ("b", PStr ("x" ++ nl ++ "y"))]).
Proof. vm_compute. reflexivity. Qed.

Example json_loads_extra_data :
  json_loads true "{} {}" = LoadsDecodeError.
Proof. reflexivity. Qed.

Example json_loads_scalar :
  json_loads true " 42 " = LoadsOk (PInt 42).
Proof. reflexivity. Qed.

Example json_loads_control_char :
  json_loads true (dq ++ "a" ++ nl ++ "b" ++ dq) = LoadsDecodeError
  /\ json_loads false (dq ++ "a" ++ nl ++ "b" ++ dq) = LoadsOk (PStr ("a" ++ nl ++ "b")).
Proof. split; reflexivity. Qed.

Example extract_marked :
  parse_json_from_response json_loads
    (Some ("Sure! START OF JSON" ++ nl ++ "[{" ++ dq ++ "slide_title" ++ dq ++ ": "
           ++ dq ++ "A" ++ dq ++ "}]" ++ nl ++ "END OF JSON Thanks."))
  = Ok (PList [PDict [("slide_title", PStr "A")]]).
Proof. vm_compute. reflexivity. Qed.

Example extract_none_raises :
  parse_json_from_response json_loads None
  = Raise (mkExn TypeError "'NoneType' object is not subscriptable").
Proof. reflexivity. Qed.

(* ===================================================================== *)
(** ** Facts about text *)
(* ===================================================================== *)

Lemma append_nil_r (s : string) : s ++ "" = s.
Proof. induction s as [| c s IH]; simpl; [reflexivity | now rewrite IH]. Qed.

Lemma append_assoc (a b c : string) : (a ++ b) ++ c = a ++ b ++ c.
Proof. induction a as [| x a IH]; simpl; [reflexivity | now rewrite IH]. Qed.

Lemma length_append (a b : string) :
  String.length (a ++ b) = String.length a + String.length b.
Proof. induction a as [| x a IH]; simpl; [reflexivity | now rewrite IH]. Qed.

Lemma append_inv_head (a b c : string) : a ++ b = a ++ c -> b = c.
Proof.
  induction a as [| x a IH]; simpl; intros H; [exact H |].
  inversion H. auto.
Qed.

(** Two ways of cutting the same text: one cut lies before the other. *)
Lemma append_split (x y w rest : string) :
  x ++ y = w ++ rest ->
  (exists z, w = x ++ z /\ y = z ++ rest)
  \/ (exists z, z <> "" /\ x = w ++ z /\ rest = z ++ y).
Proof.
  revert w. induction x as [| c x IH]; intros w H; simpl in H.
  - left. exists w. auto.
  - destruct w as [| d w]; simpl in H.
    + right. exists (String c x). subst rest. repeat split. discriminate.
    + inversion H; subst d. destruct (IH w H2) as [(z & Hw & Hy) | (z & Hz & Hx & Hr)].
      * left. exists z. subst w. auto.
      * right. exists z. subst x. auto.
Qed.

Lemma startswith_app (t x : string) : startswith t (t ++ x) = true.
Proof.
  induction t as [| c t IH]; simpl; [reflexivity |].
  now rewrite Ascii.eqb_refl, IH.
Qed.

Lemma strip_prefix_app (t x : string) : strip_prefix t (t ++ x) = Some x.
Proof.
  induction t as [| c t IH]; simpl; [reflexivity |].
  now rewrite Ascii.eqb_refl.
Qed.

Lemma strip_prefix_startswith (t s : string) :
  startswith t s = false -> strip_prefix t s = None.
Proof.
  revert s. induction t as [| c t IH]; intros [| d s]; simpl; try discriminate; auto.
  destruct (Ascii.eqb c d); simpl; auto.
Qed.

Lemma strip_prefix_Some (t s r : string) :
  strip_prefix t s = Some r -> s = t ++ r.
Proof.
  revert s. induction t as [| c t IH]; intros [| d s]; simpl; try discriminate.
  - intros H; now inversion H.
  - intros H; now inversion H.
  - destruct (Ascii.eqb_spec c d); [| discriminate].
    intros H. subst d. now rewrite (IH _ H).
Qed.

(** Before the index returned by [str_find] there is no occurrence. *)
Lemma str_find_before (t s : string) (n : nat) :
  str_find t s = Some n ->
  forall a b, s = a ++ b -> String.length a < n -> startswith t b = false.
Proof.
  intros Hf a. revert s n Hf.
  induction a as [| c a IH]; intros s n Hf b Hs Hlt; simpl in *.
  - subst s. destruct b as [| d b]; simpl in Hf.
    + destruct (startswith t ""); [inversion Hf; lia | reflexivity].
    + destruct (startswith t (String d b)); [inversion Hf; lia | reflexivity].
  - subst s. simpl in Hf.
    destruct (startswith t (String c (a ++ b))); [inversion Hf; lia |].
    destruct (str_find t (a ++ b)) as [m |] eqn:Hm; simpl in Hf; [| discriminate].
    inversion Hf; subst n. apply (IH (a ++ b) m Hm b eq_refl). lia.
Qed.

Lemma str_find_None (t s : string) :
  str_find t s = None -> forall a b, s = a ++ b -> startswith t b = false.
Proof.
  intros Hf a. revert s Hf.
  induction a as [| c a IH]; intros s Hf b Hs; simpl in *.
  - subst s. destruct b as [| d b]; simpl in Hf.
    + destruct (startswith t ""); [discriminate | reflexivity].
    + destruct (startswith t (String d b)); [discriminate | reflexivity].
  - subst s. simpl in Hf.
    destruct (startswith t (String c (a ++ b))); [discriminate |].
    destruct (str_find t (a ++ b)) as [m |] eqn:Hm; simpl in Hf; [discriminate |].
    apply (IH (a ++ b) Hm b eq_refl).
Qed.

Lemma all_chars_app (p : ascii -> bool) (a b : string) :
  all_chars p (a ++ b) = all_chars p a && all_chars p b.
Proof.
  induction a as [| c a IH]; simpl; [reflexivity |].
  now rewrite IH, andb_assoc.
Qed.

(** [lstrip] removes a run of whitespace and stops at a non-space. *)
Lemma lstrip_spec (s : string) :
  exists w, s = w ++ lstrip s /\ all_space w = true
            /\ head_is is_space (lstrip s) = false.
Proof.
  induction s as [| c s (w & Hs & Hw & Hh)]; simpl.
  - exists "". auto.
  - destruct (is_space c) eqn:Hc.
    + exists (String c w). simpl. rewrite Hc, Hw. repeat split; auto.
      now rewrite <- Hs.
    + exists "". simpl. auto.
Qed.

Lemma tail_tight_cons (c : ascii) (r : string) :
  r <> "" -> tail_tight r -> tail_tight (String c r).
Proof.
  intros Hr Ht u w Hx Hw.
  destruct u as [| d u]; simpl in Hx.
  - subst w. simpl. rewrite (Ht "" r eq_refl Hr). apply andb_false_r.
  - inversion Hx; subst. apply (Ht u w eq_refl Hw).
Qed.

Lemma tail_tight_nil : tail_tight "".
Proof.
  intros u w Hx Hne. destruct u; destruct w; simpl in Hx; try discriminate.
  now elim Hne.
Qed.

Lemma tail_tight_single (c : ascii) : is_space c = false -> tail_tight (str1 c).
Proof.
  intros Hc u x Hx Hne. destruct u as [| e u]; simpl in Hx.
  - subst x. simpl. now rewrite Hc.
  - inversion Hx. destruct u; destruct x; simpl in *; try discriminate.
    now elim Hne.
Qed.

Lemma rstrip_spec (s : string) :
  exists w, s = rstrip s ++ w /\ all_space w = true /\ tail_tight (rstrip s).
Proof.
  induction s as [| c s (w & Hs & Hw & Ht)]; simpl.
  - exists "". split; [reflexivity | split; [reflexivity | apply tail_tight_nil]].
  - destruct (rstrip s) as [| d r] eqn:Hr.
    + simpl in Hs. destruct (is_space c) eqn:Hc.
      * exists (String c w). simpl. rewrite Hc, Hw.
        split; [now rewrite <- Hs | split; [reflexivity | apply tail_tight_nil]].
      * exists w. simpl.
        split; [now rewrite <- Hs | split; [exact Hw | now apply tail_tight_single]].
    + exists w. split; [simpl; now rewrite Hs at 1 | split; [exact Hw |]].
      apply tail_tight_cons; [discriminate | exact Ht].
Qed.

Lemma rstrip_fixed (x : string) : tail_tight x -> rstrip x = x.
Proof.
  induction x as [| c x IH]; intros Ht; simpl; [reflexivity |].
  assert (Hx : tail_tight x).
  { intros u w Hx Hw. apply (Ht (String c u) w); [simpl; now rewrite Hx | exact Hw]. }
  rewrite (IH Hx). destruct x as [| d x]; [| reflexivity].
  assert (Hc : all_space (String c "") = false)
    by (apply (Ht "" (String c "")); [reflexivity | discriminate]).
  simpl in Hc. rewrite andb_true_r in Hc. now rewrite Hc.
Qed.

Lemma lstrip_fixed (x : string) : head_is is_space x = false -> lstrip x = x.
Proof. destruct x as [| c x]; simpl; [reflexivity |]. now intros ->. Qed.

Lemma rstrip_head (t : string) :
  head_is is_space t = false -> head_is is_space (rstrip t) = false.
Proof.
  destruct t as [| c t]; simpl; [reflexivity |]. intros Hc.
  destruct (rstrip t); simpl; [now rewrite Hc | exact Hc].
Qed.

(** [strip] cuts whitespace off both ends and leaves a tight core. *)
Lemma strip_spec (s : string) :
  exists w1 w2,
    s = w1 ++ strip s ++ w2 /\ all_space w1 = true /\ all_space w2 = true
    /\ head_is is_space (strip s) = false /\ tail_tight (strip s).
Proof.
  unfold strip.
  destruct (lstrip_spec s) as (w1 & Hs & Hw1 & Hh).
  destruct (rstrip_spec (lstrip s)) as (w2 & Hl & Hw2 & Ht).
  exists w1, w2. repeat split; auto.
  - now rewrite <- Hl.
  - now apply rstrip_head.
Qed.

Lemma strip_fixed (x : string) :
  head_is is_space x = false -> tail_tight x -> strip x = x.
Proof. intros Hh Ht. unfold strip. rewrite (lstrip_fixed _ Hh). now apply rstrip_fixed. Qed.

Lemma strip_strip (s : string) : strip (strip s) = strip s.
Proof.
  destruct (strip_spec s) as (w1 & w2 & _ & _ & _ & Hh & Ht).
  now apply strip_fixed.
Qed.

(* ===================================================================== *)
(** ** Facts about the backtracking matchers *)
(* ===================================================================== *)

Section RegexFacts.
Context {R : Type}.
Implicit Types (k : string -> string -> option R) (m : string -> option R).

Lemma lit_app (t x : string) (f : string -> option R) : lit t f (t ++ x) = f x.
Proof. unfold lit. now rewrite strip_prefix_app. Qed.

Lemma lit_fails (t s : string) (f : string -> option R) :
  startswith t s = false -> lit t f s = None.
Proof. intros H. unfold lit. now rewrite (strip_prefix_startswith _ _ H). Qed.

Lemma search_here m (s : string) (r : R) : m s = Some r -> search m s = Some r.
Proof. intros H. destruct s; simpl; now rewrite H. Qed.

(** The search moves past every position at which the pattern fails. *)
Lemma search_skip m (pre rest : string) :
  (forall a b, pre = a ++ b -> b <> "" -> m (b ++ rest) = None) ->
  search m (pre ++ rest) = search m rest.
Proof.
  induction pre as [| c pre IH]; intros H; [reflexivity |].
  change (String c pre ++ rest) with (String c (pre ++ rest)). simpl.
  assert (H0 : m (String c (pre ++ rest)) = None)
    by (apply (H "" (String c pre)); [reflexivity | discriminate]).
  rewrite H0. apply IH. intros a b Hp Hb.
  apply (H (String c a) b); [simpl; now rewrite Hp | exact Hb].
Qed.

Lemma search_none m (s : string) :
  (forall a b, s = a ++ b -> m b = None) -> search m s = None.
Proof.
  induction s as [| c s IH]; intros H; simpl.
  - now rewrite (H "" "" eq_refl).
  - rewrite (H "" (String c s) eq_refl). apply IH.
    intros a b Hs. apply (H (String c a) b). simpl. now rewrite Hs.
Qed.

(** The greedy star takes the whole run when the continuation accepts
    what follows it. *)
Lemma star_greedy_max (p : ascii -> bool) k (acc w rest : string) (r : R) :
  all_chars p w = true -> head_is p rest = false ->
  k (acc ++ w) rest = Some r ->
  star_greedy p k acc (w ++ rest) = Some r.
Proof.
  revert acc. induction w as [| c w IH]; intros acc Hw Hh Hk; simpl in *.
  - rewrite append_nil_r in Hk.
    destruct rest as [| d rest]; simpl in *; [exact Hk | now rewrite Hh].
  - apply andb_true_iff in Hw as [Hc Hw]. rewrite Hc.
    rewrite (IH (acc ++ str1 c) Hw Hh); [reflexivity |].
    now rewrite append_assoc.
Qed.

(** The greedy star fails when the continuation refuses every cut of
    the run. *)
Lemma star_greedy_none (p : ascii -> bool) k (acc s : string) :
  (forall w rest, s = w ++ rest -> all_chars p w = true ->
                  k (acc ++ w) rest = None) ->
  star_greedy p k acc s = None.
Proof.
  revert acc. induction s as [| c s IH]; intros acc H; simpl.
  - rewrite <- (append_nil_r acc) at 1. now apply (H "" "").
  - assert (H0 : k acc (String c s) = None).
    { rewrite <- (append_nil_r acc) at 1. now apply (H "" (String c s)). }
    destruct (p c) eqn:Hc; [| exact H0].
    rewrite IH; [exact H0 |].
    intros w rest Hs Hw. rewrite append_assoc. simpl.
    apply (H (String c w) rest); [simpl; now rewrite Hs | simpl; now rewrite Hc].
Qed.

(** The lazy star stops at the first cut the continuation accepts. *)
Lemma star_lazy_first k (acc a b : string) (r : R) :
  (forall a1 a2, a = a1 ++ a2 -> a2 <> "" -> k (acc ++ a1) (a2 ++ b) = None) ->
  k (acc ++ a) b = Some r ->
  star_lazy any_char k acc (a ++ b) = Some r.
Proof.
  revert acc. induction a as [| c a IH]; intros acc H Hk.
  - rewrite append_nil_r in Hk. simpl. destruct b; simpl; now rewrite Hk.
  - change (String c a ++ b) with (String c (a ++ b)). simpl.
    assert (H0 : k acc (String c (a ++ b)) = None).
    { rewrite <- (append_nil_r acc) at 1.
      apply (H "" (String c a)); [reflexivity | discriminate]. }
    rewrite H0. apply IH.
    + intros a1 a2 Ha Hne. rewrite append_assoc. simpl.
      apply (H (String c a1) a2); [simpl; now rewrite Ha | exact Hne].
    + now rewrite append_assoc.
Qed.

Lemma star_greedy_any_here k (acc y : string) :
  (forall y1 y2, y = y1 ++ y2 -> y1 <> "" -> k (acc ++ y1) y2 = None) ->
  star_greedy any_char k acc y = k acc y.
Proof.
  revert acc. induction y as [| c y IH]; intros acc H; simpl; [reflexivity |].
  rewrite IH.
  - assert (H0 : k (acc ++ str1 c) y = None)
      by (apply (H (str1 c) y); [reflexivity | discriminate]).
    now rewrite H0.
  - intros y1 y2 Hy Hne. rewrite append_assoc. simpl.
    apply (H (String c y1) y2); [simpl; now rewrite Hy | discriminate].
Qed.

(** The greedy star over any character stops at the last cut the
    continuation accepts. *)
Lemma star_greedy_any_last k (acc x y : string) (r : R) :
  (forall y1 y2, y = y1 ++ y2 -> y1 <> "" -> k (acc ++ x ++ y1) y2 = None) ->
  k (acc ++ x) y = Some r ->
  star_greedy any_char k acc (x ++ y) = Some r.
Proof.
  revert acc. induction x as [| c x IH]; intros acc H Hk.
  - simpl in *. rewrite append_nil_r in Hk. rewrite star_greedy_any_here; auto.
  - change (String c x ++ y) with (String c (x ++ y)). simpl.
    rewrite (IH (acc ++ str1 c)); [reflexivity | |].
    + intros y1 y2 Hy Hne. rewrite append_assoc. simpl. now apply H.
    + now rewrite append_assoc.
Qed.
End RegexFacts.

(* ===================================================================== *)
(** ** What the three patterns find *)
(* ===================================================================== *)

Lemma length_pos (z : string) : z <> "" -> 0 < String.length z.
Proof. destruct z; [now intros H; elim H | simpl; lia]. Qed.

(** When the first [START OF JSON] of the text opens the block and the
    first [END OF JSON] after it closes the block, group 1 is the interior
    without its surrounding whitespace. *)
Lemma re_markers_block (pre mid post : string) :
  str_find START_MARK (pre ++ START_MARK ++ mid ++ END_MARK ++ post)
    = Some (String.length pre) ->
  str_find END_MARK (mid ++ END_MARK ++ post) = Some (String.length mid) ->
  re_markers (pre ++ START_MARK ++ mid ++ END_MARK ++ post) = Some (strip mid).
Proof.
  intros Hs He. unfold re_markers.
  rewrite search_skip.
  2:{ intros a b Hp Hb. apply lit_fails.
      apply (str_find_before _ _ _ Hs a).
      - now rewrite Hp, append_assoc.
      - rewrite Hp, length_append. pose proof (length_pos b Hb). lia. }
  apply search_here. rewrite lit_app.
  destruct (strip_spec mid) as (w1 & w2 & Hm & Hw1 & Hw2 & Hh & Ht).
  destruct (strip mid) as [| c core] eqn:Hcore.
  - simpl in Hm. rewrite Hm.
    apply star_greedy_max.
    + now rewrite all_chars_app, Hw1, Hw2.
    + reflexivity.
    + reflexivity.
  - rewrite Hm at 1. rewrite !append_assoc.
    apply star_greedy_max; [exact Hw1 | exact Hh |]. cbv beta.
    apply star_lazy_first.
    + intros a1 a2 Hc Hne. cbv beta.
      apply star_greedy_none. intros w rest Hsplit Hw. apply lit_fails.
      destruct (append_split _ _ _ _ Hsplit) as [(z & Hwz & Hy) | (z & Hz & Ha2 & Hrest)].
      * subst w. rewrite all_chars_app in Hw. apply andb_true_iff in Hw as [Hw _].
        rewrite (Ht a1 a2 Hc Hne) in Hw. discriminate.
      * apply (str_find_before _ _ _ He (w1 ++ a1 ++ w)).
        -- rewrite Hm at 1. rewrite Hc, Ha2, Hrest. now rewrite !append_assoc.
        -- rewrite Hm, Hc, Ha2. rewrite !length_append.
           pose proof (length_pos z Hz). lia.
    + cbv beta. simpl (("" ++ _)%string).
      apply star_greedy_max; [exact Hw2 | reflexivity |].
      now rewrite lit_app.
Qed.

(** Without the opening marker the first pattern finds nothing. *)
Lemma re_markers_no_start (text : string) :
  contains START_MARK text = false -> re_markers text = None.
Proof.
  unfold contains. destruct (str_find START_MARK text) eqn:Hf; [discriminate |].
  intros _. apply search_none. intros a b Hs. apply lit_fails.
  now apply (str_find_None _ _ Hf a).
Qed.

Lemma has_char_app (c : ascii) (a b : string) :
  has_char c (a ++ b) = has_char c a || has_char c b.
Proof.
  unfold has_char. induction a as [| d a IH]; simpl; [reflexivity |].
  now rewrite IH, orb_assoc.
Qed.

Lemma has_char_head (c : ascii) (s : string) :
  has_char c s = false -> startswith (str1 c) s = false.
Proof.
  destruct s as [| d s]; [reflexivity |]. unfold has_char. simpl.
  destruct (Ascii.eqb c d); [discriminate | reflexivity].
Qed.

Section Span.
(** The patterns [({.*})] and [(\[[\s\S]*\])] have one shape: an opening
    character, anything, a closing character. *)
Variables o c : ascii.

(** The span found runs from the first opening character to the last
    closing character. *)
Lemma span_first_to_last (a inner b : string) :
  has_char o a = false -> has_char c b = false ->
  span_search o c (a ++ str1 o ++ inner ++ str1 c ++ b)
  = Some (str1 o ++ inner ++ str1 c).
Proof.
  intros Ha Hb. unfold span_search.
  rewrite search_skip.
  2:{ intros a1 a2 Hsplit Hne. apply lit_fails.
      rewrite Hsplit, has_char_app in Ha. apply orb_false_iff in Ha as [_ Ha].
      destruct a2 as [| d a2]; [now elim Hne |].
      unfold has_char in Ha. simpl in Ha. apply orb_false_iff in Ha as [Hd _].
      simpl. now rewrite Hd. }
  apply search_here. rewrite lit_app.
  apply star_greedy_any_last.
  - intros y1 y2 Hy Hne. cbv beta. apply lit_fails.
    destruct y1 as [| d y1]; [now elim Hne |].
    simpl in Hy. inversion Hy; subst d.
    apply has_char_head. rewrite H1, has_char_app in Hb.
    now apply orb_false_iff in Hb as [_ Hb].
  - cbv beta. now rewrite lit_app.
Qed.

(** No span at all: the pattern finds nothing. *)
Lemma span_none (text : string) :
  no_span (str1 o) (str1 c) text -> span_search o c text = None.
Proof.
  intros Hn. unfold span_search. apply search_none. intros a b Hs.
  unfold lit at 1. destruct (strip_prefix (str1 o) b) as [b' |] eqn:Hb; [| reflexivity].
  apply strip_prefix_Some in Hb.
  apply star_greedy_none. intros w rest Hw _. cbv beta.
  unfold lit. destruct (strip_prefix (str1 c) rest) as [z |] eqn:Hr; [| reflexivity].
  apply strip_prefix_Some in Hr. exfalso.
  apply (Hn a w z). now rewrite Hs, Hb, Hw, Hr.
Qed.
End Span.

Lemma re_object_span (a inner b : string) :
  has_char "{" a = false -> has_char "}" b = false ->
  re_object (a ++ "{" ++ inner ++ "}" ++ b) = Some ("{" ++ inner ++ "}").
Proof. apply (span_first_to_last "{" "}"). Qed.

Lemma re_object_none (text : string) :
  no_span "{" "}" text -> re_object text = None.
Proof. apply (span_none "{" "}"). Qed.

Lemma re_array_span (a inner b : string) :
  has_char "[" a = false -> has_char "]" b = false ->
  re_array (a ++ "[" ++ inner ++ "]" ++ b) = Some ("[" ++ inner ++ "]").
Proof. apply (span_first_to_last "[" "]"). Qed.

(** A text without the opening character has no span. *)
Lemma no_span_without_open (o : ascii) (c text : string) :
  has_char o text = false -> no_span (str1 o) c text.
Proof.
  intros H x y z E. rewrite E, has_char_app in H.
  apply orb_false_iff in H as [_ H].
  unfold has_char in H. simpl in H. now rewrite Ascii.eqb_refl in H.
Qed.

(* ===================================================================== *)
(** ** The response extractor *)
(* ===================================================================== *)

Section ExtractorFacts.
Variable loads : bool -> string -> loads_result.

Lemma parse_json_text_decoded (t : string) (v : pyval) :
  parse_json_text loads t = Ok v ->
  v = empty_dict \/ decoded loads t = Some v.
Proof.
  unfold parse_json_text, decoded.
  destruct (loads true t) as [w | | e]; [| destruct (loads false t) as [w | | e] |];
    intros H; inversion H; subst; auto.
Qed.

(** The extractor on a text, in terms of the candidate and of what the
    parsers make of it. *)
Lemma parse_json_from_response_text (text : string) :
  parse_json_from_response loads (Some text)
  = Ok (match find_json_text text with
        | Some t =>
            if truthy (PStr t) then
              match decoded loads t with
              | Some v => if is_container v then v else empty_dict
              | None => empty_dict
              end
            else empty_dict
        | None => empty_dict
        end).
Proof.
  unfold parse_json_from_response, parse_json_text, decoded, is_container.
  destruct (find_json_text text) as [t |]; [| reflexivity].
  destruct (truthy (PStr t)); [| reflexivity].
  destruct (loads true t) as [w | | e]; simpl.
  - destruct (is_dict w || is_list w); reflexivity.
  - destruct (loads false t) as [w | | e]; simpl; try reflexivity.
    destruct (is_dict w || is_list w); reflexivity.
  - reflexivity.
Qed.
End ExtractorFacts.

(** C4. On every input string the extractor returns normally, and what it
    returns is a dict or a list.  When no candidate text is found, or the
    candidate is empty, or neither parser accepts it, the result is the
    empty dict; when a parser accepts the candidate but the value is
    neither a dict nor a list, the result is the empty dict as well. *)
Theorem extractor_never_raises :
  forall (loads : bool -> string -> loads_result) (text : string),
  exists v : pyval,
    parse_json_from_response loads (Some text) = Ok v
    /\ is_container v = true
    /\ (find_json_text text = None -> v = empty_dict)
    /\ (forall t, find_json_text text = Some t ->
                  t = "" \/ decoded loads t = None -> v = empty_dict)
    /\ (forall t w, find_json_text text = Some t ->
                    decoded loads t = Some w ->
                    is_container w = false -> v = empty_dict).
Proof.
  intros loads text. rewrite parse_json_from_response_text.
  eexists. split; [reflexivity |].
  destruct (find_json_text text) as [t |].
  - destruct (truthy (PStr t)) eqn:Ht.
    + destruct (decoded loads t) as [v |] eqn:Hd.
      * destruct (is_container v) eqn:Hc.
        -- repeat split; auto; try discriminate.
           ++ intros t' Ht' [He | Hn]; inversion Ht'; subst t'.
              ** subst t. discriminate.
              ** congruence.
           ++ intros t' w Ht' Hw Hcw. inversion Ht'; subst t'. congruence.
        -- repeat split; auto.
      * repeat split; auto.
    + repeat split; auto.
  - repeat split; auto.
Qed.

Lemma extractor_never_raises_witness :
  exists v : pyval,
    parse_json_from_response json_loads (Some "START OF JSON 42 END OF JSON") = Ok v
    /\ v = empty_dict.
Proof.
  destruct (extractor_never_raises json_loads "START OF JSON 42 END OF JSON")
    as (v & Hv & _ & _ & _ & Hscalar).
  exists v. split; [exact Hv |].
  apply (Hscalar "42" (PInt 42)); reflexivity.
Defined.

Lemma tail_tight_end (s : string) (c : ascii) :
  is_space c = false -> tail_tight (s ++ str1 c).
Proof.
  intros Hc u w H Hne.
  destruct (append_split _ _ _ _ H) as [(z & Hu & Hz) | (z & Hz & Hs & Hw)].
  - destruct z as [| d z]; simpl in Hz.
    + subst w. simpl. now rewrite Hc.
    + inversion Hz. destruct z; destruct w; simpl in *; try discriminate.
      now elim Hne.
  - subst w. rewrite all_chars_app. simpl. rewrite Hc. apply andb_false_r.
Qed.

Lemma strip_span (o c : ascii) (inner : string) :
  is_space o = false -> is_space c = false ->
  strip (str1 o ++ inner ++ str1 c) = str1 o ++ inner ++ str1 c.
Proof.
  intros Ho Hc. apply strip_fixed.
  - simpl. exact Ho.
  - change (str1 o ++ inner ++ str1 c) with (String o (inner ++ str1 c)).
    change (String o (inner ++ str1 c)) with (String o inner ++ str1 c).
    now apply tail_tight_end.
Qed.

Lemma decoded_strict (loads : bool -> string -> loads_result) (t : string) (v : pyval) :
  loads true t = LoadsOk v -> decoded loads t = Some v.
Proof. unfold decoded. now intros ->. Qed.

Lemma truthy_nonempty (s : string) : s <> "" -> truthy (PStr s) = true.
Proof. destruct s; [now intros H; elim H | reflexivity]. Qed.

(** C5, as amended.  When the first [START OF JSON] of the response opens
    a block that the first [END OF JSON] after it closes, and the trimmed
    interior of the block is a non-empty text that the strict parser reads
    as a dict or a list, the extractor returns exactly that value, whatever
    prose stands before and after the block. *)
Theorem marked_block_extracted :
  forall (loads : bool -> string -> loads_result) (pre mid post : string) (v : pyval),
    str_find START_MARK (pre ++ START_MARK ++ mid ++ END_MARK ++ post)
      = Some (String.length pre) ->
    str_find END_MARK (mid ++ END_MARK ++ post) = Some (String.length mid) ->
    strip mid <> "" ->
    loads true (strip mid) = LoadsOk v ->
    is_container v = true ->
    parse_json_from_response loads
      (Some (pre ++ START_MARK ++ mid ++ END_MARK ++ post)) = Ok v.
Proof.
  intros loads pre mid post v Hs He Hne Hv Hc.
  rewrite parse_json_from_response_text. unfold find_json_text.
  rewrite (re_markers_block pre mid post Hs He), strip_strip.
  now rewrite (truthy_nonempty _ Hne), (decoded_strict _ _ _ Hv), Hc.
Qed.

Lemma marked_block_extracted_witness :
  parse_json_from_response json_loads
    (Some (("Here is the outline." ++ nl) ++ START_MARK
           ++ (nl ++ "[{" ++ dq ++ "slide_type" ++ dq ++ ": " ++ dq ++ "title_slide" ++ dq
               ++ "}]" ++ nl)
           ++ END_MARK ++ " Let me know if you need changes."))
  = Ok (PList [PDict [("slide_type", PStr "title_slide")]]).
Proof.
  apply (marked_block_extracted json_loads).
  - vm_compute. reflexivity.
  - vm_compute. reflexivity.
  - vm_compute. discriminate.
  - vm_compute. reflexivity.
  - reflexivity.
Defined.

(** C5 as stated fails: the response below contains the well-formed block
    [START OF JSON [1] END OF JSON], but the prose before it names both
    markers, so the pattern pairs those and the candidate is the word
    between them. *)
Lemma marked_block_counterexample :
  json_loads true (strip " [1] ") = LoadsOk (PList [PInt 1])
  /\ is_container (PList [PInt 1]) = true
  /\ parse_json_from_response json_loads
       (Some ("Reply between START OF JSON and END OF JSON. "
              ++ START_MARK ++ " [1] " ++ END_MARK ++ ""))
     = Ok empty_dict
  /\ empty_dict <> PList [PInt 1].
Proof.
  split; [vm_compute; reflexivity |].
  split; [reflexivity |].
  split; [vm_compute; reflexivity | discriminate].
Qed.

(** C6, as amended.  For a response without the markers whose trimmed form
    starts with neither a brace nor a bracket: the candidate is the span
    from the first opening brace to the last closing brace and, only when
    the text has no such span, the span from the first opening bracket to
    the last closing bracket.  When the strict parser reads that candidate
    as a dict or a list, the extractor returns exactly that value. *)
Theorem embedded_span_extracted :
  forall (loads : bool -> string -> loads_result) (text a inner b : string) (v : pyval),
    contains START_MARK text = false ->
    contains END_MARK text = false ->
    startswith "{" (strip text) || startswith "[" (strip text) = false ->
    (text = a ++ "{" ++ inner ++ "}" ++ b
     /\ has_char "{" a = false /\ has_char "}" b = false
     /\ loads true ("{" ++ inner ++ "}") = LoadsOk v)
    \/ (no_span "{" "}" text
        /\ text = a ++ "[" ++ inner ++ "]" ++ b
        /\ has_char "[" a = false /\ has_char "]" b = false
        /\ loads true ("[" ++ inner ++ "]") = LoadsOk v) ->
    is_container v = true ->
    parse_json_from_response loads (Some text) = Ok v.
Proof.
  intros loads text a inner b v Hstart _ Hlead Hspan Hc.
  rewrite parse_json_from_response_text. unfold find_json_text.
  rewrite (re_markers_no_start _ Hstart), Hlead.
  destruct Hspan as [(Ht & Ha & Hb & Hv) | (Hno & Ht & Ha & Hb & Hv)].
  - rewrite Ht, (re_object_span a inner b Ha Hb).
    pose proof (strip_span "{" "}" inner eq_refl eq_refl) as Hst.
    unfold str1 in Hst. rewrite Hst.
    now rewrite (decoded_strict _ _ _ Hv), Hc.
  - rewrite (re_object_none _ Hno).
    rewrite Ht, (re_array_span a inner b Ha Hb).
    pose proof (strip_span "[" "]" inner eq_refl eq_refl) as Hst.
    unfold str1 in Hst. rewrite Hst.
    now rewrite (decoded_strict _ _ _ Hv), Hc.
Qed.

Lemma embedded_span_extracted_witness :
  parse_json_from_response json_loads
    (Some ("The slides: " ++ "[" ++ "1, [2, 3]" ++ "]" ++ " as requested."))
  = Ok (PList [PInt 1; PList [PInt 2; PInt 3]]).
Proof.
  apply (embedded_span_extracted json_loads _ "The slides: " "1, [2, 3]" " as requested.").
  - reflexivity.
  - reflexivity.
  - reflexivity.
  - right. split; [apply no_span_without_open; reflexivity |].
    repeat split; vm_compute; reflexivity.
  - reflexivity.
Defined.

(** C6 as stated fails: the response below has no markers and no leading
    brace, and it contains the well-formed object span [{"a": 1}], the
    first one; the pattern takes everything up to the last closing brace,
    which is not JSON, and the extractor returns the empty dict. *)
Lemma embedded_span_counterexample :
  contains START_MARK ("Result: {" ++ dq ++ "a" ++ dq ++ ": 1} or {" ++ dq ++ "b" ++ dq ++ ": 2}") = false
  /\ contains END_MARK ("Result: {" ++ dq ++ "a" ++ dq ++ ": 1} or {" ++ dq ++ "b" ++ dq ++ ": 2}") = false
  /\ startswith "{" (strip ("Result: {" ++ dq ++ "a" ++ dq ++ ": 1} or {" ++ dq ++ "b" ++ dq ++ ": 2}"))
     || startswith "[" (strip ("Result: {" ++ dq ++ "a" ++ dq ++ ": 1} or {" ++ dq ++ "b" ++ dq ++ ": 2}"))
     = false
  /\ "Result: {" ++ dq ++ "a" ++ dq ++ ": 1} or {" ++ dq ++ "b" ++ dq ++ ": 2}"
     = "Result: " ++ ("{" ++ dq ++ "a" ++ dq ++ ": 1}") ++ " or {" ++ dq ++ "b" ++ dq ++ ": 2}"
  /\ json_loads true ("{" ++ dq ++ "a" ++ dq ++ ": 1}") = LoadsOk (PDict [("a", PInt 1)])
  /\ parse_json_from_response json_loads
       (Some ("Result: {" ++ dq ++ "a" ++ dq ++ ": 1} or {" ++ dq ++ "b" ++ dq ++ ": 2}"))
     = Ok empty_dict
  /\ empty_dict <> PDict [("a", PInt 1)].
Proof.
  repeat split; try (vm_compute; reflexivity). discriminate.
Qed.

(* ===================================================================== *)
(** ** Dicts, lists and containment *)
(* ===================================================================== *)

Lemma dict_get_set_same (d : pydict) (k : string) (v : pyval) :
  dict_get (dict_set d k v) k = Some v.
Proof.
  induction d as [| [k' v'] d IH]; simpl.
  - now rewrite String.eqb_refl.
  - destruct (String.eqb k' k) eqn:E; simpl; rewrite E; [reflexivity | exact IH].
Qed.

Lemma dict_get_set_other (d : pydict) (k k' : string) (v : pyval) :
  k <> k' -> dict_get (dict_set d k v) k' = dict_get d k'.
Proof.
  intros Hne. induction d as [| [k0 v0] d IH]; simpl.
  - apply String.eqb_neq in Hne. now rewrite Hne.
  - destruct (String.eqb k0 k) eqn:E; simpl.
    + apply String.eqb_eq in E. subst k0.
      apply String.eqb_neq in Hne. now rewrite Hne.
    + destruct (String.eqb k0 k'); [reflexivity | exact IH].
Qed.

Lemma eq_str_PStr (a b : string) : eq_str (PStr a) b = String.eqb a b.
Proof. reflexivity. Qed.

Lemma eq_str_true (v : pyval) (s : string) : eq_str v s = true -> v = PStr s.
Proof.
  destruct v; simpl; try discriminate.
  intros H. apply String.eqb_eq in H. now subst.
Qed.

Lemma str_find_unfold (t s : string) :
  str_find t s
  = if startswith t s then Some 0
    else match s with
         | EmptyString => None
         | String _ s' => option_map S (str_find t s')
         end.
Proof. destruct s; reflexivity. Qed.

Lemma contains_app (t a b : string) : contains t (a ++ t ++ b) = true.
Proof.
  unfold contains. induction a as [| c a IH].
  - rewrite str_find_unfold. simpl. now rewrite startswith_app.
  - rewrite str_find_unfold.
    destruct (startswith t (String c a ++ t ++ b)); [reflexivity |].
    simpl. destruct (str_find t (a ++ t ++ b)); [reflexivity | discriminate].
Qed.

Lemma append_inv_tail (a b r : string) : a ++ r = b ++ r -> a = b.
Proof.
  revert b. induction a as [| c a IH]; intros [| d b] H; simpl in H.
  - reflexivity.
  - exfalso. apply (f_equal String.length) in H. simpl in H.
    rewrite length_append in H. lia.
  - exfalso. apply (f_equal String.length) in H. simpl in H.
    rewrite length_append in H. lia.
  - inversion H. f_equal. now apply IH.
Qed.

(* ===================================================================== *)
(** ** The content prompt and its lookahead *)
(* ===================================================================== *)

(** The guidance sentence is a part of the content prompt, and the prompt
    determines it. *)
Lemma contains_here (t b : string) : contains t (t ++ b) = true.
Proof. apply (contains_app t "" b). Qed.

Lemma contains_skip (t a s : string) :
  contains t s = true -> contains t (a ++ s) = true.
Proof.
  unfold contains. intros H. induction a as [| c a IH]; [exact H |].
  rewrite str_find_unfold.
  destruct (startswith t (String c a ++ s)); [reflexivity |].
  simpl. destruct (str_find t (a ++ s)); [reflexivity | discriminate].
Qed.

Lemma content_slide_prompt_contains (n t ty : pyval) (topic cl g : string) :
  contains g (content_slide_prompt n t ty topic cl g) = true.
Proof.
  unfold content_slide_prompt.
  repeat first [apply contains_here | apply contains_skip].
Qed.

Lemma content_slide_prompt_inj (n t ty : pyval) (topic cl g1 g2 : string) :
  content_slide_prompt n t ty topic cl g1 = content_slide_prompt n t ty topic cl g2 ->
  g1 = g2.
Proof.
  unfold content_slide_prompt. intros H.
  repeat apply append_inv_head in H.
  now apply append_inv_tail in H.
Qed.

Lemma nth_error_lt {A : Type} (l : list A) (n : nat) (a : A) :
  nth_error l n = Some a -> n < List.length l.
Proof. intros H. apply nth_error_Some. congruence. Qed.

(** The lookahead reads the element at the index given by the slide
    number. *)
Lemma lookahead_reads_index (structure : list pydict) (N : nat)
      (next : pydict) (slide_title : pyval) :
  nth_error structure N = Some next ->
  is_explanation_for_image (Some structure) (PInt (Z.of_nat N)) slide_title
  = Ok (py_eq (dict_get_default next "slide_title" PNone) slide_title
        && eq_str (dict_get_default next "slide_type" PNone) "image_slide").
Proof.
  intros Hn. pose proof (nth_error_lt _ _ _ Hn) as Hlt.
  unfold is_explanation_for_image, py_lt_nat, list_item. simpl int_value. cbv iota.
  assert (E : (Z.of_nat N <? Z.of_nat (List.length structure))%Z = true)
    by (apply Z.ltb_lt; lia).
  assert (E0 : (Z.of_nat N <? 0)%Z = false) by (apply Z.ltb_ge; lia).
  rewrite E, E0. cbn [bind]. rewrite E0, Nat2Z.id, Hn. reflexivity.
Qed.

(** The prompt of a content slide numbered [N] is the content prompt with
    the guidance that the lookahead selects. *)
Lemma content_prompt_by_lookahead (slide_info : pydict) (N : nat) (title : pyval)
      (topic cl today : string) (session : option (list pydict)) :
  dict_get slide_info "slide_number" = Some (PInt (Z.of_nat N)) ->
  dict_get slide_info "slide_type" = Some (PStr "content_slide") ->
  dict_get slide_info "slide_title" = Some title ->
  slide_prompt session slide_info topic cl today
  = (is_explanation <- is_explanation_for_image session (PInt (Z.of_nat N)) title ;;
     Ok (content_slide_prompt (PInt (Z.of_nat N)) title (PStr "content_slide")
           topic cl
           (if is_explanation then lead_in_guidance else default_guidance))).
Proof.
  intros Hnum Htype Htitle. unfold slide_prompt, dict_get_default.
  now rewrite Hnum, Htype, Htitle.
Qed.

(** Past the end of the structure the lookahead finds nothing. *)
Lemma lookahead_past_end (structure : list pydict) (N : nat) (slide_title : pyval) :
  nth_error structure N = None ->
  is_explanation_for_image (Some structure) (PInt (Z.of_nat N)) slide_title = Ok false.
Proof.
  intros Hn. apply nth_error_None in Hn.
  unfold is_explanation_for_image, py_lt_nat. simpl int_value. cbv iota.
  assert (E : (Z.of_nat N <? Z.of_nat (List.length structure))%Z = false)
    by (apply Z.ltb_ge; lia).
  now rewrite E.
Qed.

(** C1, as amended.  Take a structure whose descriptor at position [N]
    (1-based) is a [content_slide] that carries the slide number [N], and
    whose descriptor at position [N+1] is an [image_slide] with an equal
    title.  The content prompt built for descriptor [N] contains the
    lead-in guidance.  The lookahead reads the index equal to the slide
    number: the prompt is the same in every structure that has that image
    descriptor at 0-based index [N].  And the prompt differs from the one
    built when there is no such image slide: in every structure that has
    descriptor [N] at its position and in which the following descriptor is
    missing, or has another title or another type, a prompt is built and it
    is another one; so is the prompt built without a stored structure. *)
Theorem lead_in_prompt :
  forall (structure : list pydict) (N : nat) (slide_info next : pydict)
         (title title' : pyval) (topic complexity_level today : string),
    1 <= N ->
    nth_error structure (N - 1) = Some slide_info ->
    nth_error structure N = Some next ->
    dict_get slide_info "slide_number" = Some (PInt (Z.of_nat N)) ->
    dict_get slide_info "slide_type" = Some (PStr "content_slide") ->
    dict_get slide_info "slide_title" = Some title ->
    dict_get next "slide_type" = Some (PStr "image_slide") ->
    dict_get next "slide_title" = Some title' ->
    py_eq title' title = true ->
    exists prompt : string,
      slide_prompt (Some structure) slide_info topic complexity_level today = Ok prompt
      /\ contains lead_in_guidance prompt = true
      /\ (forall structure' : list pydict,
             nth_error structure' N = Some next ->
             slide_prompt (Some structure') slide_info topic complexity_level today
             = Ok prompt)
      /\ (forall structure' : list pydict,
             nth_error structure' (N - 1) = Some slide_info ->
             (forall following : pydict,
                 nth_error structure' N = Some following ->
                 py_eq (dict_get_default following "slide_title" PNone) title
                 && eq_str (dict_get_default following "slide_type" PNone) "image_slide"
                 = false) ->
             exists prompt' : string,
               slide_prompt (Some structure') slide_info topic complexity_level today
               = Ok prompt'
               /\ contains default_guidance prompt' = true
               /\ prompt' <> prompt)
      /\ (exists prompt' : string,
             slide_prompt None slide_info topic complexity_level today = Ok prompt'
             /\ contains default_guidance prompt' = true
             /\ prompt' <> prompt).
Proof.
  intros structure N slide_info next title title' topic cl today
         HN Hpos Hnext Hnum Htype Htitle Hntype Hntitle Heq.
  assert (Hlook : forall s, nth_error s N = Some next ->
            is_explanation_for_image (Some s) (PInt (Z.of_nat N)) title = Ok true).
  { intros s Hs. rewrite (lookahead_reads_index s N next title Hs).
    unfold dict_get_default. now rewrite Hntitle, Hntype, Heq. }
  pose proof (content_prompt_by_lookahead slide_info N title topic cl today)
    as Hprompt.
  assert (Hother : content_slide_prompt (PInt (Z.of_nat N)) title (PStr "content_slide")
                     topic cl default_guidance
                   <> content_slide_prompt (PInt (Z.of_nat N)) title
                        (PStr "content_slide") topic cl lead_in_guidance).
  { intros Hsame. apply content_slide_prompt_inj in Hsame. discriminate Hsame. }
  exists (content_slide_prompt (PInt (Z.of_nat N)) title (PStr "content_slide") topic cl
            lead_in_guidance).
  split; [| split; [| split; [| split]]].
  - now rewrite Hprompt, (Hlook structure Hnext).
  - apply content_slide_prompt_contains.
  - intros s Hs. now rewrite Hprompt, (Hlook s Hs).
  - intros s _ Hno.
    exists (content_slide_prompt (PInt (Z.of_nat N)) title (PStr "content_slide")
              topic cl default_guidance).
    split; [| split; [apply content_slide_prompt_contains | exact Hother]].
    rewrite Hprompt by assumption.
    destruct (nth_error s N) as [following |] eqn:Hs.
    + now rewrite (lookahead_reads_index s N following title Hs), (Hno following eq_refl).
    + now rewrite (lookahead_past_end s N title Hs).
  - exists (content_slide_prompt (PInt (Z.of_nat N)) title (PStr "content_slide")
              topic cl default_guidance).
    split; [| split; [apply content_slide_prompt_contains | exact Hother]].
    now rewrite Hprompt.
Qed.

Lemma lead_in_prompt_witness :
  exists prompt : string,
    slide_prompt (Some photosynthesis_structure)
      [("slide_number", PInt 2); ("slide_title", PStr "Light Reactions");
       ("slide_type", PStr "content_slide")]
      "Photosynthesis" "Basic" "January 01, 2025" = Ok prompt
    /\ contains lead_in_guidance prompt = true.
Proof.
  destruct (lead_in_prompt photosynthesis_structure 2
              [("slide_number", PInt 2); ("slide_title", PStr "Light Reactions");
               ("slide_type", PStr "content_slide")]
              [("slide_number", PInt 3); ("slide_title", PStr "Light Reactions");
               ("slide_type", PStr "image_slide")]
              (PStr "Light Reactions") (PStr "Light Reactions")
              "Photosynthesis" "Basic" "January 01, 2025")
    as (prompt & Hp & Hc & _); try reflexivity; [lia |].
  exists prompt. split; assumption.
Defined.

(** C1 as stated fails.  The structure below is the one returned for
    [shifted_reply]: its descriptor at position 1 is a [content_slide], its
    descriptor at position 2 an [image_slide] with the same title.  The
    content slide carries the number 2, so the lookahead reads the index 2,
    past the end: the prompt built has no lead-in guidance, and it is the
    prompt built without any structure. *)
Lemma lead_in_prompt_counterexample :
  fst (generate_slide_structure json_loads (sample_world [LlmText shifted_reply])
         "Photosynthesis" "In-person Lecture" "Basic" initial_state)
  = Ok shifted_structure
  /\ nth_error shifted_structure 0 = Some shifted_content_slide
  /\ nth_error shifted_structure 1 = Some shifted_image_slide
  /\ dict_get shifted_content_slide "slide_type" = Some (PStr "content_slide")
  /\ dict_get shifted_image_slide "slide_type" = Some (PStr "image_slide")
  /\ dict_get shifted_image_slide "slide_title"
     = dict_get shifted_content_slide "slide_title"
  /\ exists prompt : string,
       slide_prompt (Some shifted_structure) shifted_content_slide
         "Photosynthesis" "Basic" "January 01, 2025" = Ok prompt
       /\ contains lead_in_guidance prompt = false
       /\ slide_prompt None shifted_content_slide
            "Photosynthesis" "Basic" "January 01, 2025" = Ok prompt.
Proof.
  split; [vm_compute; reflexivity |].
  repeat (split; [reflexivity |]).
  eexists. split; [vm_compute; reflexivity |].
  split; vm_compute; reflexivity.
Qed.

(* ===================================================================== *)
(** ** The structure generator *)
(* ===================================================================== *)

Lemma set_contains_true (s : list string) (v : pyval) :
  set_contains s v = Ok true -> exists x, v = PStr x /\ In x s.
Proof.
  unfold set_contains. destruct (hashable v); [| discriminate].
  intros H. inversion H as [He]. apply existsb_exists in He as (x & Hin & Hx).
  exists x. split; [now apply eq_str_true | exact Hin].
Qed.

Lemma dict_has_get (d : pydict) (k : string) (dflt : pyval) :
  dict_has d k = true -> dict_get d k = Some (dict_get_default d k dflt).
Proof.
  unfold dict_has, dict_get_default. destruct (dict_get d k); [reflexivity | discriminate].
Qed.

Lemma kept_descriptor_weaken (i : nat) (d : pydict) :
  kept_descriptor (S i) d -> kept_descriptor i d.
Proof. intros [Ht (k & Hk & Hlt)]. split; [exact Ht | exists k; split; [exact Hk | lia]]. Qed.

(** Every descriptor kept by the validation loop has one of the five slide
    types and carries a number. *)
Lemma process_structure_kept (items : list pyval) :
  forall (i : nat) (out : list pydict),
    process_structure i items = Ok out -> Forall (kept_descriptor i) out.
Proof.
  induction items as [| slide rest IH]; intros i out H; simpl in H.
  - inversion H. constructor.
  - assert (Hskip : process_structure (S i) rest = Ok out ->
                    Forall (kept_descriptor i) out).
    { intros Hr. eapply Forall_impl; [| apply (IH _ _ Hr)].
      intros d. apply kept_descriptor_weaken. }
    destruct slide as [| b | z | s | l | d]; auto.
    destruct (dict_has d "slide_title" && dict_has d "slide_type") eqn:Hkeys; auto.
    apply andb_true_iff in Hkeys as [_ Hty].
    destruct (set_contains valid_slide_types (dict_get_default d "slide_type" PNone))
      as [known | e] eqn:Hknown; simpl in H; [| discriminate].
    destruct (process_structure (S i) rest) as [processed | e] eqn:Hrest;
      simpl in H; [| discriminate].
    inversion H; subst out. constructor.
    + split.
      * rewrite dict_get_set_other by discriminate.
        destruct known; simpl.
        -- apply set_contains_true in Hknown as (x & Hx & Hin).
           exists x. split; [| exact Hin].
           now rewrite (dict_has_get d "slide_type" PNone Hty), Hx.
        -- exists "content_slide". split; [apply dict_get_set_same |].
           simpl. auto.
      * exists (Z.of_nat i + 1)%Z. split; [apply dict_get_set_same | lia].
    + eapply Forall_impl; [| apply (IH _ _ Hrest)].
      intros d'. apply kept_descriptor_weaken.
Qed.

Lemma process_structure_length (items : list pyval) :
  forall (i : nat) (out : list pydict),
    process_structure i items = Ok out -> List.length out <= List.length items.
Proof.
  induction items as [| slide rest IH]; intros i out H; simpl in H.
  - inversion H. simpl. lia.
  - assert (Hskip : process_structure (S i) rest = Ok out ->
                    List.length out <= List.length (slide :: rest))
      by (intros Hr; apply IH in Hr; simpl; lia).
    destruct slide as [| b | z | s | l | d]; auto.
    destruct (dict_has d "slide_title" && dict_has d "slide_type"); auto.
    destruct (set_contains valid_slide_types (dict_get_default d "slide_type" PNone));
      simpl in H; [| discriminate].
    destruct (process_structure (S i) rest) as [processed |] eqn:Hrest;
      simpl in H; [| discriminate].
    inversion H. apply IH in Hrest. simpl. lia.
Qed.

(** When no element of the reply is dropped, the numbers are the
    positions: the descriptor at 0-based index [j] has number [i + j + 1]. *)
Lemma process_structure_positions (items : list pyval) :
  forall (i : nat) (out : list pydict),
    process_structure i items = Ok out ->
    List.length out = List.length items ->
    forall (j : nat) (d : pydict),
      nth_error out j = Some d ->
      dict_get d "slide_number" = Some (PInt (Z.of_nat (i + j) + 1)).
Proof.
  pose proof process_structure_length as Hlen.
  induction items as [| slide rest IH]; intros i out H Hl j d Hj; simpl in H.
  - inversion H; subst out. destruct j; discriminate.
  - assert (Hskip : process_structure (S i) rest = Ok out -> False).
    { intros Hr. apply Hlen in Hr. simpl in Hl. lia. }
    destruct slide as [| b | z | s | l | dd]; try (now exfalso; auto).
    destruct (dict_has dd "slide_title" && dict_has dd "slide_type");
      [| now exfalso; auto].
    destruct (set_contains valid_slide_types (dict_get_default dd "slide_type" PNone));
      simpl in H; [| discriminate].
    destruct (process_structure (S i) rest) as [processed |] eqn:Hrest;
      simpl in H; [| discriminate].
    inversion H; subst out. simpl in Hl.
    destruct j as [| j]; simpl in Hj.
    + inversion Hj; subst d. rewrite dict_get_set_same. do 2 f_equal. lia.
    + rewrite (IH (S i) processed Hrest ltac:(lia) j d Hj). do 2 f_equal. lia.
Qed.

(** C2, where the code departs from it.  The reply below is a list of
    three slide objects; the first has no [slide_type] and is dropped.  The
    two descriptors returned stand at positions 1 and 2 but carry the
    numbers 2 and 3: the loop numbers a descriptor by the index of the
    element in the reply, not by its position in the sequence returned. *)
Theorem structure_numbering_gap :
  fst (generate_slide_structure json_loads (sample_world [LlmText gap_reply])
         "Photosynthesis" "In-person Lecture" "Basic" initial_state)
  = Ok [ [("slide_number", PInt 2); ("slide_title", PStr "Chlorophyll");
          ("slide_type", PStr "content_slide")];
         [("slide_number", PInt 3); ("slide_title", PStr "Summary");
          ("slide_type", PStr "conclusion_slide")] ].
Proof. vm_compute. reflexivity. Qed.

(* ===================================================================== *)
(** ** The content generator *)
(* ===================================================================== *)

(** C7. For every descriptor: when the client is available, the prompt is
    built and the model replies with a text from which the extractor
    returns anything but a non-empty dict (the empty dict of a failed
    extraction, or a list), [generate_slide_content] returns normally with
    exactly the standard error sentinel. *)
Theorem sentinel_on_failed_extraction :
  forall (loads : bool -> string -> loads_result) (w : world) (slide_info : pydict)
         (topic complexity_level : string) (st st1 : state)
         (prompt text : string) (v : pyval),
    init_groq_client_if_needed w st = (Ok tt, st1) ->
    slide_prompt (debug_slide_structure st1) slide_info topic complexity_level
      (env_today w) = Ok prompt ->
    env_llm w (List.length (llm_log st1)) prompt = LlmText text ->
    parse_json_from_response loads (Some text) = Ok v ->
    is_dict v && truthy v = false ->
    exists st' : state,
      generate_slide_content loads w slide_info topic complexity_level st
      = (Ok [("main_content", PList [PStr "Error: Could not generate content."]);
             ("needs_image", PBool false);
             ("error", PStr "Failed to generate or parse content")], st').
Proof.
  intros loads w slide_info topic cl st st1 prompt text v Hinit Hprompt Hllm Hparse Hv.
  unfold generate_slide_content. rewrite Hinit.
  unfold catchM, bindM, call_llm, liftM. rewrite Hprompt. cbv beta iota.
  rewrite Hllm. cbn [llm_log debug_slide_structure groq_client debug_slide_contents].
  rewrite Hparse.
  assert (Hc : match v with
               | PDict ((_ :: _) as d) => d
               | _ => sentinel_payload
               end = sentinel_payload).
  { destruct v as [| | | | | [| kv d]]; try reflexivity. discriminate Hv. }
  rewrite Hc. eexists. reflexivity.
Qed.

Lemma sentinel_on_failed_extraction_witness :
  exists st' : state,
    generate_slide_content json_loads
      (sample_world [LlmText "I am sorry, I cannot produce 42 slides."])
      [("slide_number", PInt 1); ("slide_title", PStr "Chlorophyll");
       ("slide_type", PStr "bullet_point_slide")]
      "Photosynthesis" "Basic" initial_state
    = (Ok sentinel_payload, st').
Proof.
  eapply (sentinel_on_failed_extraction json_loads
            (sample_world [LlmText "I am sorry, I cannot produce 42 slides."])).
  - reflexivity.
  - reflexivity.
  - reflexivity.
  - vm_compute. reflexivity.
  - reflexivity.
Defined.

(* ===================================================================== *)
(** ** The visual asset resolver *)
(* ===================================================================== *)

Lemma contains_end (t a : string) : contains t (a ++ t) = true.
Proof. rewrite <- (append_nil_r t) at 2. apply contains_app. Qed.

(** The body of the resolver, with its query string written out. *)
Lemma pollinations_url_eq (base_url : string) (now : Z) (description : pyval)
      (context : string) :
  pollinations_url base_url now description context
  = (d <- truncate_description description ;;
     Ok (base_url
         ++ quote ("Educational illustration: " ++ py_str d ++ ". Context: " ++ context
                   ++ ". Style: clean, professional, clear, high resolution.")
         ++ "?width=1024&height=576&seed=" ++ str_of_Z now ++ "&nologo=true")).
Proof.
  unfold pollinations_url.
  destruct (truncate_description description); cbn [bind]; [| reflexivity].
  rewrite !append_assoc. reflexivity.
Qed.

Lemma truncate_long_text (s : string) :
  300 < String.length s ->
  truncate_description (PStr s) = Ok (PStr (take 300 s ++ "...")).
Proof.
  intros Hlen. unfold truncate_description, py_len. cbn [bind].
  assert (Hlt : (max_desc_len <? String.length s)%nat = true)
    by (apply Nat.ltb_lt; exact Hlen).
  now rewrite Hlt.
Qed.

(** C9, as amended.  The resolver returns normally on every description
    and context, with the placeholder reference whenever its body raises.
    A text description longer than 300 characters enters the prompt as its
    first 300 characters followed by [...].  Whenever the body does not
    raise, the reference is the base address, the encoded prompt and the
    query [?width=1024&height=576&seed=<time>&nologo=true]: it contains
    [width=1024&height=576] and [&nologo=true], with the seed between
    them. *)
Theorem resolver_reference :
  forall (base_url : string) (now : Z) (description : pyval) (context : string),
    exists url : string,
      generate_pollinations_image base_url now description context = Ok url
      /\ (forall e, pollinations_url base_url now description context = Raise e ->
                    url = placeholder_image_url)
      /\ (forall s, description = PStr s -> 300 < String.length s ->
            url = base_url
                  ++ quote ("Educational illustration: " ++ (take 300 s ++ "...")
                            ++ ". Context: " ++ context
                            ++ ". Style: clean, professional, clear, high resolution.")
                  ++ "?width=1024&height=576&seed=" ++ str_of_Z now ++ "&nologo=true")
      /\ (forall u, pollinations_url base_url now description context = Ok u ->
            url = u
            /\ (exists encoded_prompt,
                   url = base_url ++ encoded_prompt
                         ++ "?width=1024&height=576&seed=" ++ str_of_Z now
                         ++ "&nologo=true")
            /\ contains "width=1024&height=576" url = true
            /\ contains "&nologo=true" url = true).
Proof.
  intros base_url now description context.
  unfold generate_pollinations_image, try_catch.
  rewrite pollinations_url_eq.
  destruct (truncate_description description) as [d | e] eqn:Htr; cbn [bind].
  - eexists. split; [reflexivity |]. split; [discriminate |]. split.
    + intros s Hs Hlen. subst description.
      rewrite (truncate_long_text s Hlen) in Htr. inversion Htr. reflexivity.
    + intros u Hu. inversion Hu. split; [reflexivity |]. split; [| split].
      * eexists. reflexivity.
      * apply contains_skip, contains_skip.
        apply (contains_app "width=1024&height=576" "?").
      * repeat rewrite <- append_assoc. apply contains_end.
  - exists placeholder_image_url. split; [reflexivity |]. split; [reflexivity |]. split.
    + intros s Hs Hlen. subst description.
      rewrite (truncate_long_text s Hlen) in Htr. discriminate.
    + discriminate.
Qed.

Lemma resolver_reference_witness :
  generate_pollinations_image "https://image.pollinations.ai/prompt/" 1700000000
    (PStr long_description) "Photosynthesis"
  = Ok ("https://image.pollinations.ai/prompt/"
        ++ quote ("Educational illustration: " ++ (take 300 long_description ++ "...")
                  ++ ". Context: " ++ "Photosynthesis"
                  ++ ". Style: clean, professional, clear, high resolution.")
        ++ "?width=1024&height=576&seed=" ++ str_of_Z 1700000000 ++ "&nologo=true").
Proof.
  destruct (resolver_reference "https://image.pollinations.ai/prompt/" 1700000000
              (PStr long_description) "Photosynthesis")
    as (url & Hurl & _ & Htrunc & _).
  rewrite Hurl. f_equal. apply (Htrunc long_description eq_refl).
  vm_compute. lia.
Defined.

(** C9 as stated fails: the seed stands between the height and the
    branding flag, so the text [width=1024&height=576&nologo=true] is not
    in the reference; and the placeholder returned on an exception has no
    query of that kind at all. *)
Lemma resolver_reference_counterexample :
  (exists url : string,
      generate_pollinations_image "https://image.pollinations.ai/prompt/" 1700000000
        (PStr "A green leaf in sunlight") "Photosynthesis" = Ok url
      /\ contains "width=1024&height=576&nologo=true" url = false)
  /\ (exists url : string,
         generate_pollinations_image "https://image.pollinations.ai/prompt/" 1700000000
           PNone "Photosynthesis" = Ok url
         /\ contains "width=1024&height=576&nologo=true" url = false).
Proof.
  split; eexists; split; try reflexivity; vm_compute; reflexivity.
Qed.

(* ===================================================================== *)
(** ** The deck assembler *)
(* ===================================================================== *)

Lemma skip_slide_rendered (content : pyval) :
  payload_ok content = true -> skip_slide content = Ok (negb (rendered content)).
Proof.
  destruct content as [| | | | | [| kv d]]; try discriminate; intros _; try reflexivity.
  unfold skip_slide, rendered. cbn [truthy negb py_get bind].
  now rewrite negb_involutive.
Qed.

Lemma layout_for_ok (slide_type : pyval) :
  hashable slide_type = true -> exists n, layout_for slide_type = Ok n.
Proof.
  intros H. unfold layout_for. rewrite H.
  destruct slide_type; try (eexists; reflexivity).
  destruct (find _ layout_indices); eexists; reflexivity.
Qed.

Lemma count_cons (p : pyval -> bool) (c : pyval) (l : list pyval) :
  count p (c :: l) = (if p c then 1 else 0) + count p l.
Proof. unfold count. simpl. destruct (p c); reflexivity. Qed.

Lemma paired_contents_cons (s c : pyval) (structure contents : list pyval) :
  paired_contents (s :: structure) (c :: contents)
  = c :: paired_contents structure contents.
Proof. reflexivity. Qed.

Lemma paired_contents_nil_r (structure : list pyval) : paired_contents structure [] = [].
Proof. unfold paired_contents. now rewrite firstn_nil. Qed.

Lemma set_text_text (text_outcome : text_setter) (tg : text_target) (v : pyval) :
  is_text v = true -> set_text text_outcome tg v = Ok tt.
Proof. destruct v; try discriminate; reflexivity. Qed.

Lemma is_text_default (d : pydict) (k a b : string) :
  is_text (dict_get_default d k (PStr a)) = is_text (dict_get_default d k (PStr b)).
Proof. unfold dict_get_default. destruct (dict_get d k); reflexivity. Qed.

(** When every value to set as a text is a text, filling a slide raises
    nothing. *)
Lemma fill_slide_fillable (text_outcome : text_setter) (d c : pydict) (dflt : string) :
  fillable (PDict d) (PDict c) = true ->
  fill_slide text_outcome (dict_get_default d "slide_type" (PStr "content_slide"))
             (dict_get_default d "slide_title" (PStr dflt)) c = Ok tt.
Proof.
  unfold fillable, texts_to_set, fill_slide.
  set (ty := dict_get_default d "slide_type" (PStr "content_slide")).
  destruct (eq_str ty "image_slide") eqn:Himg.
  - assert (Ht : eq_str ty "title_slide" = false).
    { apply eq_str_true in Himg. rewrite Himg. reflexivity. }
    rewrite Ht. cbn [forallb]. rewrite andb_true_r, (is_text_default d _ "" dflt).
    apply set_text_text.
  - destruct (eq_str ty "title_slide").
    + cbn [forallb]. rewrite andb_true_r. intros H.
      apply andb_true_iff in H as [Ht H]. apply andb_true_iff in H as [Hs H].
      apply andb_true_iff in H as [Hp Hd].
      assert (Ht' : is_text (dict_get_default c "title"
                               (dict_get_default d "slide_title" (PStr dflt))) = true).
      { revert Ht. unfold dict_get_default at 1 3.
        destruct (dict_get c "title"); [trivial |].
        now rewrite (is_text_default d _ "" dflt). }
      rewrite (set_text_text _ _ _ Ht'). cbn [try_catch bind].
      rewrite (set_text_text _ _ _ Hs), (set_text_text _ _ _ Hp). cbn [bind].
      now apply set_text_text.
    + cbn [forallb]. rewrite andb_true_r, (is_text_default d _ "" dflt). intros Ht.
      now rewrite (set_text_text _ _ _ Ht).
Qed.

(** The loop adds, in order, one slide for each rendered payload among
    those paired with a descriptor: the slide of that pair. *)
Lemma add_slides_spec (text_outcome : text_setter) (slide_structure : list pyval) :
  forall (slide_contents : list pyval) (i : nat),
    forallb descriptor_ok slide_structure = true ->
    forallb payload_ok slide_contents = true ->
    fillable_deck slide_structure slide_contents = true ->
    exists slides : list section,
      add_slides text_outcome i slide_structure slide_contents = Ok slides
      /\ Forall2 slide_of (rendered_pairs i slide_structure slide_contents) slides.
Proof.
  induction slide_structure as [| slide_info structure IH]; intros contents i Hs Hc Hf.
  - exists []. split; [reflexivity | constructor].
  - destruct contents as [| content contents].
    + exists []. split; [reflexivity | constructor].
    + cbn [forallb fillable_deck] in Hs, Hc, Hf.
      apply andb_true_iff in Hs as [Hd Hs]. apply andb_true_iff in Hc as [Hp Hc].
      apply andb_true_iff in Hf as [Hfill Hf].
      destruct (IH contents (S i) Hs Hc Hf) as (later & Hlater & Hall).
      cbn [add_slides rendered_pairs]. rewrite (skip_slide_rendered _ Hp). cbn [bind].
      destruct slide_info as [| | | | | d]; try discriminate Hd.
      cbn [descriptor_ok] in Hd. cbn [py_get bind].
      destruct (rendered content) eqn:Hr; cbn [negb].
      * destruct content as [| | | | | c]; try discriminate Hr.
        cbn [negb orb] in Hfill.
        destruct (layout_for_ok _ Hd) as (n & Hn). rewrite Hn. cbn [bind].
        rewrite (fill_slide_fillable text_outcome d c _ Hfill). cbn [bind].
        rewrite Hlater. cbn [bind].
        eexists. split; [reflexivity |]. constructor; [| exact Hall].
        exists d, c. cbn. repeat split. exact Hn.
      * exists later. split; [exact Hlater | exact Hall].
Qed.

(** The payloads of the rendered pairs are the rendered payloads among those
    paired with a descriptor. *)
Lemma rendered_pairs_payloads (slide_structure : list pyval) :
  forall (slide_contents : list pyval) (i : nat),
    map (fun pair => snd (snd pair)) (rendered_pairs i slide_structure slide_contents)
    = filter rendered (paired_contents slide_structure slide_contents).
Proof.
  induction slide_structure as [| slide_info structure IH]; intros contents i.
  - reflexivity.
  - destruct contents as [| content contents].
    + now rewrite paired_contents_nil_r.
    + rewrite paired_contents_cons. cbn [rendered_pairs filter].
      destruct (rendered content); cbn [map snd]; now rewrite IH.
Qed.

Lemma slides_payloads (pairs : list (nat * (pyval * pyval))) (slides : list section) :
  Forall2 slide_of pairs slides ->
  map (fun s => PDict (sec_content s)) slides = map (fun pair => snd (snd pair)) pairs.
Proof.
  induction 1 as [| pair s pairs slides (d & c & _ & Hc & _ & _ & _ & Hs) _ IH].
  - reflexivity.
  - cbn [map]. now rewrite IH, Hc, Hs.
Qed.





(** C3, as amended.  The assembler pairs descriptors and payloads up to
    the length of the shorter sequence.  A payload that is falsy ([None],
    an empty dict) or whose [error] value is truthy adds no slide; every
    other payload adds one.  So, for descriptors that are dicts with a
    hashable slide type, payloads that are dicts or [None], and values to
    set as texts that are texts, the slides of the presentation are filled,
    in order, from the truthy payloads without a truthy [error] value among
    those paired with a descriptor, and there are as many slides as such
    payloads. *)
Theorem assembled_slide_count :
  forall (text_outcome : text_setter) (slide_structure slide_contents : list pyval)
         (topic : string),
    forallb descriptor_ok slide_structure = true ->
    forallb payload_ok slide_contents = true ->
    fillable_deck slide_structure slide_contents = true ->
    exists slides : list section,
      create_powerpoint text_outcome slide_structure slide_contents topic = Ok slides
      /\ List.length (paired_contents slide_structure slide_contents)
         = Nat.min (List.length slide_structure) (List.length slide_contents)
      /\ map (fun s => PDict (sec_content s)) slides
         = filter rendered (paired_contents slide_structure slide_contents)
      /\ List.length slides
         = count rendered (paired_contents slide_structure slide_contents).
Proof.
  intros text_outcome structure contents topic Hs Hc Hf.
  destruct (add_slides_spec text_outcome structure contents 0 Hs Hc Hf)
    as (slides & Hrun & Hall).
  assert (Hpay : map (fun s => PDict (sec_content s)) slides
                 = filter rendered (paired_contents structure contents)).
  { now rewrite (slides_payloads _ _ Hall), rendered_pairs_payloads. }
  exists slides. split; [exact Hrun |]. split; [| split; [exact Hpay |]].
  - unfold paired_contents. rewrite length_firstn. lia.
  - unfold count. now rewrite <- Hpay, length_map.
Qed.

Lemma assembled_slide_count_witness :
  exists slides : list section,
    create_powerpoint strict_text_outcome
      [chlorophyll_slide; chlorophyll_slide; chlorophyll_slide; chlorophyll_slide]
      [PDict (content_payload "Chlorophyll is green."); PNone;
       PDict sentinel_payload]
      "Photosynthesis" = Ok slides
    /\ List.length slides = 1.
Proof.
  destruct (assembled_slide_count strict_text_outcome
              [chlorophyll_slide; chlorophyll_slide; chlorophyll_slide; chlorophyll_slide]
              [PDict (content_payload "Chlorophyll is green."); PNone;
               PDict sentinel_payload]
              "Photosynthesis" eq_refl eq_refl eq_refl)
    as (slides & Hrun & _ & _ & Hlen).
  exists slides. split; [exact Hrun | exact Hlen].
Defined.

(** C3 as stated fails: the payload below carries an [error] field, whose
    value is the empty text, and still adds a slide; no payload of the deck
    is without an [error] field, yet the presentation has one slide. *)
Lemma assembled_slide_count_counterexample :
  exists slides : list section,
    create_powerpoint strict_text_outcome
      [chlorophyll_slide] [PDict payload_with_empty_error]
      "Photosynthesis" = Ok slides
    /\ List.length slides = 1
    /\ dict_has payload_with_empty_error "error" = true
    /\ count present_without_error_key
         (paired_contents [chlorophyll_slide] [PDict payload_with_empty_error]) = 0.
Proof. eexists. repeat split. Qed.




(* ===================================================================== *)
(** ** The batch orchestrator *)
(* ===================================================================== *)

Section Batch.
Variable loads : bool -> string -> loads_result.
Variable w : world.
Variables topic complexity_level : string.

(** With the client in place, content generation returns a payload
    whatever happens inside it; it leaves the client and the structure
    of the session as they are, and it sends the prompt of the
    descriptor when that prompt can be built. *)
Lemma generate_slide_content_returns (slide_info : pydict) (st : state) :
  groq_client st = true ->
  exists (content : pydict) (st' : state),
    generate_slide_content loads w slide_info topic complexity_level st
    = (Ok content, st')
    /\ groq_client st' = true
    /\ debug_slide_structure st' = debug_slide_structure st
    /\ (forall prompt,
           slide_prompt (debug_slide_structure st) slide_info topic complexity_level
             (env_today w) = Ok prompt ->
           llm_log st' = (llm_log st ++ [prompt])%list).
Proof.
  intros Hclient. unfold generate_slide_content, init_groq_client_if_needed.
  rewrite Hclient. unfold catchM, bindM, call_llm, liftM, retM, append_debug_contents.
  destruct (slide_prompt (debug_slide_structure st) slide_info topic complexity_level
              (env_today w)) as [prompt | e] eqn:Hprompt.
  2:{ do 2 eexists. repeat split; [exact Hclient | discriminate]. }
  destruct (env_llm w (List.length (llm_log st)) prompt) as [text | | e] eqn:Hllm;
    cbn [llm_log debug_slide_structure groq_client debug_slide_contents].
  - destruct (parse_json_from_response loads (Some text)) as [v | e]; cbn.
    2:{ do 2 eexists. repeat split; [exact Hclient |].
        intros p Hp. now inversion Hp. }
    match goal with
    | |- context [truthy (dict_get_default ?c "needs_image" PNone) && ?t] =>
        destruct (truthy (dict_get_default c "needs_image" PNone) && t)
    end.
    + match goal with
      | |- context [generate_pollinations_image ?b ?n ?d ?c] =>
          destruct (generate_pollinations_image b n d c)
      end; cbn;
        (do 2 eexists; repeat split; [exact Hclient |];
         intros p Hp; now inversion Hp).
    + cbn. do 2 eexists. repeat split; [exact Hclient |].
      intros p Hp. now inversion Hp.
  - cbn. do 2 eexists. repeat split; [exact Hclient |].
    intros p Hp. now inversion Hp.
  - do 2 eexists. repeat split; [exact Hclient |].
    intros p Hp. now inversion Hp.
Qed.

Lemma list_assign_replace {A : Type} (l : list A) (i : nat) (a : A) :
  i < List.length l -> list_assign l i a = Ok (replace_nth l i a).
Proof.
  revert i. induction l as [| x l IH]; intros i Hi; simpl in Hi; [lia |].
  destruct i as [| i]; simpl; [reflexivity |].
  rewrite IH by lia. reflexivity.
Qed.

Lemma length_replace_nth {A : Type} (l : list A) (i : nat) (a : A) :
  List.length (replace_nth l i a) = List.length l.
Proof.
  revert i. induction l as [| x l IH]; intros [| i]; simpl; auto.
Qed.

(** One turn of the loop stores the payload at the target index; the
    array keeps its length. *)
Lemma store_content_target (n i : nat) (slide_info content : pydict)
      (slide_contents : list (option pydict)) (k : Z) :
  dict_get slide_info "slide_number" = Some (PInt k) ->
  List.length slide_contents = n -> i < n ->
  store_content n i
    (dict_get_default slide_info "slide_number" (PInt (Z.of_nat i + 1)))
    content slide_contents
  = Ok (replace_nth slide_contents (target_index n i slide_info) (Some content)).
Proof.
  intros Hk Hlen Hi. unfold store_content, target_index, in_range, dict_get_default.
  rewrite Hk. cbn [int_value bind].
  destruct ((1 <=? k)%Z && (k <=? Z.of_nat n)%Z) eqn:Hr.
  - apply andb_true_iff in Hr as [H1 H2].
    apply Z.leb_le in H1. apply Z.leb_le in H2.
    apply list_assign_replace. lia.
  - assert (Hlt : (i <? List.length slide_contents)%nat = true)
      by (apply Nat.ltb_lt; lia).
    rewrite Hlt. apply list_assign_replace. lia.
Qed.

Lemma length_placed (n : nat) (slide_structure : list pydict) :
  forall (i : nat) (payloads : list pydict) (slide_contents : list (option pydict)),
    List.length (placed n i slide_structure payloads slide_contents)
    = List.length slide_contents.
Proof.
  induction slide_structure as [| d rest IH]; intros i payloads arr; [reflexivity |].
  destruct payloads as [| c payloads]; [reflexivity |].
  simpl. rewrite IH. apply length_replace_nth.
Qed.

(** The prompt of a numbered descriptor can always be built. *)
Lemma slide_prompt_numbered (structure : list pydict) (slide_info : pydict)
      (today : string) (k : Z) :
  dict_get slide_info "slide_number" = Some (PInt k) -> (0 <= k)%Z ->
  slide_prompt (Some structure) slide_info topic complexity_level today
  = Ok (prompt_of structure topic complexity_level today slide_info).
Proof.
  intros Hk Hpos. unfold prompt_of.
  destruct (slide_prompt (Some structure) slide_info topic complexity_level today)
    as [p | e] eqn:Hp; [reflexivity | exfalso].
  unfold slide_prompt, dict_get_default in Hp. rewrite Hk in Hp.
  repeat match type of Hp with
         | (if ?c then _ else _) = _ => destruct c; try discriminate Hp
         end.
  unfold is_explanation_for_image, py_lt_nat, list_item in Hp.
  cbn [int_value bind] in Hp.
  destruct (k <? Z.of_nat (List.length structure))%Z eqn:Hlt;
    cbn [bind] in Hp; [| discriminate Hp].
  assert (E0 : (k <? 0)%Z = false) by (apply Z.ltb_ge; lia).
  rewrite E0 in Hp. rewrite E0 in Hp.
  apply Z.ltb_lt in Hlt.
  destruct (nth_error structure (Z.to_nat k)) eqn:Hn; cbn [bind] in Hp;
    [discriminate Hp |].
  apply nth_error_None in Hn. lia.
Qed.

(** The loop is a sequence of content generations, one per descriptor
    and in order, followed by the placement of the payloads. *)
Lemma fill_contents_sequence (structure : list pydict) (n : nat) :
  forall (rest : list pydict) (i : nat) (slide_contents : list (option pydict))
         (st : state),
    groq_client st = true ->
    debug_slide_structure st = Some structure ->
    Forall (kept_descriptor 0) rest ->
    List.length slide_contents = n ->
    i + List.length rest <= n ->
    exists (payloads : list pydict) (st' : state),
      mapM (fun slide_info =>
              generate_slide_content loads w slide_info topic complexity_level)
           rest st = (Ok payloads, st')
      /\ List.length payloads = List.length rest
      /\ llm_log st'
         = (llm_log st
            ++ map (prompt_of structure topic complexity_level (env_today w)) rest)%list
      /\ fill_contents loads w topic complexity_level n i rest slide_contents st
         = (Ok (placed n i rest payloads slide_contents), st').
Proof.
  induction rest as [| d rest IH]; intros i arr st Hclient Hsession Hkept Hlen Hi.
  - exists [], st. repeat split. simpl. now rewrite app_nil_r.
  - inversion Hkept as [| ? ? [_ (k & Hk & Hpos)] Hrest]; subst.
    destruct (generate_slide_content_returns d st Hclient)
      as (content & st1 & Hgen & Hclient1 & Hsession1 & Hlog1).
    rewrite Hsession in Hlog1, Hsession1.
    specialize (Hlog1 _ (slide_prompt_numbered structure d (env_today w) k Hk
                           ltac:(lia))).
    simpl in Hi.
    destruct (IH (S i)
                 (replace_nth arr (target_index (List.length arr) i d) (Some content))
                 st1 Hclient1 Hsession1 Hrest
                 ltac:(rewrite length_replace_nth; reflexivity) ltac:(lia))
      as (payloads & st2 & Hmap & Hlen2 & Hlog2 & Hfill).
    exists (content :: payloads), st2. split; [| split; [| split]].
    + cbn [mapM]. unfold bindM at 1. rewrite Hgen.
      unfold bindM at 1. rewrite Hmap. reflexivity.
    + simpl. now rewrite Hlen2.
    + rewrite Hlog2, Hlog1. simpl. now rewrite <- app_assoc.
    + cbn [fill_contents]. unfold bindM at 1.
      rewrite Hgen. unfold bindM at 1, liftM.
      rewrite (store_content_target (List.length arr) i d content arr k Hk eq_refl
                 ltac:(lia)).
      exact Hfill.
Qed.
End Batch.

Lemma init_groq_client_result (w : world) (st st' : state) (r : exc unit) :
  init_groq_client_if_needed w st = (r, st') ->
  (exists e, r = Raise e)
  \/ (r = Ok tt /\ groq_client st' = true
      /\ debug_slide_structure st' = debug_slide_structure st
      /\ llm_log st' = llm_log st).
Proof.
  unfold init_groq_client_if_needed.
  destruct (groq_client st) eqn:Hc.
  - intros H; inversion H; subst. right. auto.
  - destruct (env_api_key w) as [key |]; [| intros H; inversion H; eauto].
    destruct (truthy (PStr key)); [| intros H; inversion H; eauto].
    destruct (env_new_client w key); intros H; inversion H; subst;
      [left; eauto | right; auto].
Qed.

(** A path of the structure generator that ends with the empty list
    contradicts a non-empty result. *)
Ltac empty_result :=
  let H := fresh "H" in
  let Hne := fresh "Hne" in
  intros H Hne; inversion H; subst; now elim Hne.

(** A non-empty structure comes out of the validation loop, with the
    client in place and the structure kept in the session. *)
Lemma generate_slide_structure_nonempty
      (loads : bool -> string -> loads_result) (w : world)
      (topic delivery_medium complexity_level : string)
      (st st1 : state) (structure : list pydict) :
  generate_slide_structure loads w topic delivery_medium complexity_level st
  = (Ok structure, st1) ->
  structure <> [] ->
  groq_client st1 = true
  /\ debug_slide_structure st1 = Some structure
  /\ Forall (kept_descriptor 0) structure.
Proof.
  unfold generate_slide_structure, catchM, bindM.
  destruct (init_groq_client_if_needed w st) as [r st'] eqn:Hinit.
  destruct (init_groq_client_result w st st' r Hinit)
    as [(e & ->) | (-> & Hclient & _ & _)].
  { unfold retM. empty_result. }
  unfold call_llm, liftM, retM, set_debug_structure.
  destruct (env_llm w (List.length (llm_log st')) _) as [text | | e];
    cbn [llm_log debug_slide_structure groq_client debug_slide_contents].
  - destruct (parse_json_from_response loads (Some text)) as [v | e].
    2:{ empty_result. }
    destruct v as [| | | | [| item items] |]; try empty_result.
    destruct (process_structure 0 (item :: items)) as [processed | e] eqn:Hproc.
    2:{ empty_result. }
    cbn. intros H _. inversion H; subst. cbn.
    repeat split; [exact Hclient |].
    apply (process_structure_kept _ _ _ Hproc).
  - destruct (parse_json_from_response loads None) as [v | e] eqn:Hparse.
    + unfold parse_json_from_response in Hparse. discriminate Hparse.
    + empty_result.
  - empty_result.
Qed.

(** C8, as amended.  After a structure generation that returns [n]
    descriptors, [n > 0], the orchestrator runs content generation once
    per descriptor, in the order of the structure: the run of the loop is
    the sequence of the [n] calls, each returning a payload whatever fails
    inside it, and the prompts sent are those of the descriptors, in
    order.  The payload of the descriptor at loop index [i] is stored at
    index [slide_number - 1] of the [n]-element result array when
    [1 <= slide_number <= n], and at index [i] otherwise; the array is
    never extended.  The payloads returned are the entries of the array
    that are not [None]. *)
Theorem batch_orchestration :
  forall (loads : bool -> string -> loads_result) (w : world)
         (topic delivery_medium complexity_level : string)
         (st0 st1 : state) (structure : list pydict),
    generate_slide_structure loads w topic delivery_medium complexity_level
      (mkState (groq_client st0) None None (llm_log st0)) = (Ok structure, st1) ->
    structure <> [] ->
    exists (payloads : list pydict) (st2 : state),
      mapM (fun slide_info =>
              generate_slide_content loads w slide_info topic complexity_level)
           structure st1 = (Ok payloads, st2)
      /\ List.length payloads = List.length structure
      /\ llm_log st2
         = (llm_log st1
            ++ map (prompt_of structure topic complexity_level (env_today w))
                   structure)%list
      /\ fill_contents loads w topic complexity_level (List.length structure) 0
           structure (repeat None (List.length structure)) st1
         = (Ok (placed (List.length structure) 0 structure payloads
                  (repeat None (List.length structure))), st2)
      /\ List.length (placed (List.length structure) 0 structure payloads
                        (repeat None (List.length structure)))
         = List.length structure
      /\ create_slides_with_content loads w topic delivery_medium complexity_level st0
         = (Ok (structure,
                not_none (placed (List.length structure) 0 structure payloads
                            (repeat None (List.length structure)))), st2).
Proof.
  intros loads w topic dm cl st0 st1 structure Hgen Hne.
  destruct (generate_slide_structure_nonempty _ _ _ _ _ _ _ _ Hgen Hne)
    as (Hclient & Hsession & Hkept).
  destruct (fill_contents_sequence loads w topic cl structure (List.length structure)
              structure 0 (repeat None (List.length structure)) st1
              Hclient Hsession Hkept (repeat_length _ _) ltac:(simpl; lia))
    as (payloads & st2 & Hmap & Hlen & Hlog & Hfill).
  exists payloads, st2.
  split; [exact Hmap |]. split; [exact Hlen |]. split; [exact Hlog |].
  split; [exact Hfill |]. split.
  - rewrite length_placed. apply repeat_length.
  - unfold create_slides_with_content, bindM at 1, clear_debug.
    unfold bindM at 1. rewrite Hgen.
    destruct structure as [| d rest]; [now elim Hne |].
    unfold bindM. rewrite Hfill. reflexivity.
Qed.

Lemma batch_orchestration_witness :
  exists (payloads : list pydict) (st2 : state),
    create_slides_with_content json_loads plain_world
      "Photosynthesis" "In-person Lecture" "Basic" initial_state
    = (Ok (plain_structure,
           not_none (placed 2 0 plain_structure payloads (repeat None 2))), st2)
    /\ List.length payloads = 2.
Proof.
  destruct (batch_orchestration json_loads plain_world
              "Photosynthesis" "In-person Lecture" "Basic"
              initial_state (state_after_structure plain_structure) plain_structure)
    as (payloads & st2 & _ & Hlen & _ & _ & _ & Hrun).
  - vm_compute. reflexivity.
  - discriminate.
  - exists payloads, st2. split; [exact Hrun | exact Hlen].
Defined.

(** The run above: the reply numbered its slides 7 and 9 and
    named an unknown type; the second content call failed.  Both
    descriptors get a payload, the second the payload of the failure. *)
Example plain_run :
  fst (create_slides_with_content json_loads plain_world
         "Photosynthesis" "In-person Lecture" "Basic" initial_state)
  = Ok (plain_structure,
        [content_payload "Chlorophyll absorbs light.";
         exception_payload (mkExn OtherError "Connection error.")]).
Proof. vm_compute. reflexivity. Qed.

(** C8 as stated fails.  In the run below the structure reply has a gap,
    so the two descriptors carry the numbers 2 and 3.  The payload of the
    first goes to index 1; the number of the second lies outside 1..2, and
    its payload is stored at its loop index, 1, over the first one, not
    appended.  The array is [[None; B]], where the statement gives
    [[None; A; B]], and the orchestrator returns one payload for two
    descriptors. *)
Lemma batch_orchestration_counterexample :
  fst (generate_slide_structure json_loads gap_world
         "Photosynthesis" "In-person Lecture" "Basic" initial_state)
  = Ok gap_structure
  /\ fst (mapM (fun slide_info =>
                  generate_slide_content json_loads gap_world slide_info
                    "Photosynthesis" "Basic")
               gap_structure (state_after_structure gap_structure))
     = Ok [content_payload "Chlorophyll absorbs light.";
           content_payload "Plants turn light into sugar."]
  /\ fst (fill_contents json_loads gap_world "Photosynthesis" "Basic" 2 0
            gap_structure (repeat None 2) (state_after_structure gap_structure))
     = Ok [None; Some (content_payload "Plants turn light into sugar.")]
  /\ placed_as_specified 2 0 gap_structure
       [content_payload "Chlorophyll absorbs light.";
        content_payload "Plants turn light into sugar."] (repeat None 2)
     = [None; Some (content_payload "Chlorophyll absorbs light.");
        Some (content_payload "Plants turn light into sugar.")]
  /\ fst (create_slides_with_content json_loads gap_world
            "Photosynthesis" "In-person Lecture" "Basic" initial_state)
     = Ok (gap_structure, [content_payload "Plants turn light into sugar."]).
Proof. repeat split; vm_compute; reflexivity. Qed.

(* ===================================================================== *)
(** ** The end-to-end scenario *)
(* ===================================================================== *)

(** For the topic Photosynthesis and a structure reply of four slides, the
    third an image slide with the title of the second: the structure is
    returned as sent, the prompt of slide 2 (the third prompt of the run)
    carries the lead-in guidance, the payload of slide 3 gets an image
    reference, and the deck has four slides, each with the layout and the
    title of its descriptor. *)
Example photosynthesis_run :
  let run := create_slides_with_content json_loads photosynthesis_world
               "Photosynthesis" "In-person Lecture" "Basic" initial_state in
  match fst run with
  | Ok (slide_structure, slide_contents) =>
      slide_structure = photosynthesis_structure
      /\ option_map (contains lead_in_guidance) (nth_error (llm_log (snd run)) 2)
         = Some true
      /\ map (fun content => dict_has content "image_url") slide_contents
         = [false; false; true; false]
      /\ option_map (map (fun s => (sec_layout s, sec_title s)))
           (match create_powerpoint strict_text_outcome (map PDict slide_structure)
                    (map PDict slide_contents) "Photosynthesis" with
            | Ok slides => Some slides
            | Raise _ => None
            end)
         = Some [(0, PStr "Introduction to Photosynthesis");
                 (1, PStr "Light Reactions");
                 (6, PStr "Light Reactions");
                 (1, PStr "Conclusion")]
  | Raise _ => False
  end.
Proof. vm_compute. repeat split; reflexivity. Qed.

(* ===================================================================== *)
(** * Further properties *)
(* ===================================================================== *)

(* ===================================================================== *)
(** ** The response extractor, beyond the marked block *)
(* ===================================================================== *)

(** The result for a marked block depends on the interior of the block
    only: the prose before the opening marker and after the closing one
    has no influence, whether the interior is valid JSON or not. *)
Theorem extraction_ignores_prose :
  forall (loads : bool -> string -> loads_result)
         (pre post pre' post' mid : string),
    str_find START_MARK (pre ++ START_MARK ++ mid ++ END_MARK ++ post)
      = Some (String.length pre) ->
    str_find START_MARK (pre' ++ START_MARK ++ mid ++ END_MARK ++ post')
      = Some (String.length pre') ->
    str_find END_MARK (mid ++ END_MARK ++ post) = Some (String.length mid) ->
    str_find END_MARK (mid ++ END_MARK ++ post') = Some (String.length mid) ->
    parse_json_from_response loads (Some (pre ++ START_MARK ++ mid ++ END_MARK ++ post))
    = parse_json_from_response loads
        (Some (pre' ++ START_MARK ++ mid ++ END_MARK ++ post')).
Proof.
  intros loads pre post pre' post' mid Hs Hs' He He'.
  rewrite !parse_json_from_response_text. unfold find_json_text.
  now rewrite (re_markers_block pre mid post Hs He),
              (re_markers_block pre' mid post' Hs' He').
Qed.

Lemma extraction_ignores_prose_witness :
  parse_json_from_response json_loads
    (Some ("Sure, here it is: " ++ START_MARK ++ " [1, 2] " ++ END_MARK ++ " Enjoy!"))
  = parse_json_from_response json_loads
      (Some ("" ++ START_MARK ++ " [1, 2] " ++ END_MARK ++ "")).
Proof.
  apply (extraction_ignores_prose json_loads "Sure, here it is: " " Enjoy!" "" ""
           " [1, 2] "); vm_compute; reflexivity.
Defined.

(** A response without the opening marker whose trimmed form starts with
    a brace or a bracket is parsed as a whole: the result is what the
    parsers make of the trimmed response, and the empty dict when they
    reject it, without any search for an embedded span. *)
Theorem whole_response_parsed :
  forall (loads : bool -> string -> loads_result) (text : string),
    contains START_MARK text = false ->
    startswith "{" (strip text) || startswith "[" (strip text) = true ->
    (forall v, loads true (strip text) = LoadsOk v -> is_container v = true ->
               parse_json_from_response loads (Some text) = Ok v)
    /\ (decoded loads (strip text) = None ->
        parse_json_from_response loads (Some text) = Ok empty_dict).
Proof.
  intros loads text Hstart Hlead.
  assert (Hne : truthy (PStr (strip text)) = true).
  { destruct (strip text); [discriminate Hlead | reflexivity]. }
  assert (Hfind : find_json_text text = Some (strip text)).
  { unfold find_json_text. now rewrite (re_markers_no_start _ Hstart), Hlead. }
  split.
  - intros v Hv Hc.
    now rewrite parse_json_from_response_text, Hfind, Hne,
                (decoded_strict _ _ _ Hv), Hc.
  - intros Hd. now rewrite parse_json_from_response_text, Hfind, Hne, Hd.
Qed.

Lemma whole_response_parsed_witness :
  parse_json_from_response json_loads
    (Some ("  {" ++ dq ++ "a" ++ dq ++ ": 1} and then {" ++ dq ++ "b" ++ dq ++ ": 2}"))
  = Ok empty_dict.
Proof.
  apply (whole_response_parsed json_loads); vm_compute; reflexivity.
Defined.

Lemma re_array_none (text : string) :
  no_span "[" "]" text -> re_array text = None.
Proof. apply (span_none "[" "]"). Qed.

Lemma startswith_has_char (c : ascii) (s : string) :
  startswith (str1 c) s = true -> has_char c s = true.
Proof.
  destruct s as [| d s]; [discriminate |]. unfold has_char. simpl.
  destruct (Ascii.eqb c d); [reflexivity | discriminate].
Qed.

Lemma strip_has_char (c : ascii) (s : string) :
  has_char c s = false -> has_char c (strip s) = false.
Proof.
  intros H. destruct (strip_spec s) as (w1 & w2 & Hs & _).
  rewrite Hs, !has_char_app in H.
  apply orb_false_iff in H as [_ H]. now apply orb_false_iff in H as [H _].
Qed.

(** A response with no opening marker, no brace and no bracket yields the
    empty dict, whatever the parsers would make of it: they are not
    called. *)
Theorem no_bracket_no_structure :
  forall (loads : bool -> string -> loads_result) (text : string),
    contains START_MARK text = false ->
    has_char "{" text = false ->
    has_char "[" text = false ->
    find_json_text text = None
    /\ parse_json_from_response loads (Some text) = Ok empty_dict.
Proof.
  intros loads text Hstart Hbrace Hbracket.
  assert (Hfind : find_json_text text = None).
  { unfold find_json_text. rewrite (re_markers_no_start _ Hstart).
    destruct (startswith "{" (strip text)) eqn:H1.
    { apply (startswith_has_char "{") in H1.
      now rewrite (strip_has_char "{" _ Hbrace) in H1. }
    destruct (startswith "[" (strip text)) eqn:H2.
    { apply (startswith_has_char "[") in H2.
      now rewrite (strip_has_char "[" _ Hbracket) in H2. }
    cbn [orb].
    rewrite (re_object_none text (no_span_without_open "{" "}" text Hbrace)).
    now rewrite (re_array_none text (no_span_without_open "[" "]" text Hbracket)). }
  split; [exact Hfind |].
  now rewrite parse_json_from_response_text, Hfind.
Qed.

Lemma no_bracket_no_structure_witness :
  parse_json_from_response json_loads (Some "I cannot help with that request.")
  = Ok empty_dict.
Proof.
  apply (no_bracket_no_structure json_loads); reflexivity.
Defined.

(* ===================================================================== *)
(** ** The structure generator, beyond the numbering *)
(* ===================================================================== *)

Lemma process_structure_all_kept (items : list pyval) :
  forall i : nat,
    forallb slide_object items = true ->
    forallb slide_object_hashable items = true ->
    exists out : list pydict,
      process_structure i items = Ok out /\ List.length out = List.length items.
Proof.
  induction items as [| item rest IH]; intros i Hobj Hhash.
  - exists []. split; reflexivity.
  - simpl in Hobj, Hhash.
    apply andb_true_iff in Hobj as [Ho Hobj].
    apply andb_true_iff in Hhash as [Hh Hhash].
    destruct (IH (S i) Hobj Hhash) as (out & Hout & Hlen).
    destruct item as [| | | | | d]; try discriminate Ho.
    cbn [slide_object] in Ho. cbn [slide_object_hashable] in Hh.
    cbn [process_structure]. rewrite Ho. unfold set_contains. rewrite Hh.
    cbn [bind]. rewrite Hout. cbn [bind].
    eexists. split; [reflexivity |]. simpl. now rewrite Hlen.
Qed.

(** When every element of the reply is a slide object with a hashable
    type, nothing is dropped: the structure returned has the length of the
    reply, it is the structure kept in the session, and the number of
    every descriptor is its position. *)
Theorem complete_reply_numbered :
  forall (loads : bool -> string -> loads_result) (w : world)
         (topic delivery_medium complexity_level : string) (st : state)
         (text : string) (items : list pyval),
    groq_client st = true ->
    env_llm w (List.length (llm_log st))
            (structure_prompt topic delivery_medium complexity_level) = LlmText text ->
    parse_json_from_response loads (Some text) = Ok (PList items) ->
    items <> [] ->
    forallb slide_object items = true ->
    forallb slide_object_hashable items = true ->
    exists (structure : list pydict) (st' : state),
      generate_slide_structure loads w topic delivery_medium complexity_level st
      = (Ok structure, st')
      /\ List.length structure = List.length items
      /\ debug_slide_structure st' = Some structure
      /\ (forall (j : nat) (d : pydict),
             nth_error structure j = Some d ->
             dict_get d "slide_number" = Some (PInt (Z.of_nat j + 1))).
Proof.
  intros loads w topic dm cl st text items Hclient Hllm Hparse Hne Hobj Hhash.
  destruct (process_structure_all_kept items 0 Hobj Hhash) as (out & Hout & Hlen).
  exists out. eexists. split; [| split; [exact Hlen | split]].
  - unfold generate_slide_structure, catchM, bindM, init_groq_client_if_needed,
      call_llm, liftM, retM, set_debug_structure.
    rewrite Hclient, Hllm.
    cbn [llm_log debug_slide_structure groq_client debug_slide_contents].
    rewrite Hparse. destruct items as [| item items]; [now elim Hne |].
    rewrite Hout. reflexivity.
  - reflexivity.
  - intros j d Hj.
    apply (process_structure_positions items 0 out Hout Hlen j d Hj).
Qed.

Lemma complete_reply_numbered_witness :
  exists (structure : list pydict) (st' : state),
    generate_slide_structure json_loads (sample_world [LlmText plain_reply])
      "Photosynthesis" "In-person Lecture" "Basic"
      (mkState true None None []) = (Ok structure, st')
    /\ List.length structure = 2.
Proof.
  destruct (complete_reply_numbered json_loads (sample_world [LlmText plain_reply])
              "Photosynthesis" "In-person Lecture" "Basic"
              (mkState true None None []) plain_reply
              [PDict [("slide_number", PInt 7); ("slide_title", PStr "Chlorophyll");
                      ("slide_type", PStr "content_slide")];
               PDict [("slide_number", PInt 9); ("slide_title", PStr "Summary");
                      ("slide_type", PStr "recap_slide")]])
    as (structure & st' & Hrun & Hlen & _); try (vm_compute; reflexivity).
  - discriminate.
  - exists structure, st'. split; [exact Hrun | exact Hlen].
Defined.

Lemma process_structure_unhashable (items : list pyval) :
  forall i : nat,
    existsb unhashable_slide_object items = true ->
    exists e : exn, process_structure i items = Raise e.
Proof.
  induction items as [| item rest IH]; intros i Hex; [discriminate Hex |].
  simpl in Hex. cbn [process_structure].
  destruct item as [| b | z | s | l | d];
    try (cbn in Hex; apply (IH (S i) Hex)).
  unfold unhashable_slide_object at 1 in Hex.
  cbn [slide_object slide_object_hashable] in Hex.
  destruct (dict_has d "slide_title" && dict_has d "slide_type");
    [| cbn in Hex; apply (IH (S i) Hex)].
  unfold set_contains.
  destruct (hashable (dict_get_default d "slide_type" PNone)) eqn:Hh.
  - cbn in Hex. destruct (IH (S i) Hex) as (e & He).
    cbn [bind]. rewrite He. eexists. reflexivity.
  - eexists. reflexivity.
Qed.

(** One slide object whose [slide_type] is a list or a dict voids the
    whole outline: the membership test raises, and the generator returns
    the empty list and leaves the session as it was, whatever the other
    elements of the reply are. *)
Theorem unhashable_type_voids_structure :
  forall (loads : bool -> string -> loads_result) (w : world)
         (topic delivery_medium complexity_level : string) (st : state)
         (text : string) (items : list pyval),
    groq_client st = true ->
    env_llm w (List.length (llm_log st))
            (structure_prompt topic delivery_medium complexity_level) = LlmText text ->
    parse_json_from_response loads (Some text) = Ok (PList items) ->
    existsb unhashable_slide_object items = true ->
    exists st' : state,
      generate_slide_structure loads w topic delivery_medium complexity_level st
      = (Ok [], st')
      /\ debug_slide_structure st' = debug_slide_structure st.
Proof.
  intros loads w topic dm cl st text items Hclient Hllm Hparse Hex.
  destruct (process_structure_unhashable items 0 Hex) as (e & He).
  unfold generate_slide_structure, catchM, bindM, init_groq_client_if_needed,
    call_llm, liftM, retM, set_debug_structure.
  rewrite Hclient, Hllm.
  cbn [llm_log debug_slide_structure groq_client debug_slide_contents].
  rewrite Hparse. destruct items as [| item items]; [discriminate Hex |].
  rewrite He. eexists. split; reflexivity.
Qed.

Lemma unhashable_type_voids_structure_witness :
  exists st' : state,
    generate_slide_structure json_loads (sample_world [LlmText list_type_reply])
      "Photosynthesis" "In-person Lecture" "Basic" (mkState true None None [])
    = (Ok [], st')
    /\ debug_slide_structure st' = None.
Proof.
  apply (unhashable_type_voids_structure json_loads
           (sample_world [LlmText list_type_reply])
           "Photosynthesis" "In-person Lecture" "Basic" (mkState true None None [])
           list_type_reply list_type_items); vm_compute; reflexivity.
Defined.

Lemma set_contains_known (v : pyval) (known : bool) :
  set_contains valid_slide_types v = Ok known ->
  (if negb known then PStr "content_slide" else v) = validated_type v.
Proof.
  unfold set_contains, validated_type.
  destruct (hashable v); [| discriminate].
  intros H. injection H as <-.
  change (eq_str v "title_slide"
          || (eq_str v "content_slide"
              || (eq_str v "bullet_point_slide"
                  || (eq_str v "image_slide"
                      || (eq_str v "conclusion_slide" || false)))))
    with (existsb (eq_str v) valid_slide_types).
  now destruct (existsb (eq_str v) valid_slide_types).
Qed.

(** The validation loop keeps the slide objects of the reply in their
    order and changes two keys only: [slide_type], kept when it is one of
    the five valid types and set to [content_slide] otherwise, and
    [slide_number].  Every other key keeps its value. *)
Theorem validation_preserves_objects :
  forall (items : list pyval) (i : nat) (out : list pydict),
    process_structure i items = Ok out ->
    Forall2 (fun original d =>
               dict_get d "slide_type"
               = Some (validated_type (dict_get_default original "slide_type" PNone))
               /\ (forall k, k <> "slide_number" -> k <> "slide_type" ->
                             dict_get d k = dict_get original k))
            (kept_objects items) out.
Proof.
  induction items as [| item rest IH]; intros i out H; simpl in H.
  - inversion H. constructor.
  - destruct item as [| b | z | s | l | d]; try (apply (IH _ _ H)).
    cbn [kept_objects].
    destruct (dict_has d "slide_title" && dict_has d "slide_type");
      [| apply (IH _ _ H)].
    destruct (set_contains valid_slide_types (dict_get_default d "slide_type" PNone))
      as [known | e] eqn:Hknown; cbn [bind] in H; [| discriminate].
    destruct (process_structure (S i) rest) as [processed | e] eqn:Hrest;
      cbn [bind] in H; [| discriminate].
    inversion H; subst out. constructor; [| apply (IH _ _ Hrest)].
    split.
    + rewrite dict_get_set_other by discriminate.
      rewrite <- (set_contains_known _ _ Hknown).
      destruct known; cbn [negb].
      * apply set_contains_true in Hknown as (x & Hx & _).
        unfold dict_get_default in *.
        destruct (dict_get d "slide_type"); [reflexivity | discriminate Hx].
      * apply dict_get_set_same.
    + intros k Hk1 Hk2.
      rewrite dict_get_set_other by congruence.
      destruct known; cbn [negb]; [reflexivity |].
      apply dict_get_set_other. congruence.
Qed.

Lemma validation_preserves_objects_witness :
  Forall2 (fun original d =>
             dict_get d "slide_type"
             = Some (validated_type (dict_get_default original "slide_type" PNone))
             /\ (forall k, k <> "slide_number" -> k <> "slide_type" ->
                           dict_get d k = dict_get original k))
          (kept_objects mixed_items)
          [ [("slide_title", PStr "Chlorophyll"); ("slide_type", PStr "content_slide");
             ("notes", PStr "keep me"); ("slide_number", PInt 2)];
            [("slide_number", PInt 3); ("slide_title", PStr "Summary");
             ("slide_type", PStr "conclusion_slide")] ].
Proof.
  apply (validation_preserves_objects mixed_items 0). reflexivity.
Defined.

(** Without a client and without an API key, absent or empty, structure
    generation returns the empty list and the batch returns two empty
    lists; no request is sent to the model and the state is only cleared
    of its debug entries. *)
Theorem no_key_no_request :
  forall (loads : bool -> string -> loads_result) (w : world)
         (topic delivery_medium complexity_level : string) (st : state),
    groq_client st = false ->
    env_api_key w = None \/ env_api_key w = Some "" ->
    generate_slide_structure loads w topic delivery_medium complexity_level st
    = (Ok [], st)
    /\ create_slides_with_content loads w topic delivery_medium complexity_level st
       = (Ok ([], []), mkState false None None (llm_log st)).
Proof.
  intros loads w topic dm cl st Hclient Hkey.
  assert (Hgen : forall s, groq_client s = false ->
            generate_slide_structure loads w topic dm cl s = (Ok [], s)).
  { intros s Hs.
    unfold generate_slide_structure, catchM, bindM, init_groq_client_if_needed, retM.
    rewrite Hs. destruct Hkey as [-> | ->]; reflexivity. }
  split; [apply Hgen; exact Hclient |].
  unfold create_slides_with_content, bindM at 1, clear_debug.
  unfold bindM. rewrite Hclient. rewrite Hgen by reflexivity. reflexivity.
Qed.

Lemma no_key_no_request_witness :
  create_slides_with_content json_loads keyless_world
    "Photosynthesis" "In-person Lecture" "Basic" initial_state
  = (Ok ([], []), initial_state).
Proof.
  apply (no_key_no_request json_loads keyless_world
           "Photosynthesis" "In-person Lecture" "Basic" initial_state eq_refl).
  left. reflexivity.
Defined.

(* ===================================================================== *)
(** ** The content generator, beyond the sentinel *)
(* ===================================================================== *)

(** When the client is missing and cannot be created (no API key, an
    empty one, or a constructor that raises), [generate_slide_content]
    does not return an error payload: its handler names [slide_title]
    before it is bound, and the call raises [UnboundLocalError]. *)
Theorem content_without_client_raises :
  forall (loads : bool -> string -> loads_result) (w : world) (slide_info : pydict)
         (topic complexity_level : string) (st : state),
    groq_client st = false ->
    env_api_key w = None \/ env_api_key w = Some ""
    \/ (exists key e, env_api_key w = Some key /\ key <> ""
                      /\ env_new_client w key = Some e) ->
    generate_slide_content loads w slide_info topic complexity_level st
    = (Raise unbound_slide_title, st).
Proof.
  intros loads w slide_info topic cl st Hclient Hkey.
  unfold generate_slide_content, init_groq_client_if_needed. rewrite Hclient.
  destruct Hkey as [-> | [-> | (key & e & -> & Hne & ->)]]; try reflexivity.
  now rewrite (truthy_nonempty _ Hne).
Qed.

Lemma content_without_client_raises_witness :
  generate_slide_content json_loads keyless_world
    [("slide_number", PInt 1); ("slide_title", PStr "Chlorophyll");
     ("slide_type", PStr "content_slide")]
    "Photosynthesis" "Basic" initial_state
  = (Raise unbound_slide_title, initial_state).
Proof.
  apply (content_without_client_raises json_loads keyless_world); [reflexivity |].
  left. reflexivity.
Defined.

(** When the request to the model fails, or the reply carries no text,
    the payload is the one of the [except] branch, built from the
    exception; the prompt has been sent, and no debug entry is recorded. *)
Theorem failed_request_payload :
  forall (loads : bool -> string -> loads_result) (w : world) (slide_info : pydict)
         (topic complexity_level : string) (st : state) (prompt : string)
         (outcome : llm_outcome),
    groq_client st = true ->
    slide_prompt (debug_slide_structure st) slide_info topic complexity_level
      (env_today w) = Ok prompt ->
    env_llm w (List.length (llm_log st)) prompt = outcome ->
    (forall text, outcome <> LlmText text) ->
    generate_slide_content loads w slide_info topic complexity_level st
    = (Ok [("main_content",
            PList [PStr ("Error generating content: " ++ exn_msg (failure_of outcome))]);
           ("needs_image", PBool false);
           ("error", PStr (exn_msg (failure_of outcome)))],
       mkState true (debug_slide_structure st) (debug_slide_contents st)
               (llm_log st ++ [prompt])%list).
Proof.
  intros loads w slide_info topic cl st prompt outcome Hclient Hprompt Hllm Hno.
  unfold generate_slide_content, init_groq_client_if_needed. rewrite Hclient.
  unfold catchM, bindM, call_llm, liftM, retM. rewrite Hprompt. cbv beta iota.
  rewrite Hllm, Hclient.
  destruct outcome as [text | | e]; [now elim (Hno text) | reflexivity | reflexivity].
Qed.

Lemma failed_request_payload_witness :
  generate_slide_content json_loads (sample_world [LlmNoText]) bullet_slide
    "Photosynthesis" "Basic" (mkState true None None [])
  = (Ok (exception_payload (mkExn TypeError "'NoneType' object is not subscriptable")),
     mkState true None None [bullet_prompt]).
Proof.
  apply (failed_request_payload json_loads (sample_world [LlmNoText]) bullet_slide
           "Photosynthesis" "Basic" (mkState true None None []) bullet_prompt LlmNoText).
  - reflexivity.
  - reflexivity.
  - reflexivity.
  - discriminate.
Defined.

Lemma generate_pollinations_image_returns (base_url : string) (now : Z)
      (description : pyval) (context : string) :
  generate_pollinations_image base_url now description context
  = Ok (resolved_url base_url now description context).
Proof.
  unfold resolved_url, generate_pollinations_image, try_catch.
  destruct (pollinations_url base_url now description context); reflexivity.
Qed.

(** When the extractor returns a non-empty dict, that dict is the payload.
    It is returned as it is, unless the slide is an [image_slide] and the
    value of [needs_image] is truthy: then, and only then, the resolver is
    called, with the [image_description] of the dict or with
    [Illustration for <title>], and its reference is stored under
    [image_url].  The payload, with the slide number in front, is appended
    to the debug entries. *)
Theorem payload_is_extracted_dict :
  forall (loads : bool -> string -> loads_result) (w : world) (slide_info : pydict)
         (topic complexity_level : string) (st : state) (prompt text : string)
         (kv : string * pyval) (d : pydict),
    groq_client st = true ->
    slide_prompt (debug_slide_structure st) slide_info topic complexity_level
      (env_today w) = Ok prompt ->
    env_llm w (List.length (llm_log st)) prompt = LlmText text ->
    parse_json_from_response loads (Some text) = Ok (PDict (kv :: d)) ->
    let slide_title := dict_get_default slide_info "slide_title" (PStr "Untitled Slide") in
    let slide_type := dict_get_default slide_info "slide_type" (PStr "content_slide") in
    let slide_number := dict_get_default slide_info "slide_number" (PInt 0) in
    let content :=
      if truthy (dict_get_default (kv :: d) "needs_image" PNone)
         && eq_str slide_type "image_slide"
      then dict_set (kv :: d) "image_url"
             (PStr (resolved_url (env_base_url w)
                      (env_time w (S (List.length (llm_log st))))
                      (dict_get_default (kv :: d) "image_description"
                         (PStr ("Illustration for " ++ py_str slide_title)))
                      topic))
      else kv :: d in
    generate_slide_content loads w slide_info topic complexity_level st
    = (Ok content,
       mkState true (debug_slide_structure st)
               (Some (match debug_slide_contents st with
                      | Some l => l
                      | None => []
                      end ++ [dict_update [("slide_number", slide_number)] content])%list)
               (llm_log st ++ [prompt])%list).
Proof.
  intros loads w slide_info topic cl st prompt text kv d Hclient Hprompt Hllm Hparse.
  cbv zeta.
  unfold generate_slide_content, init_groq_client_if_needed. rewrite Hclient.
  unfold catchM, bindM, call_llm, liftM, retM, append_debug_contents.
  rewrite Hprompt. cbv beta iota. rewrite Hllm, Hclient.
  cbn [llm_log debug_slide_structure groq_client debug_slide_contents].
  rewrite Hparse.
  destruct (truthy (dict_get_default (kv :: d) "needs_image" PNone)
            && eq_str (dict_get_default slide_info "slide_type" (PStr "content_slide"))
                      "image_slide").
  - rewrite generate_pollinations_image_returns.
    cbn [llm_log debug_slide_structure groq_client debug_slide_contents].
    rewrite length_app, Nat.add_1_r. reflexivity.
  - reflexivity.
Qed.

Lemma payload_is_extracted_dict_witness :
  generate_slide_content json_loads (sample_world [LlmText needs_image_reply])
    bullet_slide "Photosynthesis" "Basic" (mkState true None None [])
  = (Ok [("main_content", PList []); ("needs_image", PBool true)],
     mkState true None
       (Some [[("slide_number", PInt 1); ("main_content", PList []);
               ("needs_image", PBool true)]])
       [bullet_prompt]).
Proof.
  apply (payload_is_extracted_dict json_loads (sample_world [LlmText needs_image_reply])
           bullet_slide "Photosynthesis" "Basic" (mkState true None None [])
           bullet_prompt needs_image_reply
           ("main_content", PList []) [("needs_image", PBool true)]).
  - reflexivity.
  - reflexivity.
  - reflexivity.
  - vm_compute. reflexivity.
Defined.

Lemma eq_str_two (v : pyval) (s1 s2 : string) :
  eq_str v s1 = true -> s1 <> s2 -> eq_str v s2 = false.
Proof.
  intros H1 Hne. unfold eq_str in *. destruct v; try discriminate.
  simpl in *. apply String.eqb_eq in H1. subst.
  now apply String.eqb_neq.
Qed.

Lemma nth_error_some {A : Type} (l : list A) (n : nat) :
  n < List.length l -> exists a, nth_error l n = Some a.
Proof.
  intros H. destruct (nth_error l n) eqn:E; [eauto |].
  apply nth_error_None in E. lia.
Qed.

(** The lookahead of the [content_slide] branch, for an integer slide
    number [z] and a structure of [n] descriptors.  From [n] on the answer
    is [False], so the last slide never gets the lead-in guidance.  Between
    [-n] and [n - 1] the descriptor read is the one at index [z mod n]: a
    descriptor without a [slide_number] (default [0]) is compared with the
    first descriptor, and a negative number counts from the end.  Below
    [-n] the indexing raises [IndexError]. *)
Theorem lookahead_index :
  forall (structure : list pydict) (z : Z) (slide_title : pyval),
    ((Z.of_nat (List.length structure) <= z)%Z ->
     is_explanation_for_image (Some structure) (PInt z) slide_title = Ok false)
    /\ (forall next,
          (- Z.of_nat (List.length structure) <= z < Z.of_nat (List.length structure))%Z ->
          nth_error structure (Z.to_nat (z mod Z.of_nat (List.length structure)))
          = Some next ->
          is_explanation_for_image (Some structure) (PInt z) slide_title
          = Ok (image_pair next slide_title))
    /\ ((z < - Z.of_nat (List.length structure))%Z ->
        is_explanation_for_image (Some structure) (PInt z) slide_title
        = Raise (mkExn IndexError "list index out of range")).
Proof.
  intros structure z slide_title.
  unfold is_explanation_for_image, py_lt_nat, list_item. simpl int_value. cbv iota.
  set (n := Z.of_nat (List.length structure)). repeat split.
  - intros H. assert (E : (z <? n)%Z = false) by (apply Z.ltb_ge; lia).
    rewrite E. reflexivity.
  - intros next [Hlo Hhi] Hn.
    assert (E : (z <? n)%Z = true) by (apply Z.ltb_lt; lia).
    rewrite E. cbn [bind].
    destruct (z <? 0)%Z eqn:E0.
    + cbv iota. apply Z.ltb_lt in E0.
      assert (Hm : (z mod n = z + n)%Z).
      { symmetry. apply (Z.mod_unique_pos z n (-1) (z + n)); lia. }
      rewrite Hm in Hn.
      assert (E1 : (z + n <? 0)%Z = false) by (apply Z.ltb_ge; lia).
      rewrite E1, Hn. reflexivity.
    + cbv iota. rewrite E0. apply Z.ltb_ge in E0.
      rewrite Z.mod_small in Hn by lia. rewrite Hn. reflexivity.
  - intros H.
    assert (E : (z <? n)%Z = true) by (apply Z.ltb_lt; lia).
    rewrite E. cbn [bind].
    assert (E0 : (z <? 0)%Z = true) by (apply Z.ltb_lt; lia).
    assert (E1 : (z + n <? 0)%Z = true) by (apply Z.ltb_lt; lia).
    rewrite E0. cbv iota. rewrite E1. reflexivity.
Qed.

Lemma lookahead_index_witness :
  is_explanation_for_image (Some photosynthesis_structure) (PInt (-2))
    (PStr "Light Reactions")
  = Ok true
  /\ is_explanation_for_image (Some photosynthesis_structure) (PInt 0)
       (PStr "Light Reactions")
     = Ok false.
Proof.
  split.
  - refine (proj1 (proj2 (lookahead_index photosynthesis_structure (-2)
                            (PStr "Light Reactions"))) _ _ eq_refl).
    simpl. lia.
  - refine (proj1 (proj2 (lookahead_index photosynthesis_structure 0
                            (PStr "Light Reactions"))) _ _ eq_refl).
    simpl. lia.
Defined.

(** The prompt of a content slide is the content prompt with the guidance
    the lookahead selects; every other slide type gets its prompt without a
    lookahead. *)
Lemma slide_prompt_content (session : option (list pydict)) (slide_info : pydict)
      (topic cl today : string) :
  eq_str (dict_get_default slide_info "slide_type" (PStr "content_slide"))
         "content_slide" = true ->
  slide_prompt session slide_info topic cl today
  = (is_explanation <-
       is_explanation_for_image session
         (dict_get_default slide_info "slide_number" (PInt 0))
         (dict_get_default slide_info "slide_title" (PStr "Untitled Slide")) ;;
     Ok (content_slide_prompt
           (dict_get_default slide_info "slide_number" (PInt 0))
           (dict_get_default slide_info "slide_title" (PStr "Untitled Slide"))
           (dict_get_default slide_info "slide_type" (PStr "content_slide"))
           topic cl
           (if is_explanation then lead_in_guidance else default_guidance))).
Proof.
  intros Ec. unfold slide_prompt.
  rewrite (eq_str_two _ _ "title_slide" Ec) by discriminate. now rewrite Ec.
Qed.

Lemma slide_prompt_other (session : option (list pydict)) (slide_info : pydict)
      (topic cl today : string) :
  eq_str (dict_get_default slide_info "slide_type" (PStr "content_slide"))
         "content_slide" = false ->
  exists prompt, slide_prompt session slide_info topic cl today = Ok prompt.
Proof.
  intros Ec. unfold slide_prompt. rewrite Ec.
  set (slide_type := dict_get_default slide_info "slide_type" (PStr "content_slide")).
  destruct (eq_str slide_type "title_slide"); [eauto |].
  destruct (eq_str slide_type "bullet_point_slide"); [eauto |].
  destruct (eq_str slide_type "image_slide"); [eauto |].
  destruct (eq_str slide_type "conclusion_slide"); eauto.
Qed.

(** What the lookahead does with a slide number, by the kind of the
    number. *)
Lemma lookahead_by_number (structure : list pydict) (slide_number slide_title : pyval) :
  match int_value slide_number with
  | None =>
      exists message,
        is_explanation_for_image (Some structure) slide_number slide_title
        = Raise (mkExn TypeError message)
  | Some z =>
      if (z <? - Z.of_nat (List.length structure))%Z
      then is_explanation_for_image (Some structure) slide_number slide_title
           = Raise (mkExn IndexError "list index out of range")
      else exists answer,
             is_explanation_for_image (Some structure) slide_number slide_title
             = Ok answer
  end.
Proof.
  unfold is_explanation_for_image, py_lt_nat, list_item.
  destruct (int_value slide_number) as [z |]; [| cbn [bind]; eauto].
  set (n := Z.of_nat (List.length structure)).
  destruct (z <? - n)%Z eqn:Elow.
  - apply Z.ltb_lt in Elow.
    assert (E : (z <? n)%Z = true) by (apply Z.ltb_lt; lia).
    assert (E0 : (z <? 0)%Z = true) by (apply Z.ltb_lt; lia).
    assert (E1 : (z + n <? 0)%Z = true) by (apply Z.ltb_lt; lia).
    rewrite E. cbn [bind]. rewrite E0. cbv iota. rewrite E1. reflexivity.
  - apply Z.ltb_ge in Elow.
    destruct (z <? n)%Z eqn:E; cbn [bind]; [| eauto].
    apply Z.ltb_lt in E.
    destruct (z <? 0)%Z eqn:E0; cbv iota.
    + apply Z.ltb_lt in E0.
      assert (E1 : (z + n <? 0)%Z = false) by (apply Z.ltb_ge; lia).
      rewrite E1.
      destruct (nth_error_some structure (Z.to_nat (z + n))) as [a Ha];
        [unfold n in *; lia |].
      rewrite Ha. cbn [bind]. eauto.
    + rewrite E0. apply Z.ltb_ge in E0.
      destruct (nth_error_some structure (Z.to_nat z)) as [a Ha];
        [unfold n in *; lia |].
      rewrite Ha. cbn [bind]. eauto.
Qed.

Lemma not_a_number_int_value (v : pyval) :
  not_a_number v = true <-> int_value v = None.
Proof. destruct v; split; intros H; try reflexivity; discriminate H. Qed.

(** When [slide_prompt] raises, and when it does not, for descriptors
    whose values are [None], booleans, integers, texts, lists and dicts (a
    fractional slide number is not among them: the structure generator
    numbers the descriptors with integers).  It raises only for a
    [content_slide], with a structure in the session, whose slide number is
    no integer from minus the length of the structure up.  There it raises
    a [TypeError] when the number is [None], a text, a list or a dict, and
    the [IndexError] of the indexing when the number is an integer below
    minus the length; for an integer from there up a prompt is built.
    Without a structure in the session, and for every other slide type, a
    prompt is built. *)
Theorem prompt_fails_only_in_lookahead :
  forall (session : option (list pydict)) (slide_info : pydict)
         (topic complexity_level today : string),
    ((exists e, slide_prompt session slide_info topic complexity_level today = Raise e) ->
     exists structure,
       session = Some structure
       /\ eq_str (dict_get_default slide_info "slide_type" (PStr "content_slide"))
                 "content_slide" = true
       /\ forall z,
            int_value (dict_get_default slide_info "slide_number" (PInt 0)) = Some z ->
            (z < - Z.of_nat (List.length structure))%Z)
    /\ (forall structure,
           session = Some structure ->
           eq_str (dict_get_default slide_info "slide_type" (PStr "content_slide"))
                  "content_slide" = true ->
           (not_a_number (dict_get_default slide_info "slide_number" (PInt 0)) = true ->
            exists message,
              slide_prompt session slide_info topic complexity_level today
              = Raise (mkExn TypeError message))
           /\ (forall z,
                  int_value (dict_get_default slide_info "slide_number" (PInt 0))
                  = Some z ->
                  ((z < - Z.of_nat (List.length structure))%Z ->
                   slide_prompt session slide_info topic complexity_level today
                   = Raise (mkExn IndexError "list index out of range"))
                  /\ ((- Z.of_nat (List.length structure) <= z)%Z ->
                      exists prompt,
                        slide_prompt session slide_info topic complexity_level today
                        = Ok prompt)))
    /\ (session = None
        \/ eq_str (dict_get_default slide_info "slide_type" (PStr "content_slide"))
                  "content_slide" = false ->
        exists prompt,
          slide_prompt session slide_info topic complexity_level today = Ok prompt).
Proof.
  intros session slide_info topic cl today.
  set (slide_type := dict_get_default slide_info "slide_type" (PStr "content_slide")).
  set (slide_number := dict_get_default slide_info "slide_number" (PInt 0)).
  set (slide_title := dict_get_default slide_info "slide_title" (PStr "Untitled Slide")).
  pose proof (slide_prompt_content session slide_info topic cl today) as Hcontent.
  pose proof (slide_prompt_other session slide_info topic cl today) as Hother.
  fold slide_type slide_number slide_title in Hcontent, Hother.
  split; [| split].
  - intros [e He].
    destruct (eq_str slide_type "content_slide") eqn:Ec;
      [| destruct (Hother eq_refl) as [p Hp]; congruence].
    rewrite (Hcontent eq_refl) in He.
    destruct session as [structure |]; [| discriminate He].
    exists structure. repeat split. intros z Hz.
    pose proof (lookahead_by_number structure slide_number slide_title) as Hl.
    rewrite Hz in Hl.
    destruct (z <? - Z.of_nat (List.length structure))%Z eqn:Elow;
      [now apply Z.ltb_lt in Elow |].
    destruct Hl as [answer Hl]. rewrite Hl in He. discriminate He.
  - intros structure -> Ec. rewrite (Hcontent Ec).
    pose proof (lookahead_by_number structure slide_number slide_title) as Hl.
    split.
    + intros Hn. apply not_a_number_int_value in Hn. fold slide_number in Hn.
      rewrite Hn in Hl. destruct Hl as [message Hl]. rewrite Hl. cbn [bind]. eauto.
    + intros z Hz. rewrite Hz in Hl. split; intros Hlow.
      * apply Z.ltb_lt in Hlow. rewrite Hlow in Hl. now rewrite Hl.
      * apply Z.ltb_ge in Hlow. rewrite Hlow in Hl. destruct Hl as [answer Hl].
        rewrite Hl. cbn [bind]. eauto.
  - intros [-> | Ec]; [| exact (Hother Ec)].
    destruct (eq_str slide_type "content_slide") eqn:Ec; [| exact (Hother eq_refl)].
    rewrite (Hcontent eq_refl). cbn [is_explanation_for_image bind]. eauto.
Qed.

(* ===================================================================== *)
(** ** The resolver: encoding, short descriptions, placeholder *)
(* ===================================================================== *)

Lemma quote_char_safe (c : ascii) : all_chars quoted_char (quote_char c) = true.
Proof.
  destruct c as [[] [] [] [] [] [] [] []]; vm_compute; reflexivity.
Qed.

Lemma all_chars_concat (p : ascii -> bool) (l : list string) :
  Forall (fun s => all_chars p s = true) l ->
  all_chars p (String.concat "" l) = true.
Proof.
  induction 1 as [| s l Hs Hl IH]; [reflexivity |].
  destruct l as [| s' l]; [exact Hs |].
  change (String.concat "" (s :: s' :: l)) with (s ++ "" ++ String.concat "" (s' :: l)).
  rewrite all_chars_app, Hs. exact IH.
Qed.

Lemma quote_safe (s : string) : all_chars quoted_char (quote s) = true.
Proof.
  unfold quote. apply all_chars_concat, Forall_forall.
  intros x Hx. apply in_map_iff in Hx. destruct Hx as (c & <- & _).
  apply quote_char_safe.
Qed.

Lemma str_find_char_after (c : ascii) (p : ascii -> bool) (a rest : string) :
  p c = false -> all_chars p a = true ->
  str_find (str1 c) (a ++ String c rest) = Some (String.length a).
Proof.
  intros Hc. induction a as [| d a IH]; intros Ha.
  - simpl. now rewrite Ascii.eqb_refl.
  - simpl in Ha. apply andb_true_iff in Ha. destruct Ha as [Hd Ha].
    change ((String d a ++ String c rest)%string) with (String d (a ++ String c rest)).
    rewrite str_find_unfold.
    assert (Hne : startswith (str1 c) (String d (a ++ String c rest)) = false).
    { simpl. destruct (Ascii.eqb c d) eqn:E; [| reflexivity].
      apply Ascii.eqb_eq in E. subst. congruence. }
    rewrite Hne, (IH Ha). reflexivity.
Qed.

Lemma Ok_inj {A : Type} (a b : A) : Ok a = Ok b -> a = b.
Proof. intros H. now injection H. Qed.

(** Whatever the description and the context hold, they stay in the path
    of the reference: the encoded prompt is made of letters, digits,
    [_.-~/] and [%] only, so the first [?] after the base address is the
    one that opens the fixed query. *)
Theorem encoded_prompt_stays_in_path :
  forall (base_url : string) (now : Z) (description : pyval) (context url : string),
    pollinations_url base_url now description context = Ok url ->
    exists encoded_prompt : string,
      url = base_url ++ encoded_prompt
            ++ "?width=1024&height=576&seed=" ++ str_of_Z now ++ "&nologo=true"
      /\ all_chars quoted_char encoded_prompt = true
      /\ str_find "?" (encoded_prompt ++ "?width=1024&height=576&seed="
                       ++ str_of_Z now ++ "&nologo=true")
         = Some (String.length encoded_prompt).
Proof.
  intros base_url now description context url Hurl.
  rewrite pollinations_url_eq in Hurl.
  destruct (truncate_description description) as [d | e]; [| discriminate].
  cbn [bind] in Hurl. apply Ok_inj in Hurl. subst url.
  eexists. split; [reflexivity |]. split; [apply quote_safe |].
  apply (str_find_char_after "?" quoted_char); [reflexivity | apply quote_safe].
Qed.

Lemma encoded_prompt_stays_in_path_witness :
  exists encoded_prompt : string,
    "https://image.pollinations.ai/prompt/"
    ++ quote ("Educational illustration: " ++ "Why? a=b&c" ++ ". Context: "
              ++ "Photosynthesis"
              ++ ". Style: clean, professional, clear, high resolution.")
    ++ "?width=1024&height=576&seed=" ++ str_of_Z 1700000000 ++ "&nologo=true"
    = "https://image.pollinations.ai/prompt/" ++ encoded_prompt
      ++ "?width=1024&height=576&seed=" ++ str_of_Z 1700000000 ++ "&nologo=true"
    /\ all_chars quoted_char encoded_prompt = true
    /\ str_find "?" (encoded_prompt ++ "?width=1024&height=576&seed="
                     ++ str_of_Z 1700000000 ++ "&nologo=true")
       = Some (String.length encoded_prompt).
Proof.
  apply (encoded_prompt_stays_in_path "https://image.pollinations.ai/prompt/"
           1700000000 (PStr "Why? a=b&c") "Photosynthesis").
  vm_compute. reflexivity.
Defined.

(** A text description of at most 300 characters, 300 included, enters
    the prompt in full. *)
Theorem short_description_kept :
  forall (base_url : string) (now : Z) (s context : string),
    String.length s <= 300 ->
    generate_pollinations_image base_url now (PStr s) context
    = Ok (base_url
          ++ quote ("Educational illustration: " ++ s ++ ". Context: " ++ context
                    ++ ". Style: clean, professional, clear, high resolution.")
          ++ "?width=1024&height=576&seed=" ++ str_of_Z now ++ "&nologo=true").
Proof.
  intros base_url now s context Hlen.
  unfold generate_pollinations_image, try_catch. rewrite pollinations_url_eq.
  unfold truncate_description, py_len. cbn [bind].
  assert (E : (max_desc_len <? String.length s)%nat = false)
    by (apply Nat.ltb_ge; exact Hlen).
  rewrite E. reflexivity.
Qed.

Lemma short_description_kept_witness :
  String.length (take 300 long_description) = 300
  /\ generate_pollinations_image "https://image.pollinations.ai/prompt/" 1700000000
       (PStr (take 300 long_description)) "Photosynthesis"
     = Ok ("https://image.pollinations.ai/prompt/"
           ++ quote ("Educational illustration: " ++ take 300 long_description
                     ++ ". Context: " ++ "Photosynthesis"
                     ++ ". Style: clean, professional, clear, high resolution.")
           ++ "?width=1024&height=576&seed=" ++ str_of_Z 1700000000 ++ "&nologo=true").
Proof.
  split; [vm_compute; reflexivity |].
  apply (short_description_kept "https://image.pollinations.ai/prompt/" 1700000000
           (take 300 long_description) "Photosynthesis").
  vm_compute. lia.
Defined.

(** The resolver, by the kind of the description, for descriptions that
    are [None], booleans, integers, texts, lists and dicts.  For [None], a
    bool or an int, which have no length, and for a list or a dict of more
    than 300 entries, which the truncation cannot extend by a text, the
    body raises and the placeholder is returned.  For a text, and for a
    list or a dict of at most 300 entries, the body returns and the
    reference carries the prompt, written from the description as the
    truncation leaves it; a description of at most 300 entries or
    characters is left as it is. *)
Theorem placeholder_cases :
  forall (base_url : string) (now : Z) (description : pyval) (context : string),
    (no_prompt description = true ->
     (exists e, pollinations_url base_url now description context = Raise e)
     /\ generate_pollinations_image base_url now description context
        = Ok placeholder_image_url)
    /\ (no_prompt description = false ->
        exists kept : pyval,
          truncate_description description = Ok kept
          /\ (forall n, py_len description = Ok n -> n <= 300 -> kept = description)
          /\ pollinations_url base_url now description context
             = generate_pollinations_image base_url now description context
          /\ generate_pollinations_image base_url now description context
             = Ok (base_url
                   ++ quote ("Educational illustration: " ++ py_str kept
                             ++ ". Context: " ++ context
                             ++ ". Style: clean, professional, clear, high resolution.")
                   ++ "?width=1024&height=576&seed=" ++ str_of_Z now ++ "&nologo=true")).
Proof.
  intros base_url now description context.
  unfold generate_pollinations_image, try_catch. rewrite pollinations_url_eq.
  unfold truncate_description, py_len, no_prompt.
  destruct description as [| b | z | s | l | d]; cbn [bind];
    try (split; [intros _; split; [eauto | reflexivity] | discriminate]).
  - split; [discriminate | intros _].
    destruct (max_desc_len <? String.length s)%nat eqn:E; cbn [bind].
    + eexists. split; [reflexivity |]. split; [| split; reflexivity].
      intros n Hn Hle. inversion Hn; subst n. apply Nat.ltb_lt in E.
      unfold max_desc_len in E. lia.
    + eexists. split; [reflexivity |]. split; [| split; reflexivity]. reflexivity.
  - destruct (max_desc_len <? List.length l)%nat; cbn [bind].
    + split; [intros _; split; [eauto | reflexivity] | discriminate].
    + split; [discriminate | intros _].
      eexists. split; [reflexivity |]. split; [| split; reflexivity]. reflexivity.
  - destruct (max_desc_len <? List.length d)%nat; cbn [bind].
    + split; [intros _; split; [eauto | reflexivity] | discriminate].
    + split; [discriminate | intros _].
      eexists. split; [reflexivity |]. split; [| split; reflexivity]. reflexivity.
Qed.

(* ===================================================================== *)
(** ** The orchestrator: what a batch returns *)
(* ===================================================================== *)

Lemma generate_slide_structure_returns
      (loads : bool -> string -> loads_result) (w : world)
      (topic delivery_medium complexity_level : string) (st : state) :
  exists (structure : list pydict) (st1 : state),
    generate_slide_structure loads w topic delivery_medium complexity_level st
    = (Ok structure, st1).
Proof.
  unfold generate_slide_structure, catchM.
  match goal with
  | |- context [match ?m with _ => _ end] => destruct m as [[a | e] st1]
  end; unfold retM; eauto.
Qed.

Lemma length_not_none {A : Type} (l : list (option A)) :
  List.length (not_none l) <= List.length l.
Proof. induction l as [| [a |] l IH]; simpl; lia. Qed.

Lemma not_none_map_Some {A : Type} (l : list A) : not_none (map Some l) = l.
Proof. induction l as [| a l IH]; simpl; [reflexivity | now rewrite IH]. Qed.

Lemma replace_nth_some {A : Type} (l : list (option A)) (j : nat) (a : A) :
  j < List.length l -> not_none (replace_nth l j (Some a)) <> [].
Proof.
  revert j. induction l as [| x l IH]; intros j Hj; simpl in Hj; [lia |].
  destruct j as [| j]; simpl; [discriminate |].
  destruct x; [discriminate | apply IH; lia].
Qed.

Lemma replace_nth_keeps {A : Type} (l : list (option A)) (j : nat) (a : A) :
  not_none l <> [] -> not_none (replace_nth l j (Some a)) <> [].
Proof.
  revert j. induction l as [| x l IH]; intros j Hl; simpl in *; [exact Hl |].
  destruct j as [| j]; simpl; [discriminate |].
  destruct x; [discriminate | now apply IH].
Qed.

Lemma placed_keeps (n : nat) (rest : list pydict) :
  forall (i : nat) (payloads : list pydict) (slide_contents : list (option pydict)),
    not_none slide_contents <> [] ->
    not_none (placed n i rest payloads slide_contents) <> [].
Proof.
  induction rest as [| d rest IH]; intros i payloads arr Harr; [exact Harr |].
  destruct payloads as [| c payloads]; [exact Harr |].
  simpl. apply IH, replace_nth_keeps, Harr.
Qed.

Lemma target_index_lt (n i : nat) (slide_info : pydict) :
  i < n -> target_index n i slide_info < n.
Proof.
  intros Hi. unfold target_index.
  destruct (int_value _) as [z |]; [| exact Hi].
  destruct ((1 <=? z)%Z && (z <=? Z.of_nat n)%Z) eqn:Hr; [| exact Hi].
  apply andb_true_iff in Hr as [H1 H2].
  apply Z.leb_le in H1. apply Z.leb_le in H2. lia.
Qed.

(** A batch never raises.  It returns no more payloads than descriptors,
    and it returns no payload exactly when the structure is empty: a
    non-empty structure always comes with at least one payload, even when
    every request for content fails. *)
Theorem batch_never_raises :
  forall (loads : bool -> string -> loads_result) (w : world)
         (topic delivery_medium complexity_level : string) (st0 : state),
    exists (slide_structure final_contents : list pydict) (st' : state),
      create_slides_with_content loads w topic delivery_medium complexity_level st0
      = (Ok (slide_structure, final_contents), st')
      /\ List.length final_contents <= List.length slide_structure
      /\ (slide_structure = [] <-> final_contents = []).
Proof.
  intros loads w topic dm cl st0.
  destruct (generate_slide_structure_returns loads w topic dm cl
              (mkState (groq_client st0) None None (llm_log st0)))
    as (structure & st1 & Hgen).
  destruct structure as [| d rest] eqn:Hs.
  - exists [], [], st1. split; [| split; [simpl; lia | tauto]].
    unfold create_slides_with_content, bindM at 1, clear_debug.
    unfold bindM at 1. rewrite Hgen. reflexivity.
  - rewrite <- Hs in *.
    assert (Hne : structure <> []) by (rewrite Hs; discriminate).
    destruct (generate_slide_structure_nonempty _ _ _ _ _ _ _ _ Hgen Hne)
      as (Hclient & Hsession & Hkept).
    destruct (fill_contents_sequence loads w topic cl structure (List.length structure)
                structure 0 (repeat None (List.length structure)) st1
                Hclient Hsession Hkept (repeat_length _ _) ltac:(simpl; lia))
      as (payloads & st2 & _ & Hlen & _ & Hfill).
    exists structure,
      (not_none (placed (List.length structure) 0 structure payloads
                   (repeat None (List.length structure)))), st2.
    split; [| split].
    + unfold create_slides_with_content, bindM at 1, clear_debug.
      unfold bindM at 1. rewrite Hgen. rewrite Hs. rewrite <- Hs.
      unfold bindM. rewrite Hfill. reflexivity.
    + etransitivity; [apply length_not_none |].
      rewrite length_placed, repeat_length. lia.
    + split; [intros H; now elim Hne | intros H; exfalso; revert H].
      rewrite Hs in Hlen |- *. destruct payloads as [| c payloads]; [discriminate Hlen |].
      cbn [placed]. apply placed_keeps, replace_nth_some.
      rewrite repeat_length. apply target_index_lt. simpl. lia.
Qed.

Lemma replace_nth_app {A : Type} (a : list A) (x y : A) (b : list A) :
  replace_nth (a ++ x :: b) (List.length a) y = (a ++ y :: b)%list.
Proof. induction a as [| z a IH]; simpl; [reflexivity | now rewrite IH]. Qed.

Lemma target_index_sequential (n i : nat) (slide_info : pydict) :
  dict_get slide_info "slide_number" = Some (PInt (Z.of_nat i + 1)) -> i < n ->
  target_index n i slide_info = i.
Proof.
  intros Hk Hi. unfold target_index, dict_get_default. rewrite Hk. cbn [int_value].
  assert (Hr : ((1 <=? Z.of_nat i + 1)%Z && (Z.of_nat i + 1 <=? Z.of_nat n)%Z) = true).
  { apply andb_true_iff. split; apply Z.leb_le; lia. }
  rewrite Hr. lia.
Qed.

(** With numbers equal to positions, every payload lands in its own
    cell. *)
Lemma placed_sequential (n : nat) (rest : list pydict) :
  forall (i : nat) (done payloads : list pydict),
    List.length done = i ->
    List.length payloads = List.length rest ->
    i + List.length rest = n ->
    (forall j d, nth_error rest j = Some d ->
                 dict_get d "slide_number" = Some (PInt (Z.of_nat (i + j) + 1))) ->
    placed n i rest payloads (map Some done ++ repeat None (List.length rest))
    = map Some (done ++ payloads).
Proof.
  induction rest as [| d rest IH]; intros i done payloads Hdone Hlen Hn Hnum.
  - destruct payloads; [| discriminate Hlen]. simpl. now rewrite !app_nil_r.
  - destruct payloads as [| c payloads]; [discriminate Hlen |].
    simpl in Hlen, Hn. cbn [placed].
    rewrite (target_index_sequential n i d);
      [| rewrite <- (Nat.add_0_r i) at 1; apply (Hnum 0 d eq_refl) | lia].
    cbn [List.length repeat].
    replace i with (List.length (map Some done)) at 2 by (now rewrite length_map).
    rewrite replace_nth_app.
    replace (map Some done ++ Some c :: repeat None (List.length rest))%list
      with (map Some (done ++ [c]) ++ repeat None (List.length rest))%list
      by (rewrite map_app, <- app_assoc; reflexivity).
    rewrite (IH (S i) (done ++ [c])%list payloads).
    + now rewrite <- app_assoc.
    + rewrite length_app. simpl. lia.
    + lia.
    + lia.
    + intros j d' Hj. replace (S i + j) with (i + S j) by lia. apply (Hnum (S j) d' Hj).
Qed.

(** When no element of the structure reply is dropped, no payload is lost
    or reordered: the batch returns the payloads of the content
    generations, one per descriptor and in the order of the structure. *)
Theorem complete_batch_keeps_every_payload :
  forall (loads : bool -> string -> loads_result) (w : world)
         (topic delivery_medium complexity_level : string) (st0 : state)
         (text : string) (items : list pyval),
    groq_client st0 = true ->
    env_llm w (List.length (llm_log st0))
            (structure_prompt topic delivery_medium complexity_level) = LlmText text ->
    parse_json_from_response loads (Some text) = Ok (PList items) ->
    items <> [] ->
    forallb slide_object items = true ->
    forallb slide_object_hashable items = true ->
    exists (structure payloads : list pydict) (st1 st2 : state),
      generate_slide_structure loads w topic delivery_medium complexity_level
        (mkState (groq_client st0) None None (llm_log st0)) = (Ok structure, st1)
      /\ mapM (fun slide_info =>
                 generate_slide_content loads w slide_info topic complexity_level)
              structure st1 = (Ok payloads, st2)
      /\ List.length payloads = List.length items
      /\ create_slides_with_content loads w topic delivery_medium complexity_level st0
         = (Ok (structure, payloads), st2).
Proof.
  intros loads w topic dm cl st0 text items Hclient0 Hllm Hparse Hne Hobj Hhash.
  destruct (process_structure_all_kept items 0 Hobj Hhash) as (out & Hout & Hlen).
  assert (Hgen : generate_slide_structure loads w topic dm cl
                   (mkState (groq_client st0) None None (llm_log st0))
                 = (Ok out, mkState true (Some out) None
                              (llm_log st0 ++ [structure_prompt topic dm cl])%list)).
  { unfold generate_slide_structure, catchM, bindM, init_groq_client_if_needed,
      call_llm, liftM, retM, set_debug_structure.
    cbn [llm_log debug_slide_structure groq_client debug_slide_contents].
    rewrite Hclient0. cbv beta iota.
    cbn [llm_log debug_slide_structure groq_client debug_slide_contents].
    rewrite Hllm.
    cbn [llm_log debug_slide_structure groq_client debug_slide_contents].
    rewrite Hparse. destruct items as [| item items]; [now elim Hne |].
    rewrite Hout. reflexivity. }
  assert (Hne' : out <> []).
  { intros ->. destruct items; [now elim Hne | discriminate Hlen]. }
  destruct (generate_slide_structure_nonempty _ _ _ _ _ _ _ _ Hgen Hne')
    as (Hclient & Hsession & Hkept).
  destruct (fill_contents_sequence loads w topic cl out (List.length out)
              out 0 (repeat None (List.length out)) _
              Hclient Hsession Hkept (repeat_length _ _) ltac:(simpl; lia))
    as (payloads & st2 & Hmap & Hplen & _ & Hfill).
  exists out, payloads. eexists. exists st2.
  split; [exact Hgen |]. split; [exact Hmap |]. split; [congruence |].
  unfold create_slides_with_content, bindM at 1, clear_debug.
  unfold bindM at 1. rewrite Hgen.
  destruct out as [| d rest] eqn:Hs; [now elim Hne' |]. rewrite <- Hs in *.
  unfold bindM. rewrite Hfill.
  pose proof (placed_sequential (List.length out) out 0 [] payloads eq_refl Hplen
                eq_refl) as Hplaced.
  cbn [map app] in Hplaced. rewrite Hplaced.
  - now rewrite not_none_map_Some.
  - intros j d' Hj. apply (process_structure_positions items 0 out Hout Hlen j d' Hj).
Qed.

Lemma complete_batch_keeps_every_payload_witness :
  exists (structure payloads : list pydict) (st2 : state),
    create_slides_with_content json_loads plain_world
      "Photosynthesis" "In-person Lecture" "Basic" (mkState true None None [])
    = (Ok (structure, payloads), st2)
    /\ List.length payloads = 2.
Proof.
  destruct (complete_batch_keeps_every_payload json_loads plain_world
              "Photosynthesis" "In-person Lecture" "Basic"
              (mkState true None None []) plain_reply
              [PDict [("slide_number", PInt 7); ("slide_title", PStr "Chlorophyll");
                      ("slide_type", PStr "content_slide")];
               PDict [("slide_number", PInt 9); ("slide_title", PStr "Summary");
                      ("slide_type", PStr "recap_slide")]])
    as (structure & payloads & st1 & st2 & _ & _ & Hlen & Hrun);
    try (vm_compute; reflexivity).
  - discriminate.
  - exists structure, payloads, st2. split; [exact Hrun | exact Hlen].
Defined.

From Stdlib Require Import Sorting.Permutation Sorting.Sorted.

(* ===================================================================== *)
(** ** The assembler: which payloads become slides *)
(* ===================================================================== *)



(* ===================================================================== *)
(** ** The assembler: body text *)
(* ===================================================================== *)

Lemma clean_points_clean (l : list pyval) (s : string) :
  In s (clean_points l) -> s <> "" /\ strip s = s.
Proof.
  induction l as [| point rest IH]; simpl; [tauto |].
  destruct (strip (py_str point)) as [| c t] eqn:E; simpl; [exact IH |].
  intros [<- | H]; [| exact (IH H)].
  split; [discriminate |]. rewrite <- E. apply strip_strip.
Qed.

Lemma point_paragraphs_in (font_size : Z) (total : nat) (points : list string) :
  forall (point_idx : nat) (p : paragraph),
    In p (point_paragraphs font_size total point_idx points) ->
    In (par_text p) points /\ par_size p = font_size.
Proof.
  induction points as [| point rest IH]; intros idx p; simpl; [tauto |].
  intros [<- | H]; [split; [now left | reflexivity] |].
  destruct (IH _ _ H) as [Hin Hsize]. split; [now right | exact Hsize].
Qed.

Lemma body_paragraphs_in (slide_type : pyval) (content : pydict) (p : paragraph) :
  In p (body_paragraphs slide_type content) ->
  par_text p <> "" /\ strip (par_text p) = par_text p
  /\ (par_size p = 20 \/ par_size p = 24)%Z.
Proof.
  unfold body_paragraphs.
  destruct (dict_get_default content "main_content" (PList [])) as [| | | s | l |];
    try (intros []).
  - destruct (strip s) as [| c t] eqn:E; simpl; [tauto |].
    intros [<- | []]. cbn [par_text par_size].
    split; [discriminate |]. split; [| now left]. rewrite <- E. apply strip_strip.
  - intros H. apply point_paragraphs_in in H. destruct H as [Hin Hsize].
    apply clean_points_clean in Hin. destruct Hin as [Hne Hst].
    split; [exact Hne |]. split; [exact Hst |].
    rewrite Hsize. destruct (eq_str slide_type "bullet_point_slide"); auto.
Qed.

Lemma auto_fit_size_body (text_length : nat) (size : Z) :
  (size = 20 \/ size = 24)%Z ->
  (12 <= auto_fit_size text_length size <= size)%Z.
Proof.
  unfold auto_fit_size.
  intros [-> | ->]; destruct (1000 <? text_length)%nat, (500 <? text_length)%nat;
    vm_compute; split; discriminate.
Qed.

(** Every paragraph of a slide body, after the auto-fit, has a non-empty
    text without leading or trailing whitespace, and a font size between
    12 and 24 points: empty and blank points of [main_content] give no
    paragraph, and the auto-fit never goes below 12 points. *)
Theorem body_text_is_clean :
  forall (slide_type : pyval) (content : pydict) (text_length : nat) (p : paragraph),
    In p (auto_fit_text text_length (body_paragraphs slide_type content)) ->
    par_text p <> "" /\ strip (par_text p) = par_text p
    /\ (12 <= par_size p <= 24)%Z.
Proof.
  intros slide_type content n p Hin.
  unfold auto_fit_text in Hin. apply in_map_iff in Hin.
  destruct Hin as (p0 & <- & Hin0). cbn [par_text par_size].
  destruct (body_paragraphs_in _ _ _ Hin0) as (Hne & Hst & Hsize).
  split; [exact Hne |]. split; [exact Hst |].
  pose proof (auto_fit_size_body n _ Hsize) as Hb.
  destruct Hsize as [E | E]; rewrite E in Hb |- *; lia.
Qed.

Lemma body_text_is_clean_witness :
  auto_fit_text 1001
    (body_paragraphs (PStr "bullet_point_slide")
       [("main_content", PList [PStr "  Light  "; PStr "   "; PInt 6; PStr ""])])
  = [mkParagraph "Light" 19 (Some 6%Z); mkParagraph "6" 19 None]
  /\ strip "Light" = "Light"
  /\ (12 <= 19 <= 24)%Z.
Proof.
  split; [vm_compute; reflexivity |].
  apply (body_text_is_clean (PStr "bullet_point_slide")
           [("main_content", PList [PStr "  Light  "; PStr "   "; PInt 6; PStr ""])]
           1001 (mkParagraph "Light" 19 (Some 6%Z))).
  vm_compute. left. reflexivity.
Defined.

(* ===================================================================== *)
(** ** The assembler: pictures *)
(* ===================================================================== *)

Lemma read_chunks_spec (chunks : list (list Byte.byte)) (broken : option string) :
  forall (size : Z) (image_stream data : list Byte.byte),
    (size <= max_size)%Z ->
    read_chunks chunks broken size image_stream = inl data
    <-> broken = None
        /\ (size + Z.of_nat (List.length (concat chunks)) <= max_size)%Z
        /\ data = (image_stream ++ concat chunks)%list.
Proof.
  induction chunks as [| chunk rest IH]; intros size stream data Hsize;
    cbn [read_chunks concat].
  - rewrite app_nil_r. destruct broken as [message |].
    + split; [discriminate | intros (H & _); discriminate H].
    + split.
      * intros H. injection H as <-. repeat split. simpl. lia.
      * intros (_ & _ & ->). reflexivity.
  - rewrite length_app, Nat2Z.inj_add.
    destruct (max_size <? size + Z.of_nat (List.length chunk))%Z eqn:E.
    + apply Z.ltb_lt in E. split; [discriminate | intros (_ & H & _); lia].
    + apply Z.ltb_ge in E. rewrite (IH _ _ data E), <- app_assoc.
      split; intros (Hb & Hs & Hd); repeat split; auto; lia.
Qed.

(** A picture is added from a URL exactly when the request and the whole
    body arrive without a failure, the body is not empty and has at most
    20 MiB, and the picture reader accepts it; the picture then holds the
    chunks of the body in order.  The content type plays no part.  Every
    failure of [_add_image_to_slide], on any source, is a [ValueError]. *)
Theorem image_added_iff :
  forall (http_get : string -> http_outcome)
         (add_picture : list Byte.byte -> option exn),
    (forall (url : string) (data : list Byte.byte),
        add_image_to_slide http_get add_picture (UrlValue (PStr url)) = Ok data
        <-> exists (content_type : string) (chunks : list (list Byte.byte)),
              http_get url = HttpBody content_type chunks None
              /\ data = concat chunks
              /\ (0 < Z.of_nat (List.length data) <= max_size)%Z
              /\ add_picture data = None)
    /\ (forall (image_source : image_source) (e : exn),
           add_image_to_slide http_get add_picture image_source = Raise e ->
           exn_kind_of e = ValueError).
Proof.
  intros http_get add_picture. split.
  - intros url data. unfold add_image_to_slide, fetch_image. split.
    + destruct (http_get url) as [| message | ct chunks broken] eqn:Hget;
        try discriminate.
      destruct (read_chunks chunks broken 0 []) as [stream | f] eqn:Hread.
      * apply read_chunks_spec in Hread; [| unfold max_size; lia].
        destruct Hread as (-> & Hmax & ->). cbn [app] in *.
        destruct (Z.of_nat (List.length (concat chunks)) =? 0)%Z eqn:E0;
          [discriminate |].
        destruct (add_picture (concat chunks)) as [e |] eqn:Hadd; [discriminate |].
        intros H. injection H as <-. exists ct, chunks.
        apply Z.eqb_neq in E0. repeat split; auto; lia.
      * destruct f; discriminate.
    + intros (ct & chunks & Hget & -> & [Hpos Hmax] & Hadd). rewrite Hget.
      assert (Hread : read_chunks chunks None 0 [] = inl (concat chunks)).
      { apply read_chunks_spec; [unfold max_size; lia |]. repeat split. lia. }
      rewrite Hread.
      assert (E0 : (Z.of_nat (List.length (concat chunks)) =? 0)%Z = false)
        by (apply Z.eqb_neq; lia).
      rewrite E0, Hadd. reflexivity.
  - intros image_source e. unfold add_image_to_slide.
    match goal with
    | |- match ?x with _ => _ end = _ -> _ => destruct x as [stream | [| message | e0]]
    end; intros H; try discriminate H; injection H as <-; reflexivity.
Qed.

Lemma caption_never_fits : caption_fits = false.
Proof. vm_compute. reflexivity. Qed.

Lemma caption_shapes_empty (content : pydict) :
  caption_shapes content = Ok [] \/ exists e, caption_shapes content = Raise e.
Proof.
  unfold caption_shapes. rewrite caption_never_fits.
  destruct (py_join nl (dict_get_default content "main_content" (PList [])))
    as [joined | e]; cbn [bind]; [left | right; eauto].
  destruct (truthy (PStr (strip joined)) && negb (startswith "Error" (strip joined)));
    reflexivity.
Qed.

(** The shapes of an image slide whose title has been set. *)
Lemma image_shapes_forms (http_get : string -> http_outcome)
      (add_picture : list Byte.byte -> option exn)
      (b64decode : pyval -> exc (list Byte.byte))
      (text_outcome : text_setter) (slide_title : pyval) (content : pydict) :
  set_text text_outcome OfShape slide_title = Ok tt ->
  exists visual : list shape,
    image_shapes http_get add_picture b64decode text_outcome slide_title content
    = Ok (TitleText slide_title :: visual)
    /\ ((pick_image_source content = None
         /\ visual = [NoteBox "(Visual source missing for this slide)"])
        \/ (exists message,
               visual = [NoteBox ("(Error adding visual: " ++ message ++ ")")])
        \/ (exists picture, visual = [Picture picture])
        \/ (exists picture message,
               visual = [Picture picture;
                         NoteBox ("(Error adding visual: " ++ message ++ ")")])).
Proof.
  intros Hset. unfold image_shapes. rewrite Hset. cbn [bind].
  destruct (pick_image_source content) as [src |].
  - match goal with
    | |- context [match ?x with Ok _ => _ | Raise _ => _ end] =>
        destruct x as [picture | e]
    end.
    + destruct (caption_shapes_empty content) as [-> | (e & ->)].
      * eexists. split; [reflexivity |]. right. right. left. eauto.
      * eexists. split; [reflexivity |]. right. right. right. eauto.
    + eexists. split; [reflexivity |]. right. left. eauto.
  - eexists. split; [reflexivity |]. left. split; reflexivity.
Qed.

(** An image slide never gets a caption: the position of the caption box,
    a number of EMU, is compared with the slide height in inches, so the
    box never fits.  The title is set first and outside any [try]: a title
    that is not a text and that the library refuses ends the assembling
    with the library's exception.  Otherwise the slide holds its title and
    then a notice (no source, or the picture could not be added), the
    picture, or the picture followed by a notice: when [main_content]
    cannot be joined the failure is reported although the picture is in
    place. *)
Theorem image_slide_has_no_caption :
  forall (http_get : string -> http_outcome)
         (add_picture : list Byte.byte -> option exn)
         (b64decode : pyval -> exc (list Byte.byte))
         (text_outcome : text_setter) (slide_title : pyval) (content : pydict),
    (forall (shapes : list shape) (caption : string),
        image_shapes http_get add_picture b64decode text_outcome slide_title content
        = Ok shapes ->
        ~ In (CaptionBox caption) shapes)
    /\ (forall e : exn,
           is_text slide_title = false ->
           text_outcome OfShape slide_title = Some e ->
           image_shapes http_get add_picture b64decode text_outcome slide_title content
           = Raise e)
    /\ (is_text slide_title = true \/ text_outcome OfShape slide_title = None ->
        exists visual : list shape,
          image_shapes http_get add_picture b64decode text_outcome slide_title content
          = Ok (TitleText slide_title :: visual)
          /\ ((pick_image_source content = None
               /\ visual = [NoteBox "(Visual source missing for this slide)"])
              \/ (exists message,
                     visual = [NoteBox ("(Error adding visual: " ++ message ++ ")")])
              \/ (exists picture, visual = [Picture picture])
              \/ (exists picture message,
                     visual = [Picture picture;
                               NoteBox ("(Error adding visual: " ++ message ++ ")")]))).
Proof.
  intros http_get add_picture b64decode text_outcome slide_title content.
  split; [| split].
  - intros shapes caption Hrun Hin.
    destruct (set_text text_outcome OfShape slide_title) as [[] | e] eqn:Hset.
    + destruct (image_shapes_forms http_get add_picture b64decode text_outcome
                  slide_title content Hset) as (visual & Heq & Hcases).
      rewrite Heq in Hrun. inversion Hrun; subst shapes.
      destruct Hin as [H | Hin]; [discriminate H |].
      destruct Hcases as [(_ & ->) | [(m & ->) | [(p & ->) | (p & m & ->)]]];
        simpl in Hin; intuition discriminate.
    + unfold image_shapes in Hrun. rewrite Hset in Hrun. discriminate Hrun.
  - intros e Htext Hout. unfold image_shapes, set_text.
    destruct slide_title; try discriminate Htext; now rewrite Hout.
  - intros H. apply image_shapes_forms.
    destruct H as [H | H]; [now apply set_text_text |].
    unfold set_text. destruct slide_title; try reflexivity; now rewrite H.
Qed.

(* ===================================================================== *)
(** ** The structure screen: sorting, renumbering, removal *)
(* ===================================================================== *)

Lemma collect_edits_all (widgets : nat -> slide_edit) (l : list pydict) :
  forall start : nat,
    (forall i, start <= i < start + List.length l -> edit_remove (widgets i) = false) ->
    collect_edits widgets start l
    = Some (map (fun i => edit_entry i (widgets i)) (seq start (List.length l))).
Proof.
  induction l as [| d l IH]; intros start H; [reflexivity |].
  cbn [collect_edits List.length seq map].
  rewrite (H start) by (simpl; lia).
  rewrite (IH (S start)); [reflexivity |].
  intros i Hi. apply H. simpl. lia.
Qed.

Lemma collect_edits_removed (widgets : nat -> slide_edit) (l : list pydict) :
  forall start i : nat,
    start <= i < start + List.length l ->
    edit_remove (widgets i) = true ->
    collect_edits widgets start l = None.
Proof.
  induction l as [| d l IH]; intros start i Hi Hr; simpl in Hi; [lia |].
  cbn [collect_edits]. destruct (edit_remove (widgets start)) eqn:E; [reflexivity |].
  assert (Hne : i <> start) by (intros ->; congruence).
  rewrite (IH (S start) i); [reflexivity | lia | exact Hr].
Qed.

Lemma insert_by_map {A B : Type} (f : A -> B) (key : B -> Z) (a : A) (l : list A) :
  insert_by key (f a) (map f l) = map f (insert_by (fun x => key (f x)) a l).
Proof.
  induction l as [| b l IH]; simpl; [reflexivity |].
  destruct (key (f a) <=? key (f b))%Z; simpl; [reflexivity | now rewrite IH].
Qed.

Lemma sort_by_map {A B : Type} (f : A -> B) (key : B -> Z) (l : list A) :
  sort_by key (map f l) = map f (sort_by (fun x => key (f x)) l).
Proof.
  unfold sort_by. induction l as [| a l IH]; simpl; [reflexivity |].
  rewrite IH. apply insert_by_map.
Qed.

Lemma insert_by_perm {A : Type} (key : A -> Z) (a : A) (l : list A) :
  Permutation (insert_by key a l) (a :: l).
Proof.
  induction l as [| b l IH]; simpl; [apply Permutation_refl |].
  destruct (key a <=? key b)%Z; [apply Permutation_refl |].
  transitivity (b :: a :: l); [now apply perm_skip | apply perm_swap].
Qed.

Lemma sort_by_perm {A : Type} (key : A -> Z) (l : list A) :
  Permutation (sort_by key l) l.
Proof.
  unfold sort_by. induction l as [| a l IH]; simpl; [constructor |].
  transitivity (a :: fold_right (insert_by key) [] l);
    [apply insert_by_perm | now apply perm_skip].
Qed.

Lemma insert_by_sorted (widgets : nat -> slide_edit) (a : nat) (l : list nat) :
  Forall (fun b => a < b) l ->
  StronglySorted (sorts_before widgets) l ->
  StronglySorted (sorts_before widgets)
                 (insert_by (fun i => edit_order (widgets i)) a l).
Proof.
  intros Hlt Hs. induction Hs as [| b l Hs IH Hb]; simpl.
  - constructor; constructor.
  - inversion Hlt as [| ? ? Hab Hl]; subst.
    destruct (edit_order (widgets a) <=? edit_order (widgets b))%Z eqn:E.
    + apply Z.leb_le in E. constructor; [constructor; assumption |].
      constructor.
      * unfold sorts_before. lia.
      * rewrite Forall_forall in *. intros x Hx.
        specialize (Hb x Hx). specialize (Hl x Hx). unfold sorts_before in *. lia.
    + apply Z.leb_gt in E. constructor; [apply IH; assumption |].
      rewrite Forall_forall. intros x Hx.
      apply (Permutation_in x
               (insert_by_perm (fun i => edit_order (widgets i)) a l)) in Hx.
      destruct Hx as [<- | Hx].
      * left. exact E.
      * rewrite Forall_forall in Hb. exact (Hb x Hx).
Qed.

Lemma sort_by_sorted (widgets : nat -> slide_edit) (l : list nat) :
  StronglySorted lt l ->
  StronglySorted (sorts_before widgets)
                 (sort_by (fun i => edit_order (widgets i)) l).
Proof.
  unfold sort_by. induction 1 as [| a l Hs IH Ha]; simpl; [constructor |].
  apply insert_by_sorted; [| exact IH].
  rewrite Forall_forall in *. intros x Hx. apply Ha.
  apply (Permutation_in x (sort_by_perm (fun i => edit_order (widgets i)) l)).
  exact Hx.
Qed.

Lemma seq_sorted (n : nat) : forall start : nat, StronglySorted lt (seq start n).
Proof.
  induction n as [| n IH]; intros start; simpl; constructor; [apply IH |].
  rewrite Forall_forall. intros x Hx. apply in_seq in Hx. lia.
Qed.

Lemma renumber_entries (widgets : nat -> slide_edit) (l : list nat) :
  forall idx : nat,
    renumber idx (map (fun i => edit_entry i (widgets i)) l)
    = screen_order widgets idx l.
Proof.
  induction l as [| i l IH]; intros idx; [reflexivity |].
  cbn [map renumber screen_order]. rewrite IH. reflexivity.
Qed.

Lemma length_screen_order (widgets : nat -> slide_edit) (l : list nat) :
  forall idx : nat, List.length (screen_order widgets idx l) = List.length l.
Proof. induction l as [| i l IH]; intros idx; simpl; [reflexivity | now rewrite IH]. Qed.

Lemma pass_tail (session : list pydict) (add_new_slide : bool) (n : nat) :
  session <> [] -> List.length session = n ->
  (if add_new_slide then
     ((session
       ++ [new_slide (if truthy (PList (map PDict session))
                      then (Z.of_nat (List.length session) + 1)%Z else 1%Z)])%list,
      true)
   else (session, false))
  = ((session ++ (if add_new_slide then [new_slide (Z.of_nat n + 1)] else []))%list,
     add_new_slide).
Proof.
  intros Hne <-. destruct session as [| d rest]; [now elim Hne |].
  destruct add_new_slide; [reflexivity | now rewrite app_nil_r].
Qed.

(** A run of the structure screen in which no [Remove] button is pressed
    sorts the slides by their [Order] input, slides with the same [Order]
    staying in screen order, and numbers them by position: the structure
    computed holds, for a permutation [shown] of the screen indices that
    is sorted in this way, the titles and types entered, numbered from 1.
    The session keeps that structure, or the previous one when the two are
    equal; [Add New Slide] appends a slide with the next number. *)
Theorem edit_pass_sorts_and_renumbers :
  forall (widgets : nat -> slide_edit) (add_new_slide : bool)
         (edited_structure : list pydict),
    edited_structure <> [] ->
    (forall i, i < List.length edited_structure -> edit_remove (widgets i) = false) ->
    exists (shown : list nat) (session : list pydict),
      Permutation shown (seq 0 (List.length edited_structure))
      /\ StronglySorted (sorts_before widgets) shown
      /\ (session = screen_order widgets 0 shown
          \/ (session = edited_structure
              /\ py_eq (PList (map PDict (screen_order widgets 0 shown)))
                       (PList (map PDict edited_structure)) = true))
      /\ structure_pass widgets add_new_slide edited_structure
         = ((session
             ++ (if add_new_slide
                 then [new_slide (Z.of_nat (List.length edited_structure) + 1)]
                 else []))%list,
            add_new_slide).
Proof.
  intros widgets add edited Hne Hrem.
  set (key := fun i => edit_order (widgets i)).
  set (shown := sort_by key (seq 0 (List.length edited))).
  assert (Hperm : Permutation shown (seq 0 (List.length edited)))
    by apply sort_by_perm.
  assert (Hfinal : final_structure
                     (map (fun i => edit_entry i (widgets i))
                          (seq 0 (List.length edited)))
                   = screen_order widgets 0 shown).
  { unfold final_structure.
    rewrite (sort_by_map (fun i => edit_entry i (widgets i)) sort_key).
    apply renumber_entries. }
  assert (Hlen : List.length (screen_order widgets 0 shown) = List.length edited).
  { rewrite length_screen_order, (Permutation_length Hperm). apply length_seq. }
  assert (Hrun : structure_pass widgets add edited
                 = (let session :=
                      if negb (py_eq (PList (map PDict (screen_order widgets 0 shown)))
                                     (PList (map PDict edited)))
                      then screen_order widgets 0 shown else edited in
                    if add then
                      ((session
                        ++ [new_slide (if truthy (PList (map PDict session))
                                       then (Z.of_nat (List.length session) + 1)%Z
                                       else 1%Z)])%list, true)
                    else (session, false))).
  { unfold structure_pass. destruct edited as [| d rest] eqn:Hed; [now elim Hne |].
    rewrite <- Hed in *.
    rewrite (collect_edits_all widgets edited 0) by (intros i Hi; apply Hrem; lia).
    rewrite Hfinal. reflexivity. }
  cbv zeta in Hrun.
  destruct (negb (py_eq (PList (map PDict (screen_order widgets 0 shown)))
                        (PList (map PDict edited)))) eqn:Hneq.
  - exists shown, (screen_order widgets 0 shown).
    split; [exact Hperm |]. split; [apply sort_by_sorted, seq_sorted |].
    split; [now left |].
    rewrite Hrun. apply pass_tail; [| exact Hlen].
    intros H0. rewrite H0 in Hlen. destruct edited; [now elim Hne | discriminate Hlen].
  - exists shown, edited.
    split; [exact Hperm |]. split; [apply sort_by_sorted, seq_sorted |].
    split; [right; split; [reflexivity | now apply negb_false_iff in Hneq] |].
    rewrite Hrun. apply pass_tail; [exact Hne | reflexivity].
Qed.

Lemma edit_pass_sorts_and_renumbers_witness :
  structure_pass sample_widgets true [bullet_slide; bullet_slide; bullet_slide]
  = ([[("slide_number", PInt 1); ("slide_title", PStr "Intro");
       ("slide_type", PStr "title_slide")];
      [("slide_number", PInt 2); ("slide_title", PStr "Summary");
       ("slide_type", PStr "conclusion_slide")];
      [("slide_number", PInt 3); ("slide_title", PStr "Leaves");
       ("slide_type", PStr "image_slide")];
      new_slide 4], true)
  /\ exists (shown : list nat) (session : list pydict),
       Permutation shown (seq 0 3)
       /\ structure_pass sample_widgets true [bullet_slide; bullet_slide; bullet_slide]
          = ((session ++ [new_slide 4])%list, true).
Proof.
  split; [vm_compute; reflexivity |].
  destruct (edit_pass_sorts_and_renumbers sample_widgets true
              [bullet_slide; bullet_slide; bullet_slide])
    as (shown & session & Hperm & _ & _ & Hrun).
  - discriminate.
  - intros i Hi. destruct i as [| [| i]]; reflexivity.
  - exists shown, session. split; [exact Hperm | exact Hrun].
Defined.

(** Pressing a [Remove] button removes nothing: the run ends in a rerun
    before the removal is carried out, and the structure of the session is
    the one the run started with, whatever else was edited. *)
Theorem remove_button_changes_nothing :
  forall (widgets : nat -> slide_edit) (add_new_slide : bool)
         (edited_structure : list pydict) (i : nat),
    i < List.length edited_structure ->
    edit_remove (widgets i) = true ->
    structure_pass widgets add_new_slide edited_structure = (edited_structure, true).
Proof.
  intros widgets add edited i Hi Hr. unfold structure_pass.
  destruct edited as [| d rest] eqn:Hed; [simpl in Hi; lia |].
  rewrite <- Hed in *.
  rewrite (collect_edits_removed widgets edited 0 i); [reflexivity | lia | exact Hr].
Qed.

Lemma remove_button_changes_nothing_witness :
  structure_pass removing_widgets false photosynthesis_structure
  = (photosynthesis_structure, true).
Proof.
  apply (remove_button_changes_nothing removing_widgets false
           photosynthesis_structure 1).
  - simpl. lia.
  - reflexivity.
Defined.

(* ===================================================================== *)
(** ** The download screen: the file name *)
(* ===================================================================== *)

Lemma lower_char_idem (c : ascii) : lower_char (lower_char c) = lower_char c.
Proof. destruct c as [[] [] [] [] [] [] [] []]; vm_compute; reflexivity. Qed.

Lemma lower_idem (s : string) : lower (lower s) = lower s.
Proof.
  induction s as [| c s IH]; simpl; [reflexivity |].
  now rewrite lower_char_idem, IH.
Qed.







(* ===================================================================== *)
(** ** The document processor *)
(* ===================================================================== *)

Lemma last_component_plain (e : string) :
  forall acc : string, has_char "." e = false -> last_component acc e = acc ++ e.
Proof.
  induction e as [| c e IH]; intros acc H; simpl; [now rewrite append_nil_r |].
  unfold has_char in H. simpl in H. apply orb_false_iff in H as [Hc He].
  destruct (Ascii.eqb c ".") eqn:E.
  - apply Ascii.eqb_eq in E. subst c. discriminate Hc.
  - rewrite (IH _ He), append_assoc. reflexivity.
Qed.

Lemma last_component_after_dot (stem e : string) :
  forall acc : string, last_component acc (stem ++ "." ++ e) = last_component "" e.
Proof.
  induction stem as [| c stem IH]; intros acc; simpl; [reflexivity |].
  destruct (Ascii.eqb c "."); apply IH.
Qed.

Lemma lower_char_dot (c : ascii) : Ascii.eqb "." (lower_char c) = Ascii.eqb "." c.
Proof. destruct c as [[] [] [] [] [] [] [] []]; vm_compute; reflexivity. Qed.

Lemma has_dot_lower (e : string) : has_char "." (lower e) = has_char "." e.
Proof.
  unfold has_char. induction e as [| c e IH]; [reflexivity |].
  cbn [lower list_ascii_of_string existsb].
  now rewrite lower_char_dot, IH.
Qed.

(** The reader is chosen by the text after the last dot of the file name
    alone, whatever its case: [Lecture.Notes.PDF] is read as [pdf], and so
    is a file whose whole name is [pdf]. *)
Theorem document_dispatch_by_extension :
  forall (read_pdf : list Byte.byte -> exc (list (exc string)))
         (read_docx : list Byte.byte -> exc (list string))
         (decode_utf8_ignore : list Byte.byte -> string)
         (stem e : string) (data : list Byte.byte),
    has_char "." e = false ->
    document_text read_pdf read_docx decode_utf8_ignore (stem ++ "." ++ e) data
    = document_text read_pdf read_docx decode_utf8_ignore (lower e) data.
Proof.
  intros read_pdf read_docx decode stem e data He. unfold document_text.
  rewrite last_component_after_dot.
  rewrite (last_component_plain e "" He).
  rewrite (last_component_plain (lower e) "");
    [| rewrite has_dot_lower; exact He].
  cbn [append]. rewrite lower_idem. reflexivity.
Qed.

Lemma document_dispatch_by_extension_witness :
  document_text (fun _ => Ok [Ok "Light."; Ok "Leaves."]) (fun _ => Ok [])
    (fun _ => "") "Lecture.Notes.PDF" sample_bytes
  = "Light." ++ nl ++ "Leaves." ++ nl.
Proof.
  etransitivity.
  - exact (document_dispatch_by_extension
             (fun _ => Ok [Ok "Light."; Ok "Leaves."]) (fun _ => Ok [])
             (fun _ => "") "Lecture.Notes" "PDF" sample_bytes eq_refl).
  - reflexivity.
Defined.

Lemma concat_cons (x : string) (l : list string) :
  String.concat "" (x :: l) = x ++ String.concat "" l.
Proof. destruct l; simpl; [now rewrite append_nil_r | reflexivity]. Qed.

Lemma page_texts_all (texts : list string) :
  forall text : string,
    page_texts text (map Ok texts)
    = Ok (text ++ String.concat "" (map (fun t => t ++ nl) texts)).
Proof.
  induction texts as [| t texts IH]; intros text.
  - simpl. now rewrite append_nil_r.
  - cbn [map page_texts bind]. rewrite IH, concat_cons, !append_assoc. reflexivity.
Qed.

Lemma page_texts_fails (before after : list (exc string)) (e : exn) :
  forall text : string,
    exists e' : exn, page_texts text (before ++ Raise e :: after) = Raise e'.
Proof.
  induction before as [| p before IH]; intros text; simpl; [eauto |].
  destruct p as [t | e0]; cbn [bind]; [apply IH | eauto].
Qed.

(** The text of a PDF is all or nothing: when every page gives its text,
    the result is the texts of the pages, each followed by a line feed;
    when one page fails, the result is empty, whatever the pages before it
    gave. *)
Theorem pdf_text_all_or_nothing :
  (forall texts : list string,
      extract_text_from_pdf (Ok (map Ok texts))
      = String.concat "" (map (fun t => t ++ nl) texts))
  /\ (forall (before after : list (exc string)) (e : exn),
         extract_text_from_pdf (Ok (before ++ Raise e :: after)%list) = "").
Proof.
  split.
  - intros texts. unfold extract_text_from_pdf. cbn [bind].
    now rewrite page_texts_all.
  - intros before after e. unfold extract_text_from_pdf. cbn [bind].
    destruct (page_texts_fails before after e "") as (e' & ->). reflexivity.
Qed.

(** The temporary copy of an upload, once it has been created.  At most
    that copy is left behind, and it is left exactly when the write or the
    removal fails: a failure of the close alone, after the path is known,
    still has the copy removed.  A text is returned exactly when the
    write, the close and the removal all succeed; it is the text of the
    dispatch by extension, whatever the readers do, and no file is left.
    Otherwise an exception of the disk goes to the caller: that of the
    removal before that of the close, that of the close before that of
    the write. *)
Theorem temporary_copy_cleanup :
  forall (read_pdf : list Byte.byte -> exc (list (exc string)))
         (read_docx : list Byte.byte -> exc (list string))
         (decode_utf8_ignore : list Byte.byte -> string)
         (d : disk) (name : string) (data : list Byte.byte) (tmp_file_path : string)
         (result : exc string) (left_behind : list string),
    disk_create d = Ok tmp_file_path ->
    tmp_file_path <> "" ->
    process_document read_pdf read_docx decode_utf8_ignore d (Some (name, data))
    = (result, left_behind) ->
    (left_behind = [] \/ left_behind = [tmp_file_path])
    /\ (left_behind = [] <-> disk_write d = None /\ disk_remove d = None)
    /\ ((exists text, result = Ok text)
        <-> disk_write d = None /\ disk_close d = None /\ disk_remove d = None)
    /\ (forall text, result = Ok text ->
          text = document_text read_pdf read_docx decode_utf8_ignore name data
          /\ left_behind = [])
    /\ (forall e, result = Raise e ->
          match disk_write d, disk_close d, disk_remove d with
          | Some e_write, None, _ => e = e_write
          | Some _, Some e_close, _ => e = e_close
          | None, _, Some e_remove => e = e_remove
          | None, Some e_close, None => e = e_close
          | None, None, None => False
          end).
Proof.
  intros read_pdf read_docx decode d name data path result left Hcreate Hpath.
  unfold process_document, clean_up.
  rewrite Hcreate, (truthy_nonempty _ Hpath).
  destruct (disk_write d) as [ew |], (disk_close d) as [ec |],
           (disk_remove d) as [er |];
    intros Hrun; inversion Hrun; subst result left;
    (split; [auto |]);
    (split; [first [split; [discriminate | intros [? ?]; discriminate]
                   | split; auto] |]);
    (split; [first [split; [intros [? ?]; discriminate
                           | intros (? & ? & ?); discriminate]
                   | split; eauto] |]);
    (split; [intros ? H; inversion H; auto | intros ? H; inversion H; auto]).
Qed.

Lemma temporary_copy_cleanup_witness :
  process_document (fun _ => Raise (mkExn OtherError "EOF marker not found"))
    (fun _ => Ok []) (fun _ => "")
    (mkDisk (Ok "/tmp/tmpab12.pdf") None
            (Some (mkExn OtherError "No space left on device")) None)
    (Some ("notes.pdf", sample_bytes))
  = (Raise (mkExn OtherError "No space left on device"), [])
  /\ disk_write (mkDisk (Ok "/tmp/tmpab12.pdf") None
                        (Some (mkExn OtherError "No space left on device")) None)
     = None.
Proof.
  split; [reflexivity |].
  apply (proj1 (proj1 (proj1 (proj2 (temporary_copy_cleanup
                    (fun _ => Raise (mkExn OtherError "EOF marker not found"))
                    (fun _ => Ok []) (fun _ => "")
                    (mkDisk (Ok "/tmp/tmpab12.pdf") None
                            (Some (mkExn OtherError "No space left on device")) None)
                    "notes.pdf" sample_bytes "/tmp/tmpab12.pdf"
                    (Raise (mkExn OtherError "No space left on device")) []
                    eq_refl ltac:(discriminate) eq_refl))) eq_refl)).
Defined.
